(** * octavia-perf-test: collectors, aggregator and bottleneck detector

    A shallow embedding of the telemetry core of the repository:

    - [collectors/aggregator.py]: [MetricsAggregator.calculate_rates],
      [MetricsAggregator.aggregate_haproxy_stats],
      [MetricsAggregator.aggregate_system_metrics] and
      [CollectionScheduler._collection_loop];
    - [collectors/storage.py]: the [haproxy_stats] table with
      [store_haproxy_stats] and [get_haproxy_stats];
    - [analysis/bottleneck_detector.py]: the [BottleneckDetector] passes,
      [analyze] and [get_summary].

    Number model.  Python integers are [Z].  Python floats are exact
    rationals ([Qc]): every [/] of the source is the exact quotient, so
    rounding of IEEE doubles is not represented.  Strings are [string]
    (bytes, ASCII case mapping).  Dictionaries are [gmap string _]. *)

From Stdlib Require Import ZArith QArith Qcanon Qround String Ascii.
From stdpp Require Import gmap strings list fin_maps sorting.

Open Scope Z_scope.

(** ** Python values and the operators the sources use on them *)

Module Py.

(** The values a row dictionary holds: [None], an [int], a [float], a
    [str].  These are the storage classes the SQLite rows and the CSV
    reader hand to the analysed functions. *)
Inductive pyval : Type :=
| PNone
| PInt (z : Z)
| PFloat (q : Qc)
| PStr (s : string).

Abbreviation dict := (gmap string pyval).

Definition of_Z (z : Z) : Qc := Qc_of_Z z.

(** [bool(v)] *)
Definition truthy (v : pyval) : bool :=
  match v with
  | PNone => false
  | PInt z => negb (z =? 0)
  | PFloat q => negb (bool_decide (q = 0%Qc))
  | PStr s => negb (String.eqb s "")
  end.

(** [d.get(k, default)] *)
Definition get (d : dict) (k : string) (default : pyval) : pyval :=
  match d !! k with
  | Some v => v
  | None => default
  end.

(** [a or b] *)
Definition or (a b : pyval) : pyval := if truthy a then a else b.

(** The numeric value of an [int] or a [float]; nothing else is a
    number. *)
Definition as_num (v : pyval) : option Qc :=
  match v with
  | PInt z => Some (of_Z z)
  | PFloat q => Some q
  | _ => None
  end.

(** Ordering comparisons.  Numbers compare by value, strings
    lexicographically, and any other pairing raises [TypeError]
    (result [None]). *)
Definition cmp (onum : Qc → Qc → bool) (ostr : string → string → bool)
    (a b : pyval) : option bool :=
  match a, b with
  | PStr s, PStr t => Some (ostr s t)
  | _, _ =>
      match as_num a, as_num b with
      | Some x, Some y => Some (onum x y)
      | _, _ => None
      end
  end.

Definition Qc_leb (x y : Qc) : bool := bool_decide (x ≤ y)%Qc.
Definition Qc_ltb (x y : Qc) : bool := bool_decide (x < y)%Qc.

(** [a <= b], [a > b], [a >= b] *)
Definition le (a b : pyval) : option bool := cmp Qc_leb String.leb a b.
Definition gt (a b : pyval) : option bool :=
  cmp (λ x y, Qc_ltb y x) (λ s t, String.ltb t s) a b.
Definition ge (a b : pyval) : option bool :=
  cmp (λ x y, Qc_leb y x) (λ s t, String.leb t s) a b.

(** [a / b]: true division always yields a float; a zero divisor
    raises [ZeroDivisionError], a non-number [TypeError]. *)
Definition truediv (a b : pyval) : option Qc :=
  x ← as_num a;
  y ← as_num b;
  if bool_decide (y = 0%Qc) then None else Some (x / y)%Qc.

(** Floor of a rational. *)
Definition Qc_floor (q : Qc) : Z := Qfloor (this q).

(** [a // n] for a positive integer literal [n]. *)
Definition floordiv (a : pyval) (n : Z) : option pyval :=
  match a with
  | PInt z => Some (PInt (z / n))
  | PFloat q => Some (PFloat (of_Z (Qc_floor (q / of_Z n)%Qc)))
  | _ => None
  end.

(** ASCII [str.lower()]. *)
Definition lower_ascii (c : ascii) : ascii :=
  let n := nat_of_ascii c in
  if (Nat.leb 65 n && Nat.leb n 90)%bool then ascii_of_nat (n + 32) else c.

Fixpoint lower (s : string) : string :=
  match s with
  | EmptyString => EmptyString
  | String c s' => String (lower_ascii c) (lower s')
  end.

(** [needle in s] on strings. *)
Fixpoint contains (needle s : string) : bool :=
  String.prefix needle s
  || match s with
     | EmptyString => false
     | String _ s' => contains needle s'
     end.

(** [int(v)]: identity on an [int], truncation towards zero on a
    [float], [TypeError] on [None].  On a [str] it is the decimal
    parser of the Python runtime, taken as the parameter [int_of_str]
    ([None] stands for [ValueError]). *)
Definition int (int_of_str : string → option Z) (v : pyval) : option Z :=
  match v with
  | PNone => None
  | PInt z => Some z
  | PFloat q => Some (Z.quot (Qnum (this q)) (Z.pos (Qden (this q))))
  | PStr s => int_of_str s
  end.

(** A reading of [int(s)] for plain decimal numerals (an optional
    [-] and digits), to run the embedding on examples. *)
Fixpoint digits_value (acc : Z) (s : string) : option Z :=
  match s with
  | EmptyString => Some acc
  | String c s' =>
      d ← Ascii.is_nat c;
      digits_value (10 * acc + Z.of_nat d) s'
  end.

Definition int_of_digits (s : string) : option Z :=
  match s with
  | EmptyString => None
  | String "-"%char (String _ _ as s') => Z.opp <$> digits_value 0 s'
  | _ => digits_value 0 s
  end.

(** [list.sort(key=...)] and SQL [ORDER BY]: a stable sort.  [le x y]
    is the comparison of the keys; among equal keys the input order is
    kept, which determines the result of any stable sort. *)
Fixpoint insert_sorted {A : Type} (le : A → A → bool) (x : A) (l : list A)
    : list A :=
  match l with
  | [] => [x]
  | y :: l' => if le x y then x :: y :: l' else y :: insert_sorted le x l'
  end.

Definition stable_sort {A : Type} (le : A → A → bool) (l : list A) : list A :=
  foldr (insert_sorted le) [] l.

End Py.

(** ** collectors/aggregator.py: MetricsAggregator *)

Module Aggregator.
Import Py.

(** The key [f'{key}_per_sec'] of a rate. *)
Definition rate_key (key : string) : string := key +:+ "_per_sec".

(** [MetricsAggregator.calculate_rates(current, previous,
    interval_seconds)].  The loop [for key in current] inserts under
    pairwise distinct keys, so the order of iteration is immaterial. *)
Definition calculate_rates (current previous : gmap string Z)
    (interval_seconds : Qc) : gmap string Qc :=
  if bool_decide (interval_seconds ≤ 0)%Qc then ∅
  else
    map_fold
      (λ key cur rates,
         match previous !! key with
         | Some prev =>
             let delta := cur - prev in
             if bool_decide (0 ≤ delta)
             then <[rate_key key := (of_Z delta / interval_seconds)%Qc]> rates
             else rates
         | None => rates
         end)
      ∅ current.

(** The rate of one field, as the body of the loop computes it. *)
Definition rate_of (previous : gmap string Z) (interval : Qc)
    (key : string) (cur : Z) : option Qc :=
  prev ← previous !! key;
  if bool_decide (0 ≤ cur - prev) then Some (of_Z (cur - prev) / interval)%Qc
  else None.

(** The aggregator object: the two private slots of [__init__]. *)
Record aggregator : Type := {
  _prev_haproxy_stats : option (gmap string Z);
  _prev_timestamp : option Qc
}.

Definition init : aggregator :=
  {| _prev_haproxy_stats := None; _prev_timestamp := None |}.

Record derived_metrics : Type := {
  connection_saturation_pct : pyval;
  error_rate_pct : pyval;
  healthy_servers : Z;
  total_servers : Z;
  requests_per_sec : pyval;
  throughput_in_bps : pyval;
  throughput_out_bps : pyval
}.

Record summary_counts : Type := {
  frontend_count : Z;
  backend_count : Z;
  server_count : Z
}.

Record haproxy_aggregate : Type := {
  timestamp : string;
  counters : gmap string Z;
  rates : gmap string Qc;
  derived : derived_metrics;
  summary : summary_counts
}.

Section WithRuntime.
(** [int(s)] on a [str]. *)
Variable int_of_str : string → option Z.

(** [sum(int(s.get(field, 0) or 0) for s in rows)] *)
Fixpoint sum_field (field : string) (rows : list dict) : option Z :=
  match rows with
  | [] => Some 0
  | s :: rows' =>
      x ← int int_of_str (or (get s field (PInt 0)) (PInt 0));
      r ← sum_field field rows';
      Some (x + r)
  end.

Definition svname_is (name : string) (s : dict) : bool :=
  match s !! "svname" with
  | Some (PStr n) => String.eqb n name
  | _ => false
  end.

Definition status_is (name : string) (s : dict) : bool :=
  match s !! "status" with
  | Some (PStr n) => String.eqb n name
  | _ => false
  end.

(** [rates.get(k, 0)] *)
Definition rate_or_zero (rates : gmap string Qc) (k : string) : pyval :=
  match rates !! k with
  | Some r => PFloat r
  | None => PInt 0
  end.

Definition dict_truthy (d : option (gmap string Z)) : bool :=
  match d with
  | Some m => negb (bool_decide (m = ∅))
  | None => false
  end.

Definition float_truthy (t : option Qc) : bool :=
  match t with
  | Some q => negb (bool_decide (q = 0%Qc))
  | None => false
  end.

(** [MetricsAggregator.aggregate_haproxy_stats(stats)].  The two
    clock readings [time.time()] and [datetime.utcnow().isoformat()]
    are inputs; the new object state is returned with the result. *)
Definition aggregate_haproxy_stats (self : aggregator) (now : Qc)
    (utcnow : string) (stats : list dict)
    : option (aggregator * haproxy_aggregate) :=
  let frontends := filter (λ s, svname_is "FRONTEND" s = true) stats in
  let backends := filter (λ s, svname_is "BACKEND" s = true) stats in
  let servers :=
    filter (λ s, (svname_is "FRONTEND" s || svname_is "BACKEND" s) = false)
           stats in
  scur ← sum_field "scur" frontends;
  slim ← sum_field "slim" frontends;
  stot ← sum_field "stot" frontends;
  bin ← sum_field "bin" frontends;
  bout ← sum_field "bout" frontends;
  req_tot ← sum_field "req_tot" frontends;
  ereq ← sum_field "ereq" frontends;
  dreq ← sum_field "dreq" frontends;
  hrsp_2xx ← sum_field "hrsp_2xx" frontends;
  hrsp_4xx ← sum_field "hrsp_4xx" frontends;
  hrsp_5xx ← sum_field "hrsp_5xx" frontends;
  qcur ← sum_field "qcur" backends;
  let current : gmap string Z :=
    list_to_map
      [("scur", scur); ("slim", slim); ("stot", stot); ("bin", bin);
       ("bout", bout); ("req_tot", req_tot); ("ereq", ereq);
       ("dreq", dreq); ("hrsp_2xx", hrsp_2xx); ("hrsp_4xx", hrsp_4xx);
       ("hrsp_5xx", hrsp_5xx); ("qcur", qcur)] in
  let rates :=
    if dict_truthy (_prev_haproxy_stats self)
       && float_truthy (_prev_timestamp self)
    then
      match _prev_haproxy_stats self, _prev_timestamp self with
      | Some prev, Some prev_ts =>
          calculate_rates current prev (now - prev_ts)%Qc
      | _, _ => ∅
      end
    else ∅ in
  let self' :=
    {| _prev_haproxy_stats := Some current; _prev_timestamp := Some now |} in
  let saturation :=
    if bool_decide (0 < current !!! "slim")
    then PFloat (of_Z (current !!! "scur") / of_Z (current !!! "slim")
                 * of_Z 100)%Qc
    else PInt 0 in
  let error_rate :=
    if bool_decide (0 < current !!! "stot")
    then PFloat (of_Z (current !!! "ereq") / of_Z (current !!! "stot")
                 * of_Z 100)%Qc
    else PInt 0 in
  let healthy := Z.of_nat (length (filter (λ s, status_is "UP" s = true) servers)) in
  let total := Z.of_nat (length servers) in
  Some (self',
        {| timestamp := utcnow;
           counters := current;
           rates := rates;
           derived :=
             {| connection_saturation_pct := saturation;
                error_rate_pct := error_rate;
                healthy_servers := healthy;
                total_servers := total;
                requests_per_sec := rate_or_zero rates "req_tot_per_sec";
                throughput_in_bps := rate_or_zero rates "bin_per_sec";
                throughput_out_bps := rate_or_zero rates "bout_per_sec" |};
           summary :=
             {| frontend_count := Z.of_nat (length frontends);
                backend_count := Z.of_nat (length backends);
                server_count := total |} |}).
End WithRuntime.

End Aggregator.

(** ** analysis/bottleneck_detector.py: BottleneckDetector *)

Module Detector.
Import Py.

Inductive BottleneckType : Type :=
| CPU | MEMORY | NETWORK | CONNECTION_LIMIT | BACKEND | CONFIGURATION.

Inductive Severity : Type := LOW | MEDIUM | HIGH | CRITICAL.

(** [BottleneckType.value] and [Severity.value] *)
Definition type_value (t : BottleneckType) : string :=
  match t with
  | CPU => "cpu" | MEMORY => "memory" | NETWORK => "network"
  | CONNECTION_LIMIT => "connection_limit" | BACKEND => "backend"
  | CONFIGURATION => "configuration"
  end.

Definition severity_value (s : Severity) : string :=
  match s with
  | LOW => "low" | MEDIUM => "medium" | HIGH => "high"
  | CRITICAL => "critical"
  end.

(** The [description] f-strings, kept as the template that was chosen
    together with the values interpolated into it; the rendering of
    numbers ([:.1f], [:.2f], [str.title()]) is not represented. *)
Inductive Description : Type :=
| ConnectionLimitNearlyReached (scur slim : pyval) (saturation : Qc)
| ConnectionLimitApproaching (scur slim : pyval) (saturation : Qc)
| RequestsQueuing (qcur : pyval)
| HighErrorRate (error_rate : Qc)
| ElevatedErrorRate (error_rate : Qc)
| ConnectionsContinuouslyIncreasing
| CpuSaturated (host_type : string) (load cpu_count : pyval)
| CpuHigh (host_type : string) (load cpu_count : pyval)
| MemoryCritical (host_type : string) (mem_free_pct : Qc)
| MemoryLow (host_type : string) (mem_free_pct : Qc)
| HighRequestFailureRate (failure_rate : Qc)
| HighP99ResponseTime (p99 : pyval).

(** A value of the [evidence] dictionary. *)
Inductive evidence_val : Type :=
| EvVal (v : pyval)
| EvList (l : list pyval).

Record Bottleneck : Type := {
  type : BottleneckType;
  severity : Severity;
  description : Description;
  evidence : gmap string evidence_val;
  recommendation : string;
  affected_component : string
}.

(** Thresholds for detection (class attributes). *)
Definition CPU_HIGH_THRESHOLD : Z := 80.
Definition CPU_CRITICAL_THRESHOLD : Z := 95.
Definition MEMORY_LOW_THRESHOLD : Z := 10.
Definition MEMORY_CRITICAL_THRESHOLD : Z := 5.
Definition CONNECTION_SATURATION_HIGH : Z := 70.
Definition CONNECTION_SATURATION_CRITICAL : Z := 90.
Definition QUEUE_WARNING_THRESHOLD : Z := 10.
Definition ERROR_RATE_WARNING : Z := 1.
Definition ERROR_RATE_HIGH : Z := 5.

(** *** Effects: the list [self.bottlenecks] and exceptions

    A computation reads and updates [self.bottlenecks]; [None] is a
    raised exception, which keeps the appends made before it. *)
Definition M (A : Type) : Type :=
  list Bottleneck → option A * list Bottleneck.

Definition ret {A : Type} (a : A) : M A := λ bs, (Some a, bs).

Definition bind {A B : Type} (m : M A) (k : A → M B) : M B :=
  λ bs, match m bs with
        | (Some a, bs') => k a bs'
        | (None, bs') => (None, bs')
        end.

(** An operator that may raise. *)
Definition lift {A : Type} (o : option A) : M A := λ bs, (o, bs).

(** [self.bottlenecks.append(b)] *)
Definition append (b : Bottleneck) : M unit := λ bs, (Some tt, bs ++ [b]).

Notation "'let*' x ':=' m 'in' k" := (bind m (λ x, k))
  (at level 10, x name, m at level 100, k at level 200,
   format "'[v' 'let*'  x  ':='  m  'in' '/' k ']'").
Notation "m ';;' k" := (bind m (λ _, k))
  (at level 100, k at level 200, right associativity).

Definition num_ge (x : Qc) (threshold : Z) : bool := Qc_leb (of_Z threshold) x.
Definition num_lt (x : Qc) (threshold : Z) : bool := Qc_ltb x (of_Z threshold).

(** *** _analyze_haproxy *)

(** The block under [# Connection limit analysis]. *)
Definition connection_limit_analysis (latest : dict) : M unit :=
  let scur := or (get latest "scur" (PInt 0)) (PInt 0) in
  let slim := or (get latest "slim" (PInt 0)) (PInt 0) in
  let* positive := lift (gt slim (PInt 0)) in
  if positive : bool then
    let* ratio := lift (truediv scur slim) in
    let saturation := (ratio * of_Z 100)%Qc in
    let ev : gmap string evidence_val :=
      list_to_map [("current_connections", EvVal scur);
                   ("max_connections", EvVal slim);
                   ("saturation_percent", EvVal (PFloat saturation))] in
    if num_ge saturation CONNECTION_SATURATION_CRITICAL then
      append
        {| type := CONNECTION_LIMIT;
           severity := CRITICAL;
           description := ConnectionLimitNearlyReached scur slim saturation;
           evidence := ev;
           recommendation :=
             "Increase listener connection_limit in Octavia. " +:+
             "Maximum supported is 1,000,000. Also consider " +:+
             "adding more amphora instances.";
           affected_component := "amphora/haproxy" |}
    else if num_ge saturation CONNECTION_SATURATION_HIGH then
      append
        {| type := CONNECTION_LIMIT;
           severity := HIGH;
           description := ConnectionLimitApproaching scur slim saturation;
           evidence := ev;
           recommendation :=
             "Consider increasing connection_limit before " +:+
             "it becomes critical. Current limit: {slim}";
           affected_component := "amphora/haproxy" |}
    else ret tt
  else ret tt.

(** The block under [# Queue analysis]. *)
Definition queue_analysis (latest : dict) : M unit :=
  let qcur := or (get latest "qcur" (PInt 0)) (PInt 0) in
  let* above := lift (gt qcur (PInt QUEUE_WARNING_THRESHOLD)) in
  if above : bool then
    let* very := lift (gt qcur (PInt 50)) in
    let sev := if very : bool then HIGH else MEDIUM in
    append
      {| type := BACKEND;
         severity := sev;
         description := RequestsQueuing qcur;
         evidence := list_to_map [("queue_current", EvVal qcur)];
         recommendation :=
           "Backend servers may be overloaded. Consider adding " +:+
           "more backend members or increasing their capacity.";
         affected_component := "backend_servers" |}
  else ret tt.

(** The block under [# Error rate analysis]. *)
Definition error_rate_analysis (latest : dict) : M unit :=
  let stot := or (get latest "stot" (PInt 0)) (PInt 0) in
  let ereq := or (get latest "ereq" (PInt 0)) (PInt 0) in
  let* positive := lift (gt stot (PInt 0)) in
  if positive : bool then
    let* ratio := lift (truediv ereq stot) in
    let error_rate := (ratio * of_Z 100)%Qc in
    let ev : gmap string evidence_val :=
      list_to_map [("total_requests", EvVal stot);
                   ("errors", EvVal ereq);
                   ("error_rate_percent", EvVal (PFloat error_rate))] in
    if num_ge error_rate ERROR_RATE_HIGH then
      append
        {| type := CONFIGURATION;
           severity := HIGH;
           description := HighErrorRate error_rate;
           evidence := ev;
           recommendation :=
             "Investigate error causes. Check HAProxy logs, " +:+
             "backend health, and timeout settings.";
           affected_component := "amphora/haproxy" |}
    else if num_ge error_rate ERROR_RATE_WARNING then
      append
        {| type := CONFIGURATION;
           severity := MEDIUM;
           description := ElevatedErrorRate error_rate;
           evidence := ev;
           recommendation := "Monitor error rate and investigate causes.";
           affected_component := "amphora/haproxy" |}
    else ret tt
  else ret tt.

(** [all(l[i] <= l[i+1] for i in range(len(l)-1))]: left to right,
    stopping at the first pair that is not in order. *)
Fixpoint all_nondecreasing (l : list pyval) : option bool :=
  match l with
  | a :: (b :: _) as tl =>
      c ← le a b;
      if c : bool then all_nondecreasing tl else Some false
  | _ => Some true
  end.

(** [[s.get('scur', 0) or 0 for s in stats[-10:]]] *)
Definition recent_scur (stats : list dict) : list pyval :=
  (λ s, or (get s "scur" (PInt 0)) (PInt 0))
    <$> drop (length stats - 10)%nat stats.

(** The block under [# Analyze trend for connection growth]. *)
Definition connection_trend_analysis (stats : list dict) : M unit :=
  if bool_decide (10 ≤ length stats)%nat then
    let recent := recent_scur stats in
    let* growing := lift (all_nondecreasing recent) in
    if growing : bool then
      append
        {| type := CONNECTION_LIMIT;
           severity := MEDIUM;
           description := ConnectionsContinuouslyIncreasing;
           evidence := list_to_map [("connection_trend", EvList recent)];
           recommendation :=
             "Connection count is growing steadily. " +:+
             "Monitor for potential connection leaks or " +:+
             "insufficient connection timeout settings.";
           affected_component := "amphora/haproxy" |}
    else ret tt
  else ret tt.

Definition _analyze_haproxy (stats : list dict) : M unit :=
  match last stats with
  | None => ret tt
  | Some latest =>
      connection_limit_analysis latest ;;
      queue_analysis latest ;;
      error_rate_analysis latest ;;
      connection_trend_analysis stats
  end.

(** *** _analyze_system_metrics *)

(** The block under [# CPU analysis]: load average over CPU count.
    The quotient and the product are exact here; the source rounds each
    to binary64, which can carry a saturation that lies within rounding
    distance of a threshold to the other side of it. *)
Definition cpu_analysis (latest : dict) (host_type : string) : M unit :=
  let cpu_count := or (get latest "cpu_count" (PInt 1)) (PInt 1) in
  let load := or (get latest "load_1" (PInt 0)) (PInt 0) in
  let* ratio := lift (truediv load cpu_count) in
  let cpu_saturation := (ratio * of_Z 100)%Qc in
  let ev : gmap string evidence_val :=
    list_to_map [("load_average", EvVal load);
                 ("cpu_count", EvVal cpu_count);
                 ("saturation_percent", EvVal (PFloat cpu_saturation))] in
  if num_ge cpu_saturation CPU_CRITICAL_THRESHOLD then
    append
      {| type := CPU;
         severity := CRITICAL;
         description := CpuSaturated host_type load cpu_count;
         evidence := ev;
         recommendation :=
           "Increase " +:+ host_type +:+ " CPU capacity. For amphora, " +:+
           "use a larger flavor or add instances. For backends, " +:+
           "scale out the pool.";
         affected_component := host_type |}
  else if num_ge cpu_saturation CPU_HIGH_THRESHOLD then
    append
      {| type := CPU;
         severity := HIGH;
         description := CpuHigh host_type load cpu_count;
         evidence := ev;
         recommendation :=
           "Monitor " +:+ host_type +:+ " CPU closely. Consider " +:+
           "scaling before saturation.";
         affected_component := host_type |}
  else ret tt.

(** The block under [# Memory analysis]. *)
Definition memory_analysis (latest : dict) (host_type : string) : M unit :=
  let mem_total := or (get latest "mem_total" (PInt 1)) (PInt 1) in
  let mem_free := or (get latest "mem_free" (PInt 0)) (PInt 0) in
  let* ratio := lift (truediv mem_free mem_total) in
  let mem_free_pct := (ratio * of_Z 100)%Qc in
  if num_lt mem_free_pct MEMORY_CRITICAL_THRESHOLD then
    let* total_mb := lift (floordiv mem_total 1024) in
    let* free_mb := lift (floordiv mem_free 1024) in
    append
      {| type := MEMORY;
         severity := CRITICAL;
         description := MemoryCritical host_type mem_free_pct;
         evidence :=
           list_to_map [("total_mb", EvVal total_mb);
                        ("free_mb", EvVal free_mb);
                        ("free_percent", EvVal (PFloat mem_free_pct))];
         recommendation :=
           "Increase " +:+ host_type +:+ " memory immediately. " +:+
           "For amphora, reduce SSL session cache or " +:+
           "connection limits.";
         affected_component := host_type |}
  else if num_lt mem_free_pct MEMORY_LOW_THRESHOLD then
    let* total_mb := lift (floordiv mem_total 1024) in
    let* free_mb := lift (floordiv mem_free 1024) in
    append
      {| type := MEMORY;
         severity := HIGH;
         description := MemoryLow host_type mem_free_pct;
         evidence :=
           list_to_map [("total_mb", EvVal total_mb);
                        ("free_mb", EvVal free_mb);
                        ("free_percent", EvVal (PFloat mem_free_pct))];
         recommendation :=
           "Monitor " +:+ host_type +:+ " memory. Consider scaling " +:+
           "before it becomes critical.";
         affected_component := host_type |}
  else ret tt.

Definition _analyze_host_metrics (metrics : list dict) (host_type : string)
    : M unit :=
  match last metrics with
  | None => ret tt
  | Some latest =>
      cpu_analysis latest host_type ;;
      memory_analysis latest host_type
  end.

(** [m.get('host_type', '')] as the receiver of [.lower()]: anything
    but a [str] raises [AttributeError]. *)
Definition host_type_of (m : dict) : option string :=
  match m !! "host_type" with
  | None => Some ""
  | Some (PStr s) => Some s
  | Some _ => None
  end.

(** [[m for m in metrics if needle in m.get('host_type', '').lower()]] *)
Fixpoint select_hosts (needle : string) (metrics : list dict)
    : option (list dict) :=
  match metrics with
  | [] => Some []
  | m :: ms =>
      h ← host_type_of m;
      rest ← select_hosts needle ms;
      Some (if contains needle (lower h) then m :: rest else rest)
  end.

Definition _analyze_system_metrics (metrics : list dict) : M unit :=
  match metrics with
  | [] => ret tt
  | _ =>
      let* amphora_metrics := lift (select_hosts "amphora" metrics) in
      let* backend_metrics := lift (select_hosts "backend" metrics) in
      _analyze_host_metrics amphora_metrics "amphora" ;;
      _analyze_host_metrics backend_metrics "backend"
  end.

(** *** _analyze_locust_stats *)

(** The block under [# High failure rate]. *)
Definition failure_rate_analysis (latest : dict) : M unit :=
  let num_requests := or (get latest "num_requests" (PInt 0)) (PInt 0) in
  let num_failures := or (get latest "num_failures" (PInt 0)) (PInt 0) in
  let* positive := lift (gt num_requests (PInt 0)) in
  if positive : bool then
    let* ratio := lift (truediv num_failures num_requests) in
    let failure_rate := (ratio * of_Z 100)%Qc in
    if num_ge failure_rate 10 then
      append
        {| type := CONFIGURATION;
           severity := CRITICAL;
           description := HighRequestFailureRate failure_rate;
           evidence :=
             list_to_map [("requests", EvVal num_requests);
                          ("failures", EvVal num_failures);
                          ("failure_rate", EvVal (PFloat failure_rate))];
           recommendation :=
             "Investigate failure causes. Check load balancer " +:+
             "logs, backend health, and timeout settings.";
           affected_component := "load_balancer" |}
    else ret tt
  else ret tt.

(** The block under [# High response times]. *)
Definition response_time_analysis (latest : dict) : M unit :=
  let p99 := or (get latest "p99" (PInt 0)) (PInt 0) in
  let* slow := lift (gt p99 (PInt 5000)) in
  if slow : bool then
    append
      {| type := BACKEND;
         severity := HIGH;
         description := HighP99ResponseTime p99;
         evidence :=
           list_to_map [("p99_ms", EvVal p99);
                        ("p95_ms", EvVal (get latest "p95" (PInt 0)));
                        ("p90_ms", EvVal (get latest "p90" (PInt 0)))];
         recommendation :=
           "Backend response times are high. Optimize backend " +:+
           "application or add more backend instances.";
         affected_component := "backend_servers" |}
  else ret tt.

Definition _analyze_locust_stats (stats : list dict) : M unit :=
  match last stats with
  | None => ret tt
  | Some latest =>
      failure_rate_analysis latest ;;
      response_time_analysis latest
  end.

(** [_analyze_correlations] is [pass]. *)
Definition _analyze_correlations (haproxy_stats system_metrics : list dict)
    : M unit := ret tt.

(** *** analyze *)

Definition severity_order (s : Severity) : Z :=
  match s with
  | CRITICAL => 0 | HIGH => 1 | MEDIUM => 2 | LOW => 3
  end.

Definition severity_le (a b : Bottleneck) : bool :=
  severity_order (severity a) <=? severity_order (severity b).

Definition nonempty {A : Type} (l : list A) : bool :=
  match l with [] => false | _ => true end.

(** The passes of [analyze], before the sort: the findings in the
    order of their detection. *)
Definition detect (haproxy_stats system_metrics : list dict)
    (locust_stats : option (list dict)) : M unit :=
  (if nonempty haproxy_stats then _analyze_haproxy haproxy_stats else ret tt) ;;
  (if nonempty system_metrics then _analyze_system_metrics system_metrics
   else ret tt) ;;
  (match locust_stats with
   | Some ((_ :: _) as stats) => _analyze_locust_stats stats
   | _ => ret tt
   end) ;;
  (if nonempty haproxy_stats && nonempty system_metrics
   then _analyze_correlations haproxy_stats system_metrics else ret tt).

(** [self.bottlenecks.sort(key=lambda b: severity_order[b.severity])] *)
Definition sort_bottlenecks : M unit :=
  λ bs, (Some tt, stable_sort severity_le bs).

(** [BottleneckDetector.analyze]: the first component is the returned
    list ([None] when an exception escapes), the second the value of
    [self.bottlenecks] afterwards.  The previous value of
    [self.bottlenecks] is discarded by the first statement. *)
Definition analyze (haproxy_stats system_metrics : list dict)
    (locust_stats : option (list dict))
    : option (list Bottleneck) * list Bottleneck :=
  (detect haproxy_stats system_metrics locust_stats ;;
   sort_bottlenecks ;;
   (λ bs, (Some bs, bs))) [].

(** *** get_summary *)

Record Summary : Type := {
  total_bottlenecks : Z;
  by_type : gmap string Z;
  by_severity : gmap string Z;
  critical_count : Z;
  high_count : Z;
  recommendations : list string
}.

(** [d[k] = d.get(k, 0) + 1] *)
Definition incr (k : string) (d : gmap string Z) : gmap string Z :=
  <[k := default 0 (d !! k) + 1]> d.

(** [BottleneckDetector.get_summary], on the value of
    [self.bottlenecks]. *)
Definition get_summary (bottlenecks : list Bottleneck) : Summary :=
  let by_type :=
    foldl (λ d b, incr (type_value (type b)) d) ∅ bottlenecks in
  let by_severity :=
    foldl (λ d b, incr (severity_value (severity b)) d) ∅ bottlenecks in
  {| total_bottlenecks := Z.of_nat (length bottlenecks);
     by_type := by_type;
     by_severity := by_severity;
     critical_count := default 0 (by_severity !! "critical");
     high_count := default 0 (by_severity !! "high");
     recommendations := recommendation <$> bottlenecks |}.

(** *** Reading the outcome of a pass

    Run from the empty list: what the pass returns and the findings it
    appended. *)
Definition result {A : Type} (m : M A) : option A := fst (m []).
Definition findings {A : Type} (m : M A) : list Bottleneck := snd (m []).

(** A pass only appends to [self.bottlenecks]: from any list it behaves
    as from the empty one. *)
Definition appends {A : Type} (m : M A) : Prop :=
  ∀ bs, m bs = (result m, bs ++ findings m).

#[global] Instance Severity_eq_dec : EqDecision Severity.
Proof. solve_decision. Defined.

#[global] Instance BottleneckType_eq_dec : EqDecision BottleneckType.
Proof. solve_decision. Defined.

(** The rules of the detector, and the rule a finding comes from, told
    by the message it carries. *)
Inductive rule : Type :=
| ConnectionSaturation | QueueDepth | ErrorRate | ConnectionGrowth
| CpuSaturation | MemoryPressure | FailureRate | ResponseTime.

#[global] Instance rule_eq_dec : EqDecision rule.
Proof. solve_decision. Defined.

Definition rule_of (b : Bottleneck) : rule :=
  match description b with
  | ConnectionLimitNearlyReached _ _ _ | ConnectionLimitApproaching _ _ _ =>
      ConnectionSaturation
  | RequestsQueuing _ => QueueDepth
  | HighErrorRate _ | ElevatedErrorRate _ => ErrorRate
  | ConnectionsContinuouslyIncreasing => ConnectionGrowth
  | CpuSaturated _ _ _ | CpuHigh _ _ _ => CpuSaturation
  | MemoryCritical _ _ | MemoryLow _ _ => MemoryPressure
  | HighRequestFailureRate _ => FailureRate
  | HighP99ResponseTime _ => ResponseTime
  end.

(** The findings of one rule in a list. *)
Definition of_rule (r : rule) (bs : list Bottleneck) : list Bottleneck :=
  filter (λ b, rule_of b = r) bs.





(** Rows to run the embedding on: a HAProxy sample with its session
    count and limit. *)
Definition haproxy_sample (scur slim : Z) : dict :=
  list_to_map [("scur", PInt scur); ("slim", PInt slim);
               ("qcur", PInt 0); ("stot", PInt 4000); ("ereq", PInt 2)].

(** The finding that the queue rule reports for [qcur] in the queue:
    [HIGH] above 50, [MEDIUM] above 10. *)
Definition queue_finding (qcur : Z) (sev : Severity) : Bottleneck :=
  {| type := BACKEND;
     severity := sev;
     description := RequestsQueuing (PInt qcur);
     evidence := list_to_map [("queue_current", EvVal (PInt qcur))];
     recommendation :=
       "Backend servers may be overloaded. Consider adding " +:+
       "more backend members or increasing their capacity.";
     affected_component := "backend_servers" |}.

End Detector.

(** ** collectors/storage.py: the haproxy_stats table *)

Module Storage.
Import Py.

(** A row of [haproxy_stats].  [id], [run_id] and [timestamp] are kept
    as fields; [row_values] holds the remaining columns by name. *)
Record haproxy_row : Type := {
  row_id : Z;
  row_run_id : Z;
  row_timestamp : string;
  row_values : dict
}.

(** The database file: the table in rowid order and the
    [AUTOINCREMENT] sequence (the largest id handed out so far). *)
Record database : Type := {
  haproxy_seq : Z;
  haproxy_stats : list haproxy_row
}.

(** The table as [_init_schema] creates it. *)
Definition empty_database : database :=
  {| haproxy_seq := 0; haproxy_stats := [] |}.

(** [dict(row)] for a row of [SELECT *]. *)
Definition dict_of_row (r : haproxy_row) : dict :=
  <["id" := PInt (row_id r)]>
    (<["run_id" := PInt (row_run_id r)]>
       (<["timestamp" := PStr (row_timestamp r)]> (row_values r))).

(** The integer columns, in the order of the [INSERT] statement,
    with the key of [stat] each one is read from (the same name). *)
Definition int_columns : list string :=
  ["scur"; "smax"; "slim"; "stot"; "bin"; "bout"; "dreq"; "ereq";
   "weight"; "rate"; "rate_max"; "req_rate"; "req_tot";
   "hrsp_1xx"; "hrsp_2xx"; "hrsp_3xx"; "hrsp_4xx"; "hrsp_5xx";
   "qcur"; "qmax"; "cli_abrt"; "srv_abrt"].

Section WithRuntime.
(** [int(s)] on a [str], and [json.dumps] on a stat dictionary. *)
Variable int_of_str : string → option Z.
Variable json_dumps : dict → string.

(** [MetricsStorage._int_or_none] *)
Definition _int_or_none (value : pyval) : pyval :=
  match value with
  | PNone => PNone
  | PStr EmptyString => PNone
  | _ =>
      match int int_of_str value with
      | Some z => PInt z
      | None => PNone
      end
  end.

(** The parameter tuple of one [INSERT], without the three key
    columns. *)
Definition insert_values (amphora_id lb_id : pyval) (stat : dict) : dict :=
  let base : dict :=
    list_to_map
      [("amphora_id", amphora_id);
       ("lb_id", lb_id);
       ("proxy_name", get stat "pxname" PNone);
       ("server_name", get stat "svname" PNone);
       ("status", get stat "status" PNone);
       ("raw_data", PStr (json_dumps stat))] in
  foldr (λ c d, <[c := _int_or_none (get stat c PNone)]> d) base int_columns.

(** One [cursor.execute("INSERT INTO haproxy_stats ...")]. *)
Definition insert_row (run_id : Z) (timestamp : string)
    (amphora_id lb_id : pyval) (db : database) (stat : dict) : database :=
  let new_id := haproxy_seq db + 1 in
  {| haproxy_seq := new_id;
     haproxy_stats :=
       haproxy_stats db ++
         [{| row_id := new_id;
             row_run_id := run_id;
             row_timestamp := timestamp;
             row_values := insert_values amphora_id lb_id stat |}] |}.

(** [MetricsStorage.store_haproxy_stats].  The reading [utcnow] of
    [datetime.utcnow().isoformat()] is taken once for the batch; the
    rows are inserted in one transaction. *)
Definition store_haproxy_stats (db : database) (utcnow : string)
    (run_id : Z) (amphora_id lb_id : pyval) (stats : list dict)
    : database :=
  foldl (insert_row run_id utcnow amphora_id lb_id) db stats.

(** One call of [store_haproxy_stats] with the clock reading it meets,
    and a sequence of calls applied to the database. *)
Record store_call : Type := {
  call_utcnow : string;
  call_run_id : Z;
  call_amphora_id : pyval;
  call_lb_id : pyval;
  call_stats : list dict
}.

Definition apply_call (db : database) (c : store_call) : database :=
  store_haproxy_stats db (call_utcnow c) (call_run_id c) (call_amphora_id c)
    (call_lb_id c) (call_stats c).

Definition apply_calls (db : database) (calls : list store_call) : database :=
  foldl apply_call db calls.

(** The record a call writes for one stat, as [get_haproxy_stats]
    reads it back, leaving out the [id] the table assigns. *)
Definition written_record (c : store_call) (stat : dict) : dict :=
  <["run_id" := PInt (call_run_id c)]>
    (<["timestamp" := PStr (call_utcnow c)]>
       (insert_values (call_amphora_id c) (call_lb_id c) stat)).

(** The records that a sequence of calls writes for a run, in the
    order of writing. *)
Definition written_for (run_id : Z) (calls : list store_call) : list dict :=
  c ← filter (λ c, call_run_id c = run_id) calls;
  written_record c <$> call_stats c.
End WithRuntime.

(** Ids are distinct and were handed out by the sequence. *)
Definition well_formed (db : database) : Prop :=
  NoDup (row_id <$> haproxy_stats db)
  ∧ Forall (λ r, row_id r ≤ haproxy_seq db) (haproxy_stats db).

(** The [timestamp] of a record read back. *)
Definition timestamp_of (d : dict) : string :=
  match d !! "timestamp" with
  | Some (PStr t) => t
  | _ => EmptyString
  end.

(** [if start_time:] on an [Optional[str]] *)
Definition given (bound : option string) : option string :=
  match bound with
  | Some EmptyString => None
  | _ => bound
  end.

(** The [WHERE] clause built by [get_haproxy_stats], for timestamps
    and bounds that SQLite compares as text (no number literals): the
    comparison is then bytewise. *)
Definition where_clause (run_id : Z) (start_time end_time : option string)
    (r : haproxy_row) : bool :=
  (row_run_id r =? run_id)
  && match given start_time with
     | Some t => String.leb t (row_timestamp r)
     | None => true
     end
  && match given end_time with
     | Some t => String.leb (row_timestamp r) t
     | None => true
     end.

(** The rows of a run as they are read back, in table order, without
    their ids. *)
Definition selected (run_id : Z) (db : database) : list dict :=
  (λ r, delete "id" (dict_of_row r))
    <$> filter (λ r, where_clause run_id None None r = true) (haproxy_stats db).

(** [ORDER BY timestamp] on [TEXT] values. *)
Definition timestamp_le (a b : haproxy_row) : bool :=
  String.leb (row_timestamp a) (row_timestamp b).

(** [MetricsStorage.get_haproxy_stats] *)
Definition get_haproxy_stats (db : database) (run_id : Z)
    (start_time end_time : option string) : list dict :=
  dict_of_row
    <$> stable_sort timestamp_le
          (filter (λ r, where_clause run_id start_time end_time r = true)
                  (haproxy_stats db)).

(** Calls to run the embedding on: two batches for run 1 (two rows,
    then one) with a batch for run 2 in between. *)
Definition example_calls : list store_call :=
  [{| call_utcnow := "2024-05-01T10:00:00.250000"; call_run_id := 1;
      call_amphora_id := PStr "amp-1"; call_lb_id := PStr "lb-1";
      call_stats :=
        [list_to_map [("pxname", PStr "listener"); ("svname", PStr "FRONTEND");
                      ("scur", PStr "12"); ("slim", PStr "1000")];
         list_to_map [("pxname", PStr "pool"); ("svname", PStr "BACKEND");
                      ("scur", PStr "7"); ("qcur", PStr "0")]] |};
   {| call_utcnow := "2024-05-01T10:00:00.700000"; call_run_id := 2;
      call_amphora_id := PStr "amp-2"; call_lb_id := PStr "lb-2";
      call_stats :=
        [list_to_map [("pxname", PStr "listener"); ("svname", PStr "FRONTEND");
                      ("scur", PStr "3"); ("slim", PStr "500")]] |};
   {| call_utcnow := "2024-05-01T10:00:01.250000"; call_run_id := 1;
      call_amphora_id := PStr "amp-1"; call_lb_id := PStr "lb-1";
      call_stats :=
        [list_to_map [("pxname", PStr "listener"); ("svname", PStr "FRONTEND");
                      ("scur", PStr "15"); ("slim", PStr "1000")]] |}].

End Storage.

(** ** collectors/aggregator.py: CollectionScheduler._collection_loop *)

Module Scheduler.
Import Py.

(** What a call does: it returns, or it raises.  [Exception] stands
    for an instance of the class [Exception] (what [except Exception]
    catches) with its [str(e)]; [BaseExceptionOnly] for the other
    [BaseException]s ([SystemExit], [KeyboardInterrupt]). *)
Inductive raised : Type :=
| Exception (message : string)
| BaseExceptionOnly (message : string).

Inductive outcome (A : Type) : Type :=
| Returns (a : A)
| Raises (e : raised).
Arguments Returns {A} a.
Arguments Raises {A} e.

Section Loop.
(** The payload of [collect()]. *)
Variable data : Type.

(** What one iteration meets outside the loop: whether the stop
    event is set at the loop test, the two clock readings, what
    [collector.collect()] does and what [store_func] does with the
    data.  [end_time] is the clock when the calls of the iteration
    have returned or raised. *)
Record tick : Type := {
  stop_is_set : bool;
  start_time : Qc;
  collect : outcome data;
  store_func : data → outcome unit;
  end_time : Qc
}.

(** What the loop does that can be seen from outside. *)
Inductive event : Type :=
| Stored (d : data)
| Logged (message : string)
| Waited (timeout : Qc).

(** How a run of the loop over a script of iterations ends. *)
Inductive ending : Type :=
| Stopped
| StillRunning
| Escaped (e : raised).

(** [max(0, x)] *)
Definition max0 (x : Qc) : Qc := if Qc_leb x 0 then 0%Qc else x.

(** [logger.error(f"Collection error in {name}: {e}")] *)
Definition error_message (name message : string) : string :=
  "Collection error in " +:+ name +:+ ": " +:+ message.

(** The handler [except Exception as e]. *)
Definition handle (name : string) (interval : Qc) (e : raised)
    : list event * option raised :=
  match e with
  | Exception message =>
      ([Logged (error_message name message); Waited interval], None)
  | BaseExceptionOnly _ => ([], Some e)
  end.

(** The body of the [while] loop: the events of the iteration and
    the exception that leaves it, if any. *)
Definition iteration (name : string) (interval : Qc) (t : tick)
    : list event * option raised :=
  match collect t with
  | Raises e => handle name interval e
  | Returns d =>
      match store_func t d with
      | Raises e => handle name interval e
      | Returns _ =>
          let elapsed := (end_time t - start_time t)%Qc in
          let sleep_time := max0 (interval - elapsed)%Qc in
          ([Stored d; Waited sleep_time], None)
      end
  end.

(** [CollectionScheduler._collection_loop(name, config)] run against
    a script of iterations. *)
Fixpoint _collection_loop (name : string) (interval : Qc)
    (script : list tick) : list event * ending :=
  match script with
  | [] => ([], StillRunning)
  | t :: script' =>
      if stop_is_set t then ([], Stopped)
      else
        match iteration name interval t with
        | (events, Some e) => (events, Escaped e)
        | (events, None) =>
            let '(events', fin) := _collection_loop name interval script' in
            (events ++ events', fin)
        end
  end.
End Loop.

Arguments Stored {data} d.
Arguments Logged {data} message.
Arguments Waited {data} timeout.
Arguments stop_is_set {data} t.
Arguments start_time {data} t.
Arguments collect {data} t.
Arguments store_func {data} t d.
Arguments end_time {data} t.
Arguments iteration {data} name interval t.
Arguments _collection_loop {data} name interval script.

(** Iterations to run the embedding on: one whose [collect()] raises
    after three seconds, one that stores after three seconds. *)
Definition failing_tick : tick string :=
  {| stop_is_set := false;
     start_time := of_Z 0;
     collect := Raises (Exception "timed out");
     store_func := λ _, Returns tt;
     end_time := of_Z 3 |}.

Definition storing_tick : tick string :=
  {| stop_is_set := false;
     start_time := of_Z 0;
     collect := Returns "sample";
     store_func := λ _, Returns tt;
     end_time := of_Z 3 |}.

End Scheduler.

(** ** Vocabulary of the findings *)

Module Findings.
Import Py Detector.

(** The [BottleneckType] each rule reports. *)
Definition type_of_rule (r : rule) : BottleneckType :=
  match r with
  | ConnectionSaturation | ConnectionGrowth => CONNECTION_LIMIT
  | QueueDepth | ResponseTime => BACKEND
  | ErrorRate | FailureRate => CONFIGURATION
  | CpuSaturation => CPU
  | MemoryPressure => MEMORY
  end.

(** The [affected_component] tags that the passes write. *)
Definition components : list string :=
  ["amphora/haproxy"; "backend_servers"; "amphora"; "backend";
   "load_balancer"].

(** The test of the comprehensions of [_analyze_system_metrics] on a
    row whose [host_type] is a string or missing. *)
Definition host_matches (needle : string) (m : dict) : bool :=
  match host_type_of m with
  | Some h => contains needle (lower h)
  | None => false
  end.

(** What every finding of [analyze] satisfies: it is not LOW, its type
    is the one of its rule, and its component is one of the five tags. *)
Definition well_tagged (b : Bottleneck) : Prop :=
  severity b ≠ LOW
  ∧ type b = type_of_rule (rule_of b)
  ∧ affected_component b ∈ components.

(** The session count of a sample as an integer, as the trend rule is
    described: the value under ["scur"], a missing value and [None]
    counting as 0. *)
Definition session_count (sample : dict) (n : Z) : Prop :=
  sample !! "scur" = Some (PInt n)
  ∨ (n = 0 ∧ (sample !! "scur" = None ∨ sample !! "scur" = Some PNone)).

(** A distance from a threshold, in percent, that the two roundings of
    a quotient times 100 in binary64 cannot bridge: together they move
    the value by less than three parts in 10^16. *)
Definition rounding_margin : Qc := (1 / of_Z 1000000000)%Qc.

(** Number of findings of a severity, of a type. *)
Definition count_severity (sev : Severity) (bs : list Bottleneck) : nat :=
  length (filter (λ b, severity b = sev) bs).

Definition count_type (t : BottleneckType) (bs : list Bottleneck) : nat :=
  length (filter (λ b, type b = t) bs).

(** The entry of a [get_summary] counter for a count. *)
Definition counter_entry (n : nat) : option Z :=
  if decide (n = 0%nat) then None else Some (Z.of_nat n).

End Findings.

(** ** Records of the haproxy_stats table as the analysis reads them *)

Module Rows.
Import Py Storage.

(** A record whose integer columns each hold [None] or an [int]. *)
Definition typed (d : dict) : Prop :=
  ∀ c, c ∈ int_columns →
       d !! c = Some PNone ∨ ∃ z, d !! c = Some (PInt z).

(** A text that SQLite compares as text with the [timestamp] column.
    The column is declared [TIMESTAMP], which gives it numeric
    affinity: a text that reads as a number literal is turned into a
    number, and a number sorts before every text.  A text with a colon
    in it, as every [isoformat()] timestamp with a time part has, is no
    number literal. *)
Definition kept_as_text (t : string) : Prop := contains ":" t = true.

(** The test [timestamp >= start_time AND timestamp <= end_time] on a
    record, with the bounds that are given. *)
Definition in_range (start_time end_time : option string) (d : dict) : bool :=
  match given start_time with
  | Some t => String.leb t (timestamp_of d)
  | None => true
  end
  && match given end_time with
     | Some t => String.leb (timestamp_of d) t
     | None => true
     end.

Section WithRuntime.
Variable int_of_str : string → option Z.
Variable json_dumps : dict → string.

(** The rows that one call of [store_haproxy_stats] adds when the
    sequence stands at [seq]: one per stat, in the order of [stats]. *)
Fixpoint new_rows (seq : Z) (timestamp : string) (run_id : Z)
    (amphora_id lb_id : pyval) (stats : list dict) : list haproxy_row :=
  match stats with
  | [] => []
  | stat :: stats' =>
      {| row_id := seq + 1;
         row_run_id := run_id;
         row_timestamp := timestamp;
         row_values := insert_values int_of_str json_dumps amphora_id lb_id stat |}
      :: new_rows (seq + 1) timestamp run_id amphora_id lb_id stats'
  end.

(** A row as [store_haproxy_stats] writes it. *)
Definition inserted (r : haproxy_row) : Prop :=
  ∃ amphora_id lb_id stat,
    row_values r = insert_values int_of_str json_dumps amphora_id lb_id stat.
End WithRuntime.

End Rows.

(** ** collectors/aggregator.py: MetricsAggregator.aggregate_system_metrics *)

Module SystemAggregate.
Import Py.

(** A value of a host's metrics: a nested dictionary (as under
    ['utilization']) or anything else. *)
Inductive value : Type :=
| Leaf (v : pyval)
| Nested (d : dict).

(** The metrics of one host, and the argument [metrics]: a dictionary
    from host id to host metrics, in its order of iteration. *)
Definition host : Type := gmap string value.
Definition host_map : Type := list (string * host).

(** [m.get('utilization', {})], to which [.get] is then applied: a
    value that is not a dictionary has no [get] ([AttributeError]). *)
Definition utilization_of (m : host) : option dict :=
  match m !! "utilization" with
  | None => Some ∅
  | Some (Nested d) => Some d
  | Some (Leaf _) => None
  end.

(** ['amphora' in k.lower() or 'amp' in k.lower()] and
    ['backend' in k.lower()] *)
Definition is_amphora (k : string) : bool :=
  contains "amphora" (lower k) || contains "amp" (lower k).

Definition is_backend (k : string) : bool := contains "backend" (lower k).

(** [[m.get('utilization', {}).get(field, 0) for m in group.values()
      if m.get('utilization', {}).get(field) is not None]] *)
Fixpoint utilization_values (field : string) (group : host_map)
    : option (list pyval) :=
  match group with
  | [] => Some []
  | (_, m) :: group' =>
      u ← utilization_of m;
      rest ← utilization_values field group';
      Some (match u !! field with
            | None | Some PNone => rest
            | Some v => v :: rest
            end)
  end.

(** [a + b] on numbers; anything else raises [TypeError]. *)
Definition add (a b : pyval) : option pyval :=
  match a, b with
  | PInt x, PInt y => Some (PInt (x + y))
  | _, _ =>
      x ← as_num a;
      y ← as_num b;
      Some (PFloat (x + y)%Qc)
  end.

(** [sum(values)]: from the integer 0, left to right. *)
Definition sum (values : list pyval) : option pyval :=
  foldl (λ acc v, a ← acc; add a v) (Some (PInt 0)) values.

(** [avg = 0; if values: avg = sum(values) / len(values)], the sum
    and the quotient exact (the source rounds each addition and the
    division to binary64). *)
Definition average (values : list pyval) : option pyval :=
  match values with
  | [] => Some (PInt 0)
  | _ =>
      s ← sum values;
      q ← truediv s (PInt (Z.of_nat (length values)));
      Some (PFloat q)
  end.

Record group_summary : Type := {
  count : Z;
  avg_cpu_utilization : pyval;
  avg_memory_utilization : pyval
}.

Record system_aggregate : Type := {
  timestamp : string;
  amphora : group_summary;
  backend : group_summary;
  by_host : host_map
}.

(** The block under [# Average CPU utilization across amphorae], which
    the source repeats for the backends. *)
Definition summarize (group : host_map) : option group_summary :=
  match group with
  | [] =>
      Some {| count := 0;
              avg_cpu_utilization := PInt 0;
              avg_memory_utilization := PInt 0 |}
  | _ =>
      cpu_values ← utilization_values "cpu" group;
      mem_values ← utilization_values "memory" group;
      cpu_avg ← average cpu_values;
      mem_avg ← average mem_values;
      Some {| count := Z.of_nat (length group);
              avg_cpu_utilization := cpu_avg;
              avg_memory_utilization := mem_avg |}
  end.

(** [MetricsAggregator.aggregate_system_metrics(metrics)], with the
    reading of [datetime.utcnow().isoformat()] as an input. *)
Definition aggregate_system_metrics (utcnow : string) (metrics : host_map)
    : option system_aggregate :=
  let amphora_metrics := filter (λ kv, is_amphora kv.1 = true) metrics in
  let backend_metrics := filter (λ kv, is_backend kv.1 = true) metrics in
  a ← summarize amphora_metrics;
  b ← summarize backend_metrics;
  Some {| timestamp := utcnow;
          amphora := a;
          backend := b;
          by_host := metrics |}.

(** The sum of a list of rationals. *)
Definition total (xs : list Qc) : Qc := foldr Qcplus 0%Qc xs.

(** The two figures of a group and the key each is read from. *)
Inductive metric : Type := Cpu | Memory.

Definition field_name (m : metric) : string :=
  match m with Cpu => "cpu" | Memory => "memory" end.

Definition average_of (m : metric) (g : group_summary) : pyval :=
  match m with
  | Cpu => avg_cpu_utilization g
  | Memory => avg_memory_utilization g
  end.

(** The values that the hosts of a group report for a field: those
    present under ['utilization'] and not [None], in the order of the
    hosts. *)
Definition reported (field : string) (group : host_map) : list pyval :=
  omap (λ kv : string * host,
          match m_util ← utilization_of kv.2; m_util !! field with
          | None | Some PNone => None
          | Some v => Some v
          end)
       group.

(** [avg] is what the source reports for the values [values]: the
    integer 0 when there are none, else the float that is their mean. *)
Definition is_average (values : list pyval) (avg : pyval) : Prop :=
  match values with
  | [] => avg = PInt 0
  | _ =>
      ∃ xs, Forall2 (λ v x, as_num v = Some x) values xs
            ∧ avg = PFloat (total xs / of_Z (Z.of_nat (length xs)))%Qc
  end.

(** Hosts to run the embedding on. *)
Definition example_hosts : host_map :=
  [("amp-1", {[ "utilization" := Nested (list_to_map [("cpu", PInt 40);
                                                        ("memory", PInt 60)]) ]});
   ("Amphora-2", {[ "utilization" := Nested (list_to_map [("cpu", PInt 80)]) ]});
   ("backend-1", {[ "utilization" := Nested (list_to_map [("cpu", PNone);
                                                            ("memory", PInt 30)]) ]});
   ("controller", ∅)].

End SystemAggregate.

(** * Properties *)

(** ** calculate_rates *)

Section CalculateRates.
Import Py Aggregator.

Lemma string_length_app (s t : string) :
  String.length (s +:+ t) = (String.length s + String.length t)%nat.
Proof. induction s as [|c s IH]; simpl; [done|by rewrite IH]. Qed.

Lemma string_app_inj_r (t s1 s2 : string) :
  s1 +:+ t = s2 +:+ t → s1 = s2.
Proof.
  revert s2. induction s1 as [|c s1 IH]; intros [|d s2] H.
  - done.
  - exfalso. apply (f_equal String.length) in H.
    rewrite !string_length_app in H. simpl in H. lia.
  - exfalso. apply (f_equal String.length) in H.
    rewrite !string_length_app in H. simpl in H. lia.
  - change (String c (s1 +:+ t) = String d (s2 +:+ t)) in H.
    injection H as -> H. f_equal. by apply IH.
Qed.

Lemma rate_key_inj (k1 k2 : string) : rate_key k1 = rate_key k2 → k1 = k2.
Proof. apply string_app_inj_r. Qed.

Lemma calculate_rates_lookup current previous interval key :
  (0 < interval)%Qc →
  calculate_rates current previous interval !! rate_key key
  = current !! key ≫= rate_of previous interval key.
Proof.
  intros Hpos. unfold calculate_rates.
  rewrite bool_decide_eq_false_2 by (by apply Qclt_not_le).
  apply (map_fold_weak_ind
           (λ r m, r !! rate_key key = m !! key ≫= rate_of previous interval key)).
  - by rewrite !lookup_empty.
  - intros i x m r Hi IH.
    destruct (decide (i = key)) as [->|Hne].
    + rewrite lookup_insert_eq. simpl. unfold rate_of.
      rewrite Hi in IH. simpl in IH.
      destruct (previous !! key) as [prev|]; simpl; [|done].
      case_bool_decide; [by rewrite lookup_insert_eq|done].
    + rewrite (lookup_insert_ne m) by done. rewrite <- IH.
      destruct (previous !! i) as [prev|]; [|done].
      case_bool_decide; [|done].
      rewrite lookup_insert_ne; [done|].
      intros Heq. by apply rate_key_inj in Heq.
Qed.

Lemma calculate_rates_keys current previous interval k v :
  calculate_rates current previous interval !! k = Some v →
  ∃ key, k = rate_key key.
Proof.
  unfold calculate_rates. case_bool_decide; [by rewrite lookup_empty|].
  apply (map_fold_weak_ind
           (λ r (m : gmap string Z), r !! k = Some v → ∃ key, k = rate_key key)).
  - by rewrite lookup_empty.
  - intros i x m r Hi IH.
    destruct (previous !! i) as [prev|]; [|done].
    case_bool_decide; [|done].
    destruct (decide (rate_key i = k)) as [<-|Hne]; [by eexists|].
    by rewrite lookup_insert_ne.
Qed.

(** C1.  [calculate_rates] returns the empty map when the interval is
    not positive.  Otherwise a field present in both maps with a
    non-negative delta has the rate delta / interval under its
    [_per_sec] key, a field with a negative delta has no entry, a field
    missing from either map has no entry, and the result has no other
    keys. *)
Theorem calculate_rates_spec (current previous : gmap string Z)
    (interval : Qc) :
  ((interval ≤ 0)%Qc → calculate_rates current previous interval = ∅)
  ∧ ((0 < interval)%Qc →
     ∀ f : string,
       (∀ c p, current !! f = Some c → previous !! f = Some p →
               0 ≤ c - p →
               calculate_rates current previous interval !! rate_key f
               = Some (of_Z (c - p) / interval)%Qc)
       ∧ (∀ c p, current !! f = Some c → previous !! f = Some p →
                 c - p < 0 →
                 calculate_rates current previous interval !! rate_key f
                 = None)
       ∧ (current !! f = None ∨ previous !! f = None →
          calculate_rates current previous interval !! rate_key f = None))
  ∧ (∀ k v, calculate_rates current previous interval !! k = Some v →
            ∃ f c p, k = rate_key f ∧ current !! f = Some c
                     ∧ previous !! f = Some p ∧ 0 ≤ c - p).
Proof.
  split; [|split].
  - intros Hle. unfold calculate_rates.
    by rewrite bool_decide_eq_true_2.
  - intros Hpos f. rewrite calculate_rates_lookup by done.
    unfold rate_of. repeat split.
    + intros c p -> Hp Hd. simpl. rewrite Hp. simpl.
      by rewrite bool_decide_eq_true_2.
    + intros c p -> Hp Hd. simpl. rewrite Hp. simpl.
      rewrite bool_decide_eq_false_2; [done|lia].
    + intros [->| Hp]; [done|].
      destruct (current !! f); simpl; [|done]. by rewrite Hp.
  - intros k v Hk.
    destruct (decide (interval ≤ 0)%Qc) as [Hle|Hpos].
    { unfold calculate_rates in Hk.
      by rewrite bool_decide_eq_true_2, lookup_empty in Hk. }
    apply Qcnot_le_lt in Hpos.
    destruct (calculate_rates_keys _ _ _ _ _ Hk) as [f ->].
    rewrite calculate_rates_lookup in Hk by done.
    unfold rate_of in Hk.
    destruct (current !! f) as [c|] eqn:Hc; simpl in Hk; [|done].
    destruct (previous !! f) as [p|] eqn:Hp; simpl in Hk; [|done].
    case_bool_decide; [|done]. by exists f, c, p.
Qed.

Lemma calculate_rates_spec_witness :
  calculate_rates (<["stot" := 10]> (<["bin" := 3]> ∅))
                  (<["stot" := 4]> (<["bin" := 5]> ∅)) (of_Z 2)
    !! rate_key "stot" = Some (of_Z (10 - 4) / of_Z 2)%Qc
  ∧ calculate_rates (<["stot" := 10]> (<["bin" := 3]> ∅))
                    (<["stot" := 4]> (<["bin" := 5]> ∅)) (of_Z 2)
      !! rate_key "bin" = None
  ∧ calculate_rates (<["stot" := 10]> (<["bin" := 3]> ∅))
                    (<["stot" := 4]> (<["bin" := 5]> ∅)) (of_Z (-1)) = ∅.
Proof.
  pose proof (calculate_rates_spec
                (<["stot" := 10]> (<["bin" := 3]> ∅))
                (<["stot" := 4]> (<["bin" := 5]> ∅)) (of_Z 2)) as (_ & H & _).
  pose proof (calculate_rates_spec
                (<["stot" := 10]> (<["bin" := 3]> ∅))
                (<["stot" := 4]> (<["bin" := 5]> ∅)) (of_Z (-1))) as (H0 & _ & _).
  assert (Hpos : (0 < of_Z 2)%Qc) by reflexivity.
  split; [|split].
  - apply (proj1 (H Hpos "stot") 10 4); [reflexivity|reflexivity|lia].
  - apply (proj1 (proj2 (H Hpos "bin")) 3 5); [reflexivity|reflexivity|lia].
  - apply H0. by intros ?.
Defined.
End CalculateRates.

(** ** aggregate_haproxy_stats: the derived ratios *)

Section DerivedRatios.
Import Py Aggregator.
Variable int_of_str : string → option Z.

(** The result of [aggregate_haproxy_stats] in terms of the twelve
    aggregated counters. *)
Lemma aggregate_haproxy_stats_Some self now utcnow stats self' res :
  aggregate_haproxy_stats int_of_str self now utcnow stats = Some (self', res) →
  ∃ scur slim stot ereq,
    counters res !! "scur" = Some scur
    ∧ counters res !! "slim" = Some slim
    ∧ counters res !! "stot" = Some stot
    ∧ counters res !! "ereq" = Some ereq
    ∧ sum_field int_of_str "scur"
        (filter (λ s, svname_is "FRONTEND" s = true) stats) = Some scur
    ∧ sum_field int_of_str "slim"
        (filter (λ s, svname_is "FRONTEND" s = true) stats) = Some slim
    ∧ sum_field int_of_str "stot"
        (filter (λ s, svname_is "FRONTEND" s = true) stats) = Some stot
    ∧ sum_field int_of_str "ereq"
        (filter (λ s, svname_is "FRONTEND" s = true) stats) = Some ereq
    ∧ connection_saturation_pct (derived res)
      = (if bool_decide (0 < slim)
         then PFloat (of_Z scur / of_Z slim * of_Z 100)%Qc else PInt 0)
    ∧ error_rate_pct (derived res)
      = (if bool_decide (0 < stot)
         then PFloat (of_Z ereq / of_Z stot * of_Z 100)%Qc else PInt 0).
Proof.
  unfold aggregate_haproxy_stats. intros H.
  destruct (sum_field _ "scur" _) as [scur|] eqn:E1; [|discriminate H].
  destruct (sum_field _ "slim" _) as [slim|] eqn:E2; [|discriminate H].
  destruct (sum_field _ "stot" _) as [stot|] eqn:E3; [|discriminate H].
  destruct (sum_field _ "bin" _) as [bin|]; [|discriminate H].
  destruct (sum_field _ "bout" _) as [bout|]; [|discriminate H].
  destruct (sum_field _ "req_tot" _) as [req_tot|]; [|discriminate H].
  destruct (sum_field _ "ereq" _) as [ereq|] eqn:E4; [|discriminate H].
  destruct (sum_field _ "dreq" _) as [dreq|]; [|discriminate H].
  destruct (sum_field _ "hrsp_2xx" _) as [h2|]; [|discriminate H].
  destruct (sum_field _ "hrsp_4xx" _) as [h4|]; [|discriminate H].
  destruct (sum_field _ "hrsp_5xx" _) as [h5|]; [|discriminate H].
  destruct (sum_field _ "qcur" _) as [qcur|]; [|discriminate H].
  cbn [mbind option_bind] in H.
  apply (inj Some) in H. apply pair_equal_spec in H as [_ <-].
  cbn [counters derived connection_saturation_pct error_rate_pct].
  exists scur, slim, stot, ereq.
  repeat split; done.
Qed.

(** The two ratios do not read the object state or the clock. *)
Lemma aggregate_haproxy_stats_ratios_indep self1 now1 utcnow1
    self2 now2 utcnow2 stats :
  (λ r, (connection_saturation_pct (derived r.2), error_rate_pct (derived r.2)))
    <$> aggregate_haproxy_stats int_of_str self1 now1 utcnow1 stats
  = (λ r, (connection_saturation_pct (derived r.2), error_rate_pct (derived r.2)))
    <$> aggregate_haproxy_stats int_of_str self2 now2 utcnow2 stats.
Proof.
  unfold aggregate_haproxy_stats.
  destruct (sum_field _ "scur" _) as [scur|]; [|reflexivity].
  destruct (sum_field _ "slim" _) as [slim|]; [|reflexivity].
  destruct (sum_field _ "stot" _) as [stot|]; [|reflexivity].
  destruct (sum_field _ "bin" _) as [bin|]; [|reflexivity].
  destruct (sum_field _ "bout" _) as [bout|]; [|reflexivity].
  destruct (sum_field _ "req_tot" _) as [req_tot|]; [|reflexivity].
  destruct (sum_field _ "ereq" _) as [ereq|]; [|reflexivity].
  destruct (sum_field _ "dreq" _) as [dreq|]; [|reflexivity].
  destruct (sum_field _ "hrsp_2xx" _) as [h2|]; [|reflexivity].
  destruct (sum_field _ "hrsp_4xx" _) as [h4|]; [|reflexivity].
  destruct (sum_field _ "hrsp_5xx" _) as [h5|]; [|reflexivity].
  destruct (sum_field _ "qcur" _) as [qcur|]; [|reflexivity].
  reflexivity.
Qed.

(** C5.  In the result of [aggregate_haproxy_stats], with [scur],
    [slim], [stot] and [ereq] the aggregated counters of the call (the
    sums of these fields over the FRONTEND rows):
    the connection saturation is scur / slim * 100 when slim > 0 and
    the integer 0 when slim <= 0; the error rate is ereq / stot * 100
    when stot > 0 and 0 when stot <= 0; and a call on the same rows
    from any other object state and clock reading returns the same two
    ratios. *)
Theorem derived_ratios_spec self now utcnow stats self' res :
  aggregate_haproxy_stats int_of_str self now utcnow stats = Some (self', res) →
  ∃ scur slim stot ereq,
    (counters res !! "scur" = Some scur ∧ counters res !! "slim" = Some slim
     ∧ counters res !! "stot" = Some stot ∧ counters res !! "ereq" = Some ereq)
    ∧ (sum_field int_of_str "scur"
         (filter (λ s, svname_is "FRONTEND" s = true) stats) = Some scur
       ∧ sum_field int_of_str "slim"
           (filter (λ s, svname_is "FRONTEND" s = true) stats) = Some slim
       ∧ sum_field int_of_str "stot"
           (filter (λ s, svname_is "FRONTEND" s = true) stats) = Some stot
       ∧ sum_field int_of_str "ereq"
           (filter (λ s, svname_is "FRONTEND" s = true) stats) = Some ereq)
    ∧ (0 < slim → connection_saturation_pct (derived res)
                  = PFloat (of_Z scur / of_Z slim * of_Z 100)%Qc)
    ∧ (slim ≤ 0 → connection_saturation_pct (derived res) = PInt 0)
    ∧ (0 < stot → error_rate_pct (derived res)
                  = PFloat (of_Z ereq / of_Z stot * of_Z 100)%Qc)
    ∧ (stot ≤ 0 → error_rate_pct (derived res) = PInt 0)
    ∧ ∀ self2 now2 utcnow2,
        ∃ self2' res2,
          aggregate_haproxy_stats int_of_str self2 now2 utcnow2 stats
          = Some (self2', res2)
          ∧ connection_saturation_pct (derived res2)
            = connection_saturation_pct (derived res)
          ∧ error_rate_pct (derived res2) = error_rate_pct (derived res).
Proof.
  intros H.
  destruct (aggregate_haproxy_stats_Some _ _ _ _ _ _ H)
    as (scur & slim & stot & ereq & H1 & H2 & H3 & H4
        & E1 & E2 & E3 & E4 & Hs & He).
  exists scur, slim, stot, ereq. split; [done|]. split; [done|].
  rewrite Hs, He. repeat split.
  - intros ?. by rewrite bool_decide_eq_true_2.
  - intros ?. rewrite bool_decide_eq_false_2; [done|lia].
  - intros ?. by rewrite bool_decide_eq_true_2.
  - intros ?. rewrite bool_decide_eq_false_2; [done|lia].
  - intros self2 now2 utcnow2.
    pose proof (aggregate_haproxy_stats_ratios_indep
                  self2 now2 utcnow2 self now utcnow stats) as Hi.
    rewrite H in Hi.
    destruct (aggregate_haproxy_stats int_of_str self2 now2 utcnow2 stats)
      as [[self2' res2]|]; [|discriminate Hi].
    exists self2', res2. split; [done|].
    simpl in Hi. injection Hi as Hi1 Hi2. by rewrite Hi1, Hi2, Hs, He.
Qed.
End DerivedRatios.

Lemma derived_ratios_spec_witness :
  match
    Aggregator.aggregate_haproxy_stats Py.int_of_digits Aggregator.init
      (Py.of_Z 5) "2024-01-01T00:00:00"
      [list_to_map [("svname", Py.PStr "FRONTEND"); ("scur", Py.PStr "950");
                    ("slim", Py.PStr "1000"); ("stot", Py.PStr "200");
                    ("ereq", Py.PStr "3")]]
  with
  | Some (_, res) =>
      Aggregator.connection_saturation_pct (Aggregator.derived res)
      = Py.PFloat (Py.of_Z 950 / Py.of_Z 1000 * Py.of_Z 100)%Qc
      ∧ Aggregator.error_rate_pct (Aggregator.derived res)
        = Py.PFloat (Py.of_Z 3 / Py.of_Z 200 * Py.of_Z 100)%Qc
  | None => False
  end.
Proof.
  destruct (Aggregator.aggregate_haproxy_stats _ _ _ _ _)
    as [[self' res]|] eqn:H; [|vm_compute in H; discriminate H].
  destruct (derived_ratios_spec _ _ _ _ _ _ _ H)
    as (scur & slim & stot & ereq & _ & (E1 & E2 & E3 & E4) & Hs & _ & He & _).
  vm_compute in E1, E2, E3, E4.
  injection E1 as <-. injection E2 as <-. injection E3 as <-. injection E4 as <-.
  split; [apply Hs; lia|apply He; lia].
Defined.

(** ** The detector: passes only append *)

Section Passes.
Import Py Detector.

Lemma appends_ret {A} (a : A) : appends (ret a).
Proof. intros bs. unfold ret, result, findings. simpl. by rewrite app_nil_r. Qed.

Lemma appends_lift {A} (o : option A) : appends (lift o).
Proof. intros bs. unfold lift, result, findings. simpl. by rewrite app_nil_r. Qed.

Lemma appends_append b : appends (append b).
Proof. intros bs. reflexivity. Qed.

Lemma appends_bind {A B} (m : M A) (k : A → M B) :
  appends m → (∀ a, appends (k a)) → appends (bind m k).
Proof.
  intros Hm Hk bs. unfold result, findings, bind.
  rewrite (Hm bs), (Hm []). simpl.
  destruct (result m) as [a|]; simpl.
  - rewrite (Hk a (bs ++ findings m)), (Hk a (findings m)). simpl.
    by rewrite app_assoc.
  - done.
Qed.

Lemma result_bind {A B} (m : M A) (k : A → M B) :
  appends m → (∀ a, appends (k a)) →
  result (bind m k) = result m ≫= λ a, result (k a).
Proof.
  intros Hm Hk. unfold result at 1. unfold bind. rewrite (Hm []). simpl.
  destruct (result m) as [a|]; simpl; [|done].
  by rewrite (Hk a (findings m)).
Qed.

Lemma findings_bind {A B} (m : M A) (k : A → M B) :
  appends m → (∀ a, appends (k a)) →
  findings (bind m k)
  = findings m ++ match result m with
                  | Some a => findings (k a)
                  | None => []
                  end.
Proof.
  intros Hm Hk. unfold findings at 1. unfold bind. rewrite (Hm []). simpl.
  destruct (result m) as [a|]; simpl; [|by rewrite app_nil_r].
  by rewrite (Hk a (findings m)).
Qed.



End Passes.

Ltac appends_step :=
  first
    [ apply appends_ret | apply appends_lift | apply appends_append
    | apply appends_bind; [|intros ?]
    | match goal with
      | |- Detector.appends (if ?c then _ else _) => destruct c
      | |- Detector.appends (match ?x with _ => _ end) => destruct x
      end ].

Ltac solve_appends := repeat appends_step.

Section Blocks.
Import Py Detector.

Lemma appends_connection_limit_analysis latest :
  appends (connection_limit_analysis latest).
Proof. unfold connection_limit_analysis. solve_appends. Qed.

Lemma appends_queue_analysis latest : appends (queue_analysis latest).
Proof. unfold queue_analysis. solve_appends. Qed.

Lemma appends_error_rate_analysis latest : appends (error_rate_analysis latest).
Proof. unfold error_rate_analysis. solve_appends. Qed.

Lemma appends_connection_trend_analysis stats :
  appends (connection_trend_analysis stats).
Proof. unfold connection_trend_analysis. solve_appends. Qed.

Lemma appends_cpu_analysis latest host_type :
  appends (cpu_analysis latest host_type).
Proof. unfold cpu_analysis. solve_appends. Qed.

Lemma appends_memory_analysis latest host_type :
  appends (memory_analysis latest host_type).
Proof. unfold memory_analysis. solve_appends. Qed.

Lemma appends_failure_rate_analysis latest :
  appends (failure_rate_analysis latest).
Proof. unfold failure_rate_analysis. solve_appends. Qed.

Lemma appends_response_time_analysis latest :
  appends (response_time_analysis latest).
Proof. unfold response_time_analysis. solve_appends. Qed.

Lemma appends_analyze_haproxy stats : appends (_analyze_haproxy stats).
Proof.
  unfold _analyze_haproxy. destruct (last stats); [|apply appends_ret].
  apply appends_bind; [apply appends_connection_limit_analysis|intros _].
  apply appends_bind; [apply appends_queue_analysis|intros _].
  apply appends_bind; [apply appends_error_rate_analysis|intros _].
  apply appends_connection_trend_analysis.
Qed.

Lemma appends_analyze_host_metrics metrics host_type :
  appends (_analyze_host_metrics metrics host_type).
Proof.
  unfold _analyze_host_metrics. destruct (last metrics); [|apply appends_ret].
  apply appends_bind; [apply appends_cpu_analysis|intros _].
  apply appends_memory_analysis.
Qed.

Lemma appends_analyze_system_metrics metrics :
  appends (_analyze_system_metrics metrics).
Proof.
  unfold _analyze_system_metrics. destruct metrics; [apply appends_ret|].
  apply appends_bind; [apply appends_lift|intros amphora_metrics].
  apply appends_bind; [apply appends_lift|intros backend_metrics].
  apply appends_bind; [apply appends_analyze_host_metrics|intros _].
  apply appends_analyze_host_metrics.
Qed.

Lemma appends_analyze_locust_stats stats : appends (_analyze_locust_stats stats).
Proof.
  unfold _analyze_locust_stats. destruct (last stats); [|apply appends_ret].
  apply appends_bind; [apply appends_failure_rate_analysis|intros _].
  apply appends_response_time_analysis.
Qed.
End Blocks.

(** ** The stable sort *)

Section StableSort.
Import Py.
Context {A : Type} (le : A → A → bool).

Lemma insert_sorted_Permutation x l : insert_sorted le x l ≡ₚ x :: l.
Proof.
  induction l as [|y l IH]; simpl; [done|].
  destruct (le x y); [done|]. rewrite IH. apply perm_swap.
Qed.

Lemma stable_sort_Permutation l : stable_sort le l ≡ₚ l.
Proof.
  induction l as [|x l IH]; simpl; [done|].
  unfold stable_sort in *. simpl.
  by rewrite insert_sorted_Permutation, IH.
Qed.

Lemma stable_sort_length l : length (stable_sort le l) = length l.
Proof. by rewrite stable_sort_Permutation. Qed.

Hypothesis le_total : ∀ x y, le x y = true ∨ le y x = true.

Lemma HdRel_insert_sorted a x l :
  le a x = true → HdRel (λ u v, le u v = true) a l →
  HdRel (λ u v, le u v = true) a (insert_sorted le x l).
Proof.
  intros Hax Hal. destruct l as [|y l]; simpl.
  - by constructor.
  - destruct (le x y); constructor; [done|]. by inversion Hal.
Qed.

Lemma Sorted_insert_sorted x l :
  Sorted (λ u v, le u v = true) l →
  Sorted (λ u v, le u v = true) (insert_sorted le x l).
Proof.
  induction 1 as [|y l Hl IH Hy]; simpl.
  - repeat constructor.
  - destruct (le x y) eqn:Hxy.
    + constructor; [by constructor|by constructor].
    + constructor; [done|].
      apply HdRel_insert_sorted; [|done].
      destruct (le_total x y) as [H|H]; [congruence|done].
Qed.

Lemma Sorted_stable_sort l : Sorted (λ u v, le u v = true) (stable_sort le l).
Proof.
  induction l as [|x l IH]; [constructor|].
  unfold stable_sort in *. simpl. by apply Sorted_insert_sorted.
Qed.

(** Stability: a class [P] of elements, any two of which are in order,
    keeps its input order. *)
Lemma filter_insert_sorted (P : A → Prop) `{∀ x, Decision (P x)} x l :
  (∀ y, P x → P y → le x y = true) →
  filter P (insert_sorted le x l) = filter P (x :: l).
Proof.
  intros HP. induction l as [|y l IH]; simpl; [done|].
  destruct (le x y) eqn:Hxy; [done|].
  rewrite (filter_cons P y), IH, !filter_cons.
  destruct (decide (P x)) as [Hx|Hx]; [|done].
  destruct (decide (P y)) as [Hy|Hy]; [|done].
  rewrite HP in Hxy by done. done.
Qed.

Lemma filter_stable_sort (P : A → Prop) `{∀ x, Decision (P x)} l :
  (∀ x y, P x → P y → le x y = true) →
  filter P (stable_sort le l) = filter P l.
Proof.
  intros HP. induction l as [|x l IH]; [done|].
  unfold stable_sort in *. simpl.
  rewrite filter_insert_sorted by (intros; by apply HP).
  by rewrite !filter_cons, IH.
Qed.
End StableSort.

(** ** analyze: order of the findings *)

Section Analyze.
Import Py Detector.

Lemma analyze_haproxy_nonempty stats :
  (if nonempty stats then _analyze_haproxy stats else ret tt)
  = _analyze_haproxy stats.
Proof. by destruct stats. Qed.

Lemma analyze_system_metrics_nonempty metrics :
  (if nonempty metrics then _analyze_system_metrics metrics else ret tt)
  = _analyze_system_metrics metrics.
Proof. by destruct metrics. Qed.

Lemma analyze_locust_stats_nonempty (locust_stats : option (list dict)) :
  match locust_stats with
  | Some ((_ :: _) as stats) => _analyze_locust_stats stats
  | _ => ret tt
  end = _analyze_locust_stats (default [] locust_stats).
Proof. by destruct locust_stats as [[|? ?]|]. Qed.

Lemma appends_analyze_correlations h s :
  appends (if nonempty h && nonempty s then _analyze_correlations h s else ret tt).
Proof. destruct (_ && _); apply appends_ret. Qed.

Lemma detect_eq h s l :
  detect h s l
  = bind (_analyze_haproxy h) (λ _,
      bind (_analyze_system_metrics s) (λ _,
        bind (_analyze_locust_stats (default [] l)) (λ _,
          if nonempty h && nonempty s then _analyze_correlations h s
          else ret tt))).
Proof.
  unfold detect.
  by rewrite analyze_haproxy_nonempty, analyze_system_metrics_nonempty,
    analyze_locust_stats_nonempty.
Qed.

Lemma appends_detect h s l : appends (detect h s l).
Proof.
  rewrite detect_eq.
  apply appends_bind; [apply appends_analyze_haproxy|intros _].
  apply appends_bind; [apply appends_analyze_system_metrics|intros _].
  apply appends_bind; [apply appends_analyze_locust_stats|intros _].
  apply appends_analyze_correlations.
Qed.

(** The findings of [detect]: those of the three passes, in this
    order, up to the pass that raises. *)
Lemma findings_detect h s l :
  findings (detect h s l)
  = findings (_analyze_haproxy h)
    ++ match result (_analyze_haproxy h) with
       | Some _ =>
           findings (_analyze_system_metrics s)
           ++ match result (_analyze_system_metrics s) with
              | Some _ => findings (_analyze_locust_stats (default [] l))
              | None => []
              end
       | None => []
       end.
Proof.
  rewrite detect_eq.
  rewrite findings_bind; [|apply appends_analyze_haproxy|].
  2:{ intros _.
      apply appends_bind; [apply appends_analyze_system_metrics|intros _].
      apply appends_bind; [apply appends_analyze_locust_stats|intros _].
      apply appends_analyze_correlations. }
  f_equal. destruct (result (_analyze_haproxy h)); [|done].
  rewrite findings_bind; [|apply appends_analyze_system_metrics|].
  2:{ intros _.
      apply appends_bind; [apply appends_analyze_locust_stats|intros _].
      apply appends_analyze_correlations. }
  f_equal. destruct (result (_analyze_system_metrics s)); [|done].
  rewrite findings_bind;
    [|apply appends_analyze_locust_stats|intros _; apply appends_analyze_correlations].
  destruct (result (_analyze_locust_stats (default [] l)));
    destruct (nonempty h && nonempty s); by rewrite ?app_nil_r.
Qed.

Lemma result_detect h s l :
  result (detect h s l)
  = (result (_analyze_haproxy h) ≫= λ _,
     result (_analyze_system_metrics s) ≫= λ _,
     result (_analyze_locust_stats (default [] l))).
Proof.
  rewrite detect_eq.
  rewrite result_bind; [|apply appends_analyze_haproxy|].
  2:{ intros _.
      apply appends_bind; [apply appends_analyze_system_metrics|intros _].
      apply appends_bind; [apply appends_analyze_locust_stats|intros _].
      apply appends_analyze_correlations. }
  destruct (result (_analyze_haproxy h)) as [[]|]; simpl; [|done].
  rewrite result_bind; [|apply appends_analyze_system_metrics|].
  2:{ intros _.
      apply appends_bind; [apply appends_analyze_locust_stats|intros _].
      apply appends_analyze_correlations. }
  destruct (result (_analyze_system_metrics s)) as [[]|]; simpl; [|done].
  rewrite result_bind;
    [|apply appends_analyze_locust_stats|intros _; apply appends_analyze_correlations].
  destruct (result (_analyze_locust_stats (default [] l))) as [[]|]; simpl; [|done].
  by destruct (nonempty h && nonempty s).
Qed.

(** What [analyze] returns and leaves in [self.bottlenecks]. *)
Lemma analyze_eq h s l :
  analyze h s l
  = match result (detect h s l) with
    | Some _ =>
        (Some (stable_sort severity_le (findings (detect h s l))),
         stable_sort severity_le (findings (detect h s l)))
    | None => (None, findings (detect h s l))
    end.
Proof.
  unfold analyze, bind, sort_bottlenecks, result, findings.
  by destruct (detect h s l []) as [[u|] d].
Qed.

Lemma severity_le_total a b : severity_le a b = true ∨ severity_le b a = true.
Proof. unfold severity_le. destruct (Z.leb_spec (severity_order (severity a)) (severity_order (severity b))); [by left|right]. apply Z.leb_le. lia. Qed.

Lemma filter_none {A} (P : A → Prop) `{∀ x, Decision (P x)} (l : list A) :
  Forall (λ x, ¬ P x) l → filter P l = [].
Proof.
  induction 1 as [|x l Hx _ IH]; [done|].
  by rewrite filter_cons, decide_False, IH.
Qed.

(** A list in which no finding comes before a more severe one is its
    CRITICAL findings, then its HIGH, its MEDIUM and its LOW ones. *)
Lemma sorted_by_tier (l : list Bottleneck) :
  StronglySorted
    (λ a b, severity_order (severity a) ≤ severity_order (severity b)) l →
  l = filter (λ b, severity b = CRITICAL) l
      ++ filter (λ b, severity b = HIGH) l
      ++ filter (λ b, severity b = MEDIUM) l
      ++ filter (λ b, severity b = LOW) l.
Proof.
  induction 1 as [|a l _ IH Ha]; [done|].
  rewrite !filter_cons. destruct (severity a) eqn:Hsev.
  - rewrite decide_False, decide_False, decide_False, decide_True by done.
    assert (filter (λ b, severity b = CRITICAL) l = []) as Hc.
    { apply filter_none. eapply Forall_impl; [exact Ha|].
      cbn beta. intros b Hb Hs. rewrite Hs in Hb. simpl in Hb. lia. }
    assert (filter (λ b, severity b = HIGH) l = []) as Hh.
    { apply filter_none. eapply Forall_impl; [exact Ha|].
      cbn beta. intros b Hb Hs. rewrite Hs in Hb. simpl in Hb. lia. }
    assert (filter (λ b, severity b = MEDIUM) l = []) as Hm.
    { apply filter_none. eapply Forall_impl; [exact Ha|].
      cbn beta. intros b Hb Hs. rewrite Hs in Hb. simpl in Hb. lia. }
    rewrite Hc, Hh, Hm in IH |- *. simpl in IH |- *. by f_equal.
  - rewrite decide_False, decide_False, decide_True, decide_False by done.
    assert (filter (λ b, severity b = CRITICAL) l = []) as Hc.
    { apply filter_none. eapply Forall_impl; [exact Ha|].
      cbn beta. intros b Hb Hs. rewrite Hs in Hb. simpl in Hb. lia. }
    assert (filter (λ b, severity b = HIGH) l = []) as Hh.
    { apply filter_none. eapply Forall_impl; [exact Ha|].
      cbn beta. intros b Hb Hs. rewrite Hs in Hb. simpl in Hb. lia. }
    rewrite Hc, Hh in IH |- *. simpl in IH |- *. by f_equal.
  - rewrite decide_False, decide_True, decide_False, decide_False by done.
    assert (filter (λ b, severity b = CRITICAL) l = []) as Hc.
    { apply filter_none. eapply Forall_impl; [exact Ha|].
      cbn beta. intros b Hb Hs. rewrite Hs in Hb. simpl in Hb. lia. }
    rewrite Hc in IH |- *. simpl in IH |- *. by f_equal.
  - rewrite decide_True, decide_False, decide_False, decide_False by done.
    simpl. by f_equal.
Qed.

(** C4.  When [analyze] returns, the returned list is the findings of
    the passes (HAProxy, then system metrics, then Locust, concatenated
    in the order of detection) rearranged by severity: first the
    CRITICAL findings, then the HIGH, then the MEDIUM, then the LOW
    ones, those of each severity in their order of detection.  So the
    list is a permutation of the detected findings, no finding comes
    after a less severe one, and each severity keeps its detection
    order. *)
Theorem analyze_sorted_stable (h s : list dict) (l : option (list dict))
    (res : list Bottleneck) :
  fst (analyze h s l) = Some res →
  findings (detect h s l)
  = findings (_analyze_haproxy h) ++ findings (_analyze_system_metrics s)
    ++ findings (_analyze_locust_stats (default [] l))
  ∧ res
    = filter (λ b, severity b = CRITICAL) (findings (detect h s l))
      ++ filter (λ b, severity b = HIGH) (findings (detect h s l))
      ++ filter (λ b, severity b = MEDIUM) (findings (detect h s l))
      ++ filter (λ b, severity b = LOW) (findings (detect h s l))
  ∧ (∀ i j a b,
       (i < j)%nat → res !! i = Some a → res !! j = Some b →
       (severity a = HIGH → severity b ≠ CRITICAL)
       ∧ (severity a = MEDIUM → severity b ≠ CRITICAL ∧ severity b ≠ HIGH)
       ∧ (severity a = LOW → severity b = LOW))
  ∧ res ≡ₚ findings (detect h s l)
  ∧ StronglySorted
      (λ a b, severity_order (severity a) ≤ severity_order (severity b)) res
  ∧ ∀ sev : Severity,
      filter (λ b, severity b = sev) res
      = filter (λ b, severity b = sev) (findings (detect h s l)).
Proof.
  rewrite analyze_eq. intros H.
  destruct (result (detect h s l)) as [[]|] eqn:Hr; [|discriminate H].
  simpl in H. injection H as <-.
  assert (StronglySorted
            (λ a b, severity_order (severity a) ≤ severity_order (severity b))
            (stable_sort severity_le (findings (detect h s l)))) as Hsorted.
  { apply Sorted_StronglySorted.
    { intros a b c. lia. }
    pose proof (Sorted_stable_sort severity_le severity_le_total
                  (findings (detect h s l))) as Hs.
    induction Hs as [|a k _ IH Hd]; constructor; [done|].
    destruct Hd; constructor. by apply Z.leb_le. }
  assert (∀ sev : Severity,
            filter (λ b, severity b = sev)
                   (stable_sort severity_le (findings (detect h s l)))
            = filter (λ b, severity b = sev) (findings (detect h s l)))
    as Hstable.
  { intros sev. apply filter_stable_sort.
    intros x y Hx Hy. unfold severity_le. rewrite Hx, Hy. apply Z.leb_refl. }
  split; [|split; [|split; [|split; [|split]]]].
  - rewrite findings_detect. rewrite result_detect in Hr.
    destruct (result (_analyze_haproxy h)); [|discriminate Hr].
    simpl in Hr.
    by destruct (result (_analyze_system_metrics s)); [|discriminate Hr].
  - rewrite <- !Hstable. by apply sorted_by_tier.
  - intros i j a b Hij Hi Hj.
    assert (severity_order (severity a) ≤ severity_order (severity b)) as Hab.
    { apply (StronglySorted_app_1_elem_of
               (λ a b, severity_order (severity a) ≤ severity_order (severity b))
               (take j (stable_sort severity_le (findings (detect h s l))))
               (drop j (stable_sort severity_le (findings (detect h s l))))).
      - by rewrite take_drop.
      - apply (list_elem_of_lookup_2 _ i). by rewrite lookup_take_lt.
      - apply (list_elem_of_lookup_2 _ 0%nat). rewrite lookup_drop.
        by rewrite Nat.add_0_r. }
    destruct (severity a), (severity b); simpl in Hab;
      repeat split; intros; (done || lia).
  - apply stable_sort_Permutation.
  - exact Hsorted.
  - exact Hstable.
Qed.
End Analyze.

(** ** The rules behind the findings of each block *)

Ltac block_step :=
  first
    [ match goal with
      | |- context [Py.gt ?a ?b] => destruct (Py.gt a b) as [[|]|] eqn:?
      end
    | match goal with
      | |- context [Py.truediv ?a ?b] => destruct (Py.truediv a b) as [?|] eqn:?
      end
    | match goal with
      | |- context [Py.floordiv ?a ?b] => destruct (Py.floordiv a b) as [?|] eqn:?
      end
    | match goal with
      | |- context [Detector.num_ge ?a ?b] => destruct (Detector.num_ge a b) eqn:?
      end
    | match goal with
      | |- context [Detector.num_lt ?a ?b] => destruct (Detector.num_lt a b) eqn:?
      end
    | match goal with
      | |- context [Detector.all_nondecreasing ?a] =>
          destruct (Detector.all_nondecreasing a) as [[|]|] eqn:?
      end
    | match goal with
      | |- context [bool_decide ?P] => destruct (bool_decide P) eqn:?
      end ];
  cbv beta iota.

Ltac block_cases blk :=
  cbv beta iota zeta delta [Detector.findings Detector.result blk Detector.bind
                            Detector.lift Detector.append Detector.ret fst snd];
  repeat block_step.

Section BlockRules.
Import Py Detector.

Lemma connection_limit_analysis_rule latest :
  Forall (λ b, rule_of b = ConnectionSaturation)
         (findings (connection_limit_analysis latest)).
Proof. block_cases connection_limit_analysis; repeat constructor. Qed.

Lemma queue_analysis_rule latest :
  Forall (λ b, rule_of b = QueueDepth) (findings (queue_analysis latest)).
Proof. block_cases queue_analysis; repeat constructor. Qed.

Lemma error_rate_analysis_rule latest :
  Forall (λ b, rule_of b = ErrorRate) (findings (error_rate_analysis latest)).
Proof. block_cases error_rate_analysis; repeat constructor. Qed.

Lemma connection_trend_analysis_rule stats :
  Forall (λ b, rule_of b = ConnectionGrowth)
         (findings (connection_trend_analysis stats)).
Proof. block_cases connection_trend_analysis; repeat constructor. Qed.

Lemma cpu_analysis_rule latest host_type :
  Forall (λ b, rule_of b = CpuSaturation) (findings (cpu_analysis latest host_type)).
Proof. block_cases cpu_analysis; repeat constructor. Qed.

Lemma memory_analysis_rule latest host_type :
  Forall (λ b, rule_of b = MemoryPressure)
         (findings (memory_analysis latest host_type)).
Proof. block_cases memory_analysis; repeat constructor. Qed.

Lemma failure_rate_analysis_rule latest :
  Forall (λ b, rule_of b = FailureRate) (findings (failure_rate_analysis latest)).
Proof. block_cases failure_rate_analysis; repeat constructor. Qed.

Lemma response_time_analysis_rule latest :
  Forall (λ b, rule_of b = ResponseTime)
         (findings (response_time_analysis latest)).
Proof. block_cases response_time_analysis; repeat constructor. Qed.
End BlockRules.

(** ** Findings of one rule across the passes *)

Section OfRule.
Import Py Detector.

Lemma of_rule_app r bs1 bs2 : of_rule r (bs1 ++ bs2) = of_rule r bs1 ++ of_rule r bs2.
Proof. apply filter_app. Qed.

Lemma of_rule_all r bs : Forall (λ b, rule_of b = r) bs → of_rule r bs = bs.
Proof.
  unfold of_rule. induction 1 as [|b bs Hb _ IH]; [done|].
  rewrite filter_cons. destruct (decide (rule_of b = r)); [by rewrite IH|done].
Qed.

Lemma of_rule_none r bs : Forall (λ b, rule_of b ≠ r) bs → of_rule r bs = [].
Proof.
  unfold of_rule. induction 1 as [|b bs Hb _ IH]; [done|].
  rewrite filter_cons. by destruct (decide (rule_of b = r)).
Qed.

Lemma of_rule_other r r' bs :
  r' ≠ r → Forall (λ b, rule_of b = r') bs → of_rule r bs = [].
Proof.
  intros Hne H. apply of_rule_none. eapply Forall_impl; [exact H|].
  simpl. intros b ->. done.
Qed.

Lemma Forall_findings_bind {A B} (Q : Bottleneck → Prop) (m : M A) (k : A → M B) :
  appends m → (∀ a, appends (k a)) →
  Forall Q (findings m) → (∀ a, Forall Q (findings (k a))) →
  Forall Q (findings (bind m k)).
Proof.
  intros Hm Hk H1 H2. rewrite findings_bind by done.
  apply Forall_app. split; [done|]. by destruct (result m).
Qed.

(** The findings of [_analyze_haproxy], block by block. *)
Lemma findings_analyze_haproxy stats latest :
  last stats = Some latest →
  findings (_analyze_haproxy stats)
  = findings (connection_limit_analysis latest)
    ++ match result (connection_limit_analysis latest) with
       | Some _ =>
           findings (queue_analysis latest)
           ++ match result (queue_analysis latest) with
              | Some _ =>
                  findings (error_rate_analysis latest)
                  ++ match result (error_rate_analysis latest) with
                     | Some _ => findings (connection_trend_analysis stats)
                     | None => []
                     end
              | None => []
              end
       | None => []
       end.
Proof.
  intros Hl. unfold _analyze_haproxy. rewrite Hl.
  rewrite findings_bind; [|apply appends_connection_limit_analysis|].
  2:{ intros _.
      apply appends_bind; [apply appends_queue_analysis|intros _].
      apply appends_bind; [apply appends_error_rate_analysis|intros _].
      apply appends_connection_trend_analysis. }
  f_equal. destruct (result (connection_limit_analysis latest)); [|done].
  rewrite findings_bind; [|apply appends_queue_analysis|].
  2:{ intros _.
      apply appends_bind; [apply appends_error_rate_analysis|intros _].
      apply appends_connection_trend_analysis. }
  f_equal. destruct (result (queue_analysis latest)); [|done].
  rewrite findings_bind;
    [done|apply appends_error_rate_analysis
    |intros _; apply appends_connection_trend_analysis].
Qed.

Lemma result_analyze_haproxy stats latest :
  last stats = Some latest →
  result (_analyze_haproxy stats)
  = (result (connection_limit_analysis latest) ≫= λ _,
     result (queue_analysis latest) ≫= λ _,
     result (error_rate_analysis latest) ≫= λ _,
     result (connection_trend_analysis stats)).
Proof.
  intros Hl. unfold _analyze_haproxy. rewrite Hl.
  rewrite result_bind; [|apply appends_connection_limit_analysis|].
  2:{ intros _.
      apply appends_bind; [apply appends_queue_analysis|intros _].
      apply appends_bind; [apply appends_error_rate_analysis|intros _].
      apply appends_connection_trend_analysis. }
  destruct (result (connection_limit_analysis latest)); simpl; [|done].
  rewrite result_bind; [|apply appends_queue_analysis|].
  2:{ intros _.
      apply appends_bind; [apply appends_error_rate_analysis|intros _].
      apply appends_connection_trend_analysis. }
  destruct (result (queue_analysis latest)); simpl; [|done].
  rewrite result_bind;
    [done|apply appends_error_rate_analysis
    |intros _; apply appends_connection_trend_analysis].
Qed.

(** The rules that each pass can report. *)
Lemma analyze_haproxy_rules stats :
  Forall (λ b, rule_of b ∈ [ConnectionSaturation; QueueDepth; ErrorRate;
                            ConnectionGrowth])
         (findings (_analyze_haproxy stats)).
Proof.
  unfold _analyze_haproxy. destruct (last stats) as [latest|]; [|constructor].
  apply Forall_findings_bind;
    [apply appends_connection_limit_analysis| |
     eapply Forall_impl; [apply connection_limit_analysis_rule|]|].
  { intros _.
    apply appends_bind; [apply appends_queue_analysis|intros _].
    apply appends_bind; [apply appends_error_rate_analysis|intros _].
    apply appends_connection_trend_analysis. }
  { simpl. intros b ->. set_solver. }
  intros _. apply Forall_findings_bind;
    [apply appends_queue_analysis| |
     eapply Forall_impl; [apply queue_analysis_rule|]|].
  { intros _.
    apply appends_bind; [apply appends_error_rate_analysis|intros _].
    apply appends_connection_trend_analysis. }
  { simpl. intros b ->. set_solver. }
  intros _. apply Forall_findings_bind;
    [apply appends_error_rate_analysis
    |intros _; apply appends_connection_trend_analysis
    |eapply Forall_impl; [apply error_rate_analysis_rule|]|].
  { simpl. intros b ->. set_solver. }
  intros _. eapply Forall_impl; [apply connection_trend_analysis_rule|].
  simpl. intros b ->. set_solver.
Qed.

Lemma analyze_host_metrics_rules metrics host_type :
  Forall (λ b, rule_of b ∈ [CpuSaturation; MemoryPressure])
         (findings (_analyze_host_metrics metrics host_type)).
Proof.
  unfold _analyze_host_metrics. destruct (last metrics) as [latest|]; [|constructor].
  apply Forall_findings_bind;
    [apply appends_cpu_analysis|intros _; apply appends_memory_analysis
    |eapply Forall_impl; [apply cpu_analysis_rule|]|].
  { simpl. intros b ->. set_solver. }
  intros _. eapply Forall_impl; [apply memory_analysis_rule|].
  simpl. intros b ->. set_solver.
Qed.

Lemma analyze_system_metrics_rules metrics :
  Forall (λ b, rule_of b ∈ [CpuSaturation; MemoryPressure])
         (findings (_analyze_system_metrics metrics)).
Proof.
  unfold _analyze_system_metrics. destruct metrics as [|m ms]; [constructor|].
  apply Forall_findings_bind; [apply appends_lift| |constructor|].
  { intros a.
    apply appends_bind; [apply appends_lift|intros a'].
    apply appends_bind; [apply appends_analyze_host_metrics|intros _].
    apply appends_analyze_host_metrics. }
  intros a. apply Forall_findings_bind; [apply appends_lift| |constructor|].
  { intros a'.
    apply appends_bind; [apply appends_analyze_host_metrics|intros _].
    apply appends_analyze_host_metrics. }
  intros a'. apply Forall_findings_bind;
    [apply appends_analyze_host_metrics
    |intros _; apply appends_analyze_host_metrics
    |apply analyze_host_metrics_rules
    |intros _; apply analyze_host_metrics_rules].
Qed.

Lemma analyze_locust_stats_rules stats :
  Forall (λ b, rule_of b ∈ [FailureRate; ResponseTime])
         (findings (_analyze_locust_stats stats)).
Proof.
  unfold _analyze_locust_stats. destruct (last stats) as [latest|]; [|constructor].
  apply Forall_findings_bind;
    [apply appends_failure_rate_analysis
    |intros _; apply appends_response_time_analysis
    |eapply Forall_impl; [apply failure_rate_analysis_rule|]|].
  { simpl. intros b ->. set_solver. }
  intros _. eapply Forall_impl; [apply response_time_analysis_rule|].
  simpl. intros b ->. set_solver.
Qed.
End OfRule.

(** ** Connection saturation *)

Section ConnectionSaturation.
Import Py Detector.

Lemma gt_num a b x y :
  as_num a = Some x → as_num b = Some y → gt a b = Some (Qc_ltb y x).
Proof.
  intros Ha Hb. unfold gt, cmp. rewrite Ha, Hb.
  destruct a; try discriminate Ha; destruct b; try discriminate Hb; done.
Qed.

Lemma truediv_num a b x y :
  as_num a = Some x → as_num b = Some y → y ≠ 0%Qc →
  truediv a b = Some (x / y)%Qc.
Proof.
  intros Ha Hb Hy. unfold truediv. rewrite Ha, Hb. simpl.
  by rewrite bool_decide_eq_false_2.
Qed.

Lemma of_rule_detect_haproxy r h s l :
  r ∈ [ConnectionSaturation; QueueDepth; ErrorRate; ConnectionGrowth] →
  of_rule r (findings (detect h s l)) = of_rule r (findings (_analyze_haproxy h)).
Proof.
  intros Hr. rewrite findings_detect, of_rule_app.
  rewrite <- (app_nil_r (of_rule r (findings (_analyze_haproxy h)))) at 2.
  f_equal. destruct (result (_analyze_haproxy h)); [|done].
  rewrite of_rule_app.
  rewrite (of_rule_none r (findings (_analyze_system_metrics s))).
  2:{ eapply Forall_impl; [apply analyze_system_metrics_rules|].
      simpl. intros b Hb Heq. rewrite Heq in Hb. clear -Hb Hr.
      rewrite !elem_of_cons, elem_of_nil in Hb; rewrite !elem_of_cons, elem_of_nil in Hr.
      intuition congruence. }
  destruct (result (_analyze_system_metrics s)); [|done].
  simpl. apply of_rule_none.
  eapply Forall_impl; [apply analyze_locust_stats_rules|].
  simpl. intros b Hb Heq. rewrite Heq in Hb. clear -Hb Hr.
  rewrite !elem_of_cons, elem_of_nil in Hb; rewrite !elem_of_cons, elem_of_nil in Hr.
      intuition congruence.
Qed.

Lemma of_rule_analyze r h s l :
  (length (of_rule r (findings (detect h s l))) ≤ 1)%nat →
  of_rule r (snd (analyze h s l)) = of_rule r (findings (detect h s l)).
Proof.
  intros Hlen. rewrite analyze_eq.
  destruct (result (detect h s l)); [|done]. simpl.
  assert (of_rule r (stable_sort severity_le (findings (detect h s l)))
          ≡ₚ of_rule r (findings (detect h s l))) as Hp.
  { unfold of_rule. by rewrite stable_sort_Permutation. }
  destruct (of_rule r (findings (detect h s l))) as [|b [|b' k]].
  - by apply Permutation_nil_r.
  - by apply Permutation_singleton_r.
  - simpl in Hlen. lia.
Qed.

(** When [analyze] returns, it returns what it leaves in
    [self.bottlenecks]. *)
Lemma analyze_returns_state h s l res :
  fst (analyze h s l) = Some res → res = snd (analyze h s l).
Proof.
  rewrite analyze_eq. destruct (result (detect h s l)); simpl; congruence.
Qed.

Lemma of_rule_saturation_haproxy stats latest :
  last stats = Some latest →
  of_rule ConnectionSaturation (findings (_analyze_haproxy stats))
  = findings (connection_limit_analysis latest).
Proof.
  intros Hl. rewrite (findings_analyze_haproxy _ _ Hl), of_rule_app.
  rewrite (of_rule_all _ _ (connection_limit_analysis_rule latest)).
  rewrite <- (app_nil_r (findings (connection_limit_analysis latest))) at 2.
  f_equal. destruct (result (connection_limit_analysis latest)); [|done].
  rewrite of_rule_app.
  rewrite (of_rule_other ConnectionSaturation QueueDepth _ ltac:(done) (queue_analysis_rule latest)).
  destruct (result (queue_analysis latest)); [|done].
  rewrite of_rule_app.
  rewrite (of_rule_other ConnectionSaturation ErrorRate _ ltac:(done) (error_rate_analysis_rule latest)).
  destruct (result (error_rate_analysis latest)); [|done].
  apply (of_rule_other ConnectionSaturation ConnectionGrowth _ ltac:(done)
           (connection_trend_analysis_rule stats)).
Qed.

Lemma connection_limit_analysis_length latest :
  (length (findings (connection_limit_analysis latest)) ≤ 1)%nat.
Proof. block_cases connection_limit_analysis; simpl; lia. Qed.

(** The connection-saturation findings that [analyze] leaves are those
    of the block under [# Connection limit analysis]. *)
Lemma of_rule_saturation_analyze h s l latest :
  last h = Some latest →
  of_rule ConnectionSaturation (snd (analyze h s l))
  = findings (connection_limit_analysis latest).
Proof.
  intros Hl.
  assert (of_rule ConnectionSaturation (findings (detect h s l))
          = findings (connection_limit_analysis latest)) as Hd.
  { rewrite of_rule_detect_haproxy by set_solver.
    by apply of_rule_saturation_haproxy. }
  rewrite of_rule_analyze; [done|].
  rewrite Hd. apply connection_limit_analysis_length.
Qed.

(** The block on numeric [scur] and [slim]. *)
Lemma connection_limit_analysis_numeric latest x y :
  as_num (or (get latest "scur" (PInt 0)) (PInt 0)) = Some x →
  as_num (or (get latest "slim" (PInt 0)) (PInt 0)) = Some y →
  (y ≤ 0 → findings (connection_limit_analysis latest) = [])%Qc
  ∧ (0 < y → x / y * of_Z 100 < of_Z 70 →
     findings (connection_limit_analysis latest) = [])%Qc
  ∧ (0 < y → of_Z 70 ≤ x / y * of_Z 100 → x / y * of_Z 100 < of_Z 90 →
     ∃ b, findings (connection_limit_analysis latest) = [b]
          ∧ type b = CONNECTION_LIMIT ∧ severity b = HIGH
          ∧ evidence b !! "saturation_percent"
            = Some (EvVal (PFloat (x / y * of_Z 100))))%Qc
  ∧ (0 < y → of_Z 90 ≤ x / y * of_Z 100 →
     ∃ b, findings (connection_limit_analysis latest) = [b]
          ∧ type b = CONNECTION_LIMIT ∧ severity b = CRITICAL
          ∧ evidence b !! "saturation_percent"
            = Some (EvVal (PFloat (x / y * of_Z 100))))%Qc.
Proof.
  intros Hx Hy.
  assert (gt (or (get latest "slim" (PInt 0)) (PInt 0)) (PInt 0)
          = Some (Qc_ltb 0 y)) as Hgt.
  { rewrite (gt_num _ _ y (of_Z 0)) by done. unfold of_Z.
    by rewrite Z2Qc_inj_0. }
  unfold findings, connection_limit_analysis, bind, lift, append, ret.
  rewrite Hgt. unfold Qc_ltb. cbv beta iota.
  repeat split.
  - intros Hle. rewrite bool_decide_eq_false_2; [done|]. by apply Qcle_not_lt.
  - intros Hpos Hlt. rewrite bool_decide_eq_true_2 by done.
    rewrite (truediv_num _ _ x y) by (done || by apply Qclt_not_eq in Hpos).
    cbv beta iota. unfold num_ge, Qc_leb, CONNECTION_SATURATION_CRITICAL,
      CONNECTION_SATURATION_HIGH.
    rewrite !bool_decide_eq_false_2; [done| |].
    + by apply Qclt_not_le.
    + apply Qclt_not_le. eapply Qclt_trans; [exact Hlt|]. reflexivity.
  - intros Hpos Hge Hlt. rewrite bool_decide_eq_true_2 by done.
    rewrite (truediv_num _ _ x y) by (done || by apply Qclt_not_eq in Hpos).
    cbv beta iota. unfold num_ge, Qc_leb, CONNECTION_SATURATION_CRITICAL,
      CONNECTION_SATURATION_HIGH.
    rewrite bool_decide_eq_false_2 by (by apply Qclt_not_le).
    rewrite bool_decide_eq_true_2 by done.
    eexists. simpl. repeat split; reflexivity.
  - intros Hpos Hge. rewrite bool_decide_eq_true_2 by done.
    rewrite (truediv_num _ _ x y) by (done || by apply Qclt_not_eq in Hpos).
    cbv beta iota. unfold num_ge, Qc_leb, CONNECTION_SATURATION_CRITICAL.
    rewrite bool_decide_eq_true_2 by done.
    eexists. simpl. repeat split; reflexivity.
Qed.

Lemma or_get_Some latest k dflt v :
  latest !! k = Some v → truthy v = true → or (get latest k dflt) dflt = v.
Proof. intros Hk Hv. unfold or, get. by rewrite Hk, Hv. Qed.

Lemma saturation_950_1000 : (of_Z 950 / of_Z 1000 * of_Z 100)%Qc = of_Z 95.
Proof. apply Qc_is_canon. reflexivity. Qed.

(** C2.  What [analyze] leaves as connection-saturation findings, for
    an input whose latest HAProxy sample is [latest].  With scur = 950
    and slim = 1000: exactly one, CRITICAL, with saturation_percent 95 in
    its evidence.  With scur = 750 and slim = 1000: exactly one, HIGH
    (not CRITICAL).  For numeric scur = x and slim = y (missing, None and
    0 read as 0) and saturation = x / y * 100: exactly one CRITICAL
    finding when y > 0 and saturation >= 90, exactly one HIGH finding
    when y > 0 and 70 <= saturation < 90, and none when y > 0 and
    saturation < 70 or when y <= 0.  The list that [analyze] returns is
    the one it leaves. *)
Theorem connection_saturation_findings (h s : list dict)
    (l : option (list dict)) (latest : dict) :
  last h = Some latest →
  (∀ res, fst (analyze h s l) = Some res → res = snd (analyze h s l))
  ∧ (latest !! "scur" = Some (PInt 950) → latest !! "slim" = Some (PInt 1000) →
     ∃ b, of_rule ConnectionSaturation (snd (analyze h s l)) = [b]
          ∧ type b = CONNECTION_LIMIT ∧ severity b = CRITICAL
          ∧ evidence b !! "saturation_percent"
            = Some (EvVal (PFloat (of_Z 95))))
  ∧ (latest !! "scur" = Some (PInt 750) → latest !! "slim" = Some (PInt 1000) →
     ∃ b, of_rule ConnectionSaturation (snd (analyze h s l)) = [b]
          ∧ type b = CONNECTION_LIMIT ∧ severity b = HIGH
          ∧ severity b ≠ CRITICAL)
  ∧ (∀ x y : Qc,
       as_num (or (get latest "scur" (PInt 0)) (PInt 0)) = Some x →
       as_num (or (get latest "slim" (PInt 0)) (PInt 0)) = Some y →
       (0 < y → of_Z 90 ≤ x / y * of_Z 100 →
        ∃ b, of_rule ConnectionSaturation (snd (analyze h s l)) = [b]
             ∧ type b = CONNECTION_LIMIT ∧ severity b = CRITICAL
             ∧ evidence b !! "saturation_percent"
               = Some (EvVal (PFloat (x / y * of_Z 100))))%Qc
       ∧ (0 < y → of_Z 70 ≤ x / y * of_Z 100 → x / y * of_Z 100 < of_Z 90 →
          ∃ b, of_rule ConnectionSaturation (snd (analyze h s l)) = [b]
               ∧ type b = CONNECTION_LIMIT ∧ severity b = HIGH
               ∧ evidence b !! "saturation_percent"
                 = Some (EvVal (PFloat (x / y * of_Z 100))))%Qc
       ∧ (0 < y → x / y * of_Z 100 < of_Z 70 →
          of_rule ConnectionSaturation (snd (analyze h s l)) = [])%Qc
       ∧ (y ≤ 0 → of_rule ConnectionSaturation (snd (analyze h s l)) = [])%Qc).
Proof.
  intros Hl. rewrite (of_rule_saturation_analyze h s l latest Hl).
  split; [apply analyze_returns_state|]. split; [|split].
  - intros Hscur Hslim.
    destruct (connection_limit_analysis_numeric latest (of_Z 950) (of_Z 1000))
      as (_ & _ & _ & Hcrit).
    { by rewrite (or_get_Some _ _ _ _ Hscur). }
    { by rewrite (or_get_Some _ _ _ _ Hslim). }
    destruct Hcrit as (b & Hb & Ht & Hs & He); [reflexivity| |].
    { rewrite saturation_950_1000. by vm_compute. }
    exists b. by rewrite <- saturation_950_1000.
  - intros Hscur Hslim.
    destruct (connection_limit_analysis_numeric latest (of_Z 750) (of_Z 1000))
      as (_ & _ & Hhigh & _).
    { by rewrite (or_get_Some _ _ _ _ Hscur). }
    { by rewrite (or_get_Some _ _ _ _ Hslim). }
    destruct Hhigh as (b & Hb & Ht & Hs & He);
      [reflexivity|by vm_compute|by vm_compute|].
    exists b. rewrite Hs. done.
  - intros x y Hx Hy.
    destruct (connection_limit_analysis_numeric latest x y Hx Hy)
      as (Hnone & Hlow & Hhigh & Hcrit).
    repeat split; done.
Qed.
End ConnectionSaturation.

Lemma connection_saturation_findings_witness :
  ∃ b,
    Detector.of_rule Detector.ConnectionSaturation
      (snd (Detector.analyze
              [list_to_map [("scur", Py.PInt 950); ("slim", Py.PInt 1000);
                            ("qcur", Py.PInt 0); ("stot", Py.PInt 4000)]]
              [] None)) = [b]
    ∧ Detector.type b = Detector.CONNECTION_LIMIT
    ∧ Detector.severity b = Detector.CRITICAL
    ∧ Detector.evidence b !! "saturation_percent"
      = Some (Detector.EvVal (Py.PFloat (Py.of_Z 95))).
Proof.
  destruct (connection_saturation_findings
              [list_to_map [("scur", Py.PInt 950); ("slim", Py.PInt 1000);
                            ("qcur", Py.PInt 0); ("stot", Py.PInt 4000)]]
              [] None
              (list_to_map [("scur", Py.PInt 950); ("slim", Py.PInt 1000);
                            ("qcur", Py.PInt 0); ("stot", Py.PInt 4000)])
              eq_refl) as (_ & H & _).
  apply H; reflexivity.
Defined.

(** ** Connection growth *)

Section ConnectionGrowth.
Import Py Detector.

Lemma le_num a b x y :
  as_num a = Some x → as_num b = Some y → le a b = Some (bool_decide (x ≤ y)%Qc).
Proof.
  intros Ha Hb. unfold le, cmp. rewrite Ha, Hb.
  destruct a; try discriminate Ha; destruct b; try discriminate Hb; done.
Qed.

Lemma all_nondecreasing_true l :
  all_nondecreasing l = Some true
  ↔ ∀ i a b, l !! i = Some a → l !! S i = Some b → le a b = Some true.
Proof.
  induction l as [|a [|b t] IH].
  - split; [|done]. intros _ i a b Hi. by rewrite lookup_nil in Hi.
  - split; [|done]. intros _ [|i] x y Hx Hy; simpl in *; by try rewrite lookup_nil in Hy.
  - change (all_nondecreasing (a :: b :: t))
      with (c ← le a b; if c : bool then all_nondecreasing (b :: t) else Some false).
    split.
    + intros H. destruct (le a b) as [[|]|] eqn:Hab; try discriminate H.
      simpl in H. intros [|i] x y Hx Hy.
      * simpl in Hx, Hy. by simplify_eq.
      * apply (proj1 IH H i x y); done.
    + intros H. rewrite (H 0%nat a b) by done. simpl.
      apply IH. intros i x y Hx Hy. apply (H (S i) x y); done.
Qed.

Lemma connection_trend_analysis_length stats :
  (length (findings (connection_trend_analysis stats)) ≤ 1)%nat.
Proof. block_cases connection_trend_analysis; simpl; lia. Qed.

Lemma connection_trend_analysis_short stats :
  (length stats < 10)%nat → findings (connection_trend_analysis stats) = [].
Proof.
  intros Hlen. unfold findings, connection_trend_analysis.
  rewrite bool_decide_eq_false_2; [done|lia].
Qed.

Lemma connection_trend_analysis_not_growing stats :
  all_nondecreasing (recent_scur stats) ≠ Some true →
  findings (connection_trend_analysis stats) = [].
Proof.
  intros Hn. unfold findings, connection_trend_analysis, bind, lift, ret.
  destruct (bool_decide _); [|done].
  by destruct (all_nondecreasing (recent_scur stats)) as [[|]|].
Qed.

Lemma connection_trend_analysis_growing stats :
  (10 ≤ length stats)%nat →
  all_nondecreasing (recent_scur stats) = Some true →
  ∃ b, findings (connection_trend_analysis stats) = [b]
       ∧ type b = CONNECTION_LIMIT ∧ severity b = MEDIUM
       ∧ evidence b !! "connection_trend" = Some (EvList (recent_scur stats)).
Proof.
  intros Hlen Hg. unfold findings, connection_trend_analysis, bind, lift, append.
  rewrite bool_decide_eq_true_2 by done. rewrite Hg.
  eexists. simpl. repeat split; reflexivity.
Qed.

Lemma of_rule_growth_haproxy stats latest :
  last stats = Some latest →
  of_rule ConnectionGrowth (findings (_analyze_haproxy stats))
  = match result (connection_limit_analysis latest) ≫= λ _,
          result (queue_analysis latest) ≫= λ _,
          result (error_rate_analysis latest) with
    | Some _ => findings (connection_trend_analysis stats)
    | None => []
    end.
Proof.
  intros Hl. rewrite (findings_analyze_haproxy _ _ Hl), of_rule_app.
  rewrite (of_rule_other ConnectionGrowth ConnectionSaturation _ ltac:(done)
             (connection_limit_analysis_rule latest)).
  destruct (result (connection_limit_analysis latest)); [|done].
  rewrite of_rule_app.
  rewrite (of_rule_other ConnectionGrowth QueueDepth _ ltac:(done)
             (queue_analysis_rule latest)).
  destruct (result (queue_analysis latest)); [|done].
  rewrite of_rule_app.
  rewrite (of_rule_other ConnectionGrowth ErrorRate _ ltac:(done)
             (error_rate_analysis_rule latest)).
  destruct (result (error_rate_analysis latest)); [|done].
  simpl. apply of_rule_all, connection_trend_analysis_rule.
Qed.

Lemma of_rule_growth_haproxy_length stats :
  (length (of_rule ConnectionGrowth (findings (_analyze_haproxy stats))) ≤ 1)%nat.
Proof.
  destruct (last stats) as [latest|] eqn:Hl.
  - rewrite (of_rule_growth_haproxy _ _ Hl).
    destruct (_ ≫= _); [apply connection_trend_analysis_length|simpl; lia].
  - unfold _analyze_haproxy. rewrite Hl. simpl. lia.
Qed.

Lemma of_rule_growth_analyze h s l :
  of_rule ConnectionGrowth (snd (analyze h s l))
  = of_rule ConnectionGrowth (findings (_analyze_haproxy h)).
Proof.
  rewrite of_rule_analyze.
  - apply of_rule_detect_haproxy. set_solver.
  - rewrite of_rule_detect_haproxy by set_solver.
    apply of_rule_growth_haproxy_length.
Qed.

(** The findings of the trend block are at most one, and none when the
    pass is cut short before it. *)
Lemma of_rule_growth_none stats :
  findings (connection_trend_analysis stats) = [] →
  of_rule ConnectionGrowth (findings (_analyze_haproxy stats)) = [].
Proof.
  intros Hn. destruct (last stats) as [latest|] eqn:Hl.
  - rewrite (of_rule_growth_haproxy _ _ Hl). by destruct (_ ≫= _).
  - unfold _analyze_haproxy. by rewrite Hl.
Qed.

Lemma analyze_Some_haproxy h s l res :
  fst (analyze h s l) = Some res → result (_analyze_haproxy h) = Some tt.
Proof.
  rewrite analyze_eq. destruct (result (detect h s l)) eqn:Hr; [|done].
  intros _. rewrite result_detect in Hr.
  by destruct (result (_analyze_haproxy h)) as [[]|].
Qed.

Lemma recent_scur_window pre window :
  length window = 10%nat →
  recent_scur (pre ++ window)
  = (λ sample, or (get sample "scur" (PInt 0)) (PInt 0)) <$> window.
Proof.
  intros Hlen. unfold recent_scur. rewrite length_app, Hlen.
  by rewrite Nat.add_sub, drop_app_length.
Qed.

Lemma session_count_read sample n :
  Findings.session_count sample n →
  or (get sample "scur" (PInt 0)) (PInt 0) = PInt n.
Proof.
  unfold or, get. intros [H|[-> [H|H]]]; rewrite H; simpl; [|done|done].
  destruct (Z.eqb_spec n 0) as [->|]; done.
Qed.

Lemma session_counts_read window counts :
  Forall2 Findings.session_count window counts →
  (λ sample, or (get sample "scur" (PInt 0)) (PInt 0)) <$> window
  = PInt <$> counts.
Proof.
  induction 1 as [|sample n window counts Hn _ IH]; [done|].
  by rewrite !fmap_cons, IH, (session_count_read _ _ Hn).
Qed.

Lemma le_ints m n : le (PInt m) (PInt n) = Some (bool_decide (m ≤ n)).
Proof.
  rewrite (le_num _ _ (of_Z m) (of_Z n)) by done. f_equal.
  apply bool_decide_ext. unfold of_Z. symmetry. apply Z2Qc_inj_le.
Qed.

(** C6.  When [analyze] returns on a series whose last 10 samples have
    the session counts [counts] (the value under ["scur"], missing and
    None counting as 0), each of them [<=] the next, the returned list
    has exactly one connection-growth finding; it is MEDIUM, carries the
    ten counts, whatever their level, and stands beside the
    connection-saturation findings, which are those of the saturation
    rule on the latest sample whatever the trend.  With fewer than 10
    samples, or with a consecutive pair of the last 10 whose second
    count is below the first, there is no connection-growth finding.
    For counts that are not integers the rule compares the values read
    from ["scur"] of the last 10 samples with [<=], which on numbers is
    the numeric order. *)
Theorem connection_growth_findings (h s : list dict) (l : option (list dict)) :
  (∀ res pre window counts,
     fst (analyze h s l) = Some res →
     h = pre ++ window → length window = 10%nat →
     Forall2 Findings.session_count window counts →
     (∀ i m n, counts !! i = Some m → counts !! S i = Some n → m ≤ n) →
     ∃ b latest,
       of_rule ConnectionGrowth res = [b]
       ∧ type b = CONNECTION_LIMIT ∧ severity b = MEDIUM
       ∧ evidence b !! "connection_trend" = Some (EvList (PInt <$> counts))
       ∧ last h = Some latest
       ∧ of_rule ConnectionSaturation res
         = findings (connection_limit_analysis latest))
  ∧ ((length h < 10)%nat → of_rule ConnectionGrowth (snd (analyze h s l)) = [])
  ∧ (∀ pre window i sample sample' m n,
       h = pre ++ window → length window = 10%nat →
       window !! i = Some sample → window !! S i = Some sample' →
       Findings.session_count sample m → Findings.session_count sample' n →
       n < m →
       of_rule ConnectionGrowth (snd (analyze h s l)) = [])
  ∧ (∀ pre window,
       h = pre ++ window → length window = 10%nat →
       recent_scur h
       = (λ sample, or (get sample "scur" (PInt 0)) (PInt 0)) <$> window)
  ∧ (∀ res,
       fst (analyze h s l) = Some res → (10 ≤ length h)%nat →
       (∀ i a b, recent_scur h !! i = Some a → recent_scur h !! S i = Some b →
                 le a b = Some true) →
       ∃ b latest,
         of_rule ConnectionGrowth res = [b]
         ∧ type b = CONNECTION_LIMIT ∧ severity b = MEDIUM
         ∧ evidence b !! "connection_trend" = Some (EvList (recent_scur h))
         ∧ last h = Some latest
         ∧ of_rule ConnectionSaturation res
           = findings (connection_limit_analysis latest))
  ∧ (∀ i a b, recent_scur h !! i = Some a → recent_scur h !! S i = Some b →
              le a b = Some false →
              of_rule ConnectionGrowth (snd (analyze h s l)) = [])
  ∧ length (recent_scur h) = (10 `min` length h)%nat
  ∧ (∀ a b x y, as_num a = Some x → as_num b = Some y →
                le a b = Some (bool_decide (x ≤ y)%Qc)).
Proof.
  assert (∀ res,
            fst (analyze h s l) = Some res → (10 ≤ length h)%nat →
            (∀ i a b, recent_scur h !! i = Some a →
                      recent_scur h !! S i = Some b → le a b = Some true) →
            ∃ b latest,
              of_rule ConnectionGrowth res = [b]
              ∧ type b = CONNECTION_LIMIT ∧ severity b = MEDIUM
              ∧ evidence b !! "connection_trend" = Some (EvList (recent_scur h))
              ∧ last h = Some latest
              ∧ of_rule ConnectionSaturation res
                = findings (connection_limit_analysis latest)) as Hgrow.
  { intros res Hres Hlen Hord.
    pose proof (analyze_Some_haproxy _ _ _ _ Hres) as Hh.
    rewrite (analyze_returns_state _ _ _ _ Hres).
    destruct (last h) as [latest|] eqn:Hl.
    2:{ apply last_None in Hl. subst h. simpl in Hlen. lia. }
    rewrite of_rule_growth_analyze, (of_rule_growth_haproxy _ _ Hl).
    rewrite (result_analyze_haproxy _ _ Hl) in Hh.
    destruct (result (connection_limit_analysis latest)) as [[]|];
      [|discriminate Hh].
    destruct (result (queue_analysis latest)) as [[]|]; [|discriminate Hh].
    destruct (result (error_rate_analysis latest)) as [[]|]; [|discriminate Hh].
    simpl.
    destruct (connection_trend_analysis_growing h Hlen) as (b & Hb & Ht & Hs & He).
    { by apply all_nondecreasing_true. }
    exists b, latest. repeat split; try done.
    by apply of_rule_saturation_analyze. }
  assert (∀ i a b, recent_scur h !! i = Some a → recent_scur h !! S i = Some b →
                   le a b = Some false →
                   of_rule ConnectionGrowth (snd (analyze h s l)) = [])
    as Hdrop.
  { intros i a b Ha Hb Hab. rewrite of_rule_growth_analyze.
    apply of_rule_growth_none, connection_trend_analysis_not_growing.
    intros Hg. rewrite all_nondecreasing_true in Hg.
    rewrite (Hg i a b Ha Hb) in Hab. discriminate Hab. }
  split; [|split; [|split; [|split; [|split; [|split; [|split]]]]]].
  - intros res pre window counts Hres Hh Hlen Hcounts Hord.
    assert (recent_scur h = PInt <$> counts) as Hrecent.
    { rewrite Hh, (recent_scur_window _ _ Hlen).
      by apply session_counts_read. }
    destruct (Hgrow res Hres) as (b & latest & Hb).
    + rewrite Hh, length_app, Hlen. lia.
    + intros i a b. rewrite Hrecent, !list_lookup_fmap.
      destruct (counts !! i) as [m|] eqn:Hm; [|done].
      destruct (counts !! S i) as [n|] eqn:Hn; [|done].
      intros [= <-] [= <-]. rewrite le_ints.
      by rewrite bool_decide_eq_true_2 by (by apply (Hord i)).
    + exists b, latest. by rewrite <- Hrecent.
  - intros Hlen. rewrite of_rule_growth_analyze.
    by apply of_rule_growth_none, connection_trend_analysis_short.
  - intros pre window i sample sample' m n Hh Hlen Hi Hi' Hm Hn Hlt.
    apply (Hdrop i (PInt m) (PInt n)).
    + rewrite Hh, (recent_scur_window _ _ Hlen), list_lookup_fmap, Hi.
      simpl. by rewrite (session_count_read _ _ Hm).
    + rewrite Hh, (recent_scur_window _ _ Hlen), list_lookup_fmap, Hi'.
      simpl. by rewrite (session_count_read _ _ Hn).
    + rewrite le_ints. rewrite bool_decide_eq_false_2; [done|lia].
  - intros pre window -> Hlen. by apply recent_scur_window.
  - exact Hgrow.
  - exact Hdrop.
  - unfold recent_scur. rewrite length_fmap, length_drop. lia.
  - apply le_num.
Qed.
End ConnectionGrowth.

Lemma connection_growth_findings_witness :
  match
    fst (Detector.analyze
           ((λ n, Detector.haproxy_sample n 1000)
              <$> [900; 910; 920; 930; 940; 950; 960; 970; 980; 990])
           [] None)
  with
  | Some res =>
      ∃ b latest,
        Detector.of_rule Detector.ConnectionGrowth res = [b]
        ∧ Detector.type b = Detector.CONNECTION_LIMIT
        ∧ Detector.severity b = Detector.MEDIUM
        ∧ Detector.evidence b !! "connection_trend"
          = Some (Detector.EvList
                    (Py.PInt
                       <$> [900; 910; 920; 930; 940; 950; 960; 970; 980; 990]))
        ∧ last ((λ n, Detector.haproxy_sample n 1000)
              <$> [900; 910; 920; 930; 940; 950; 960; 970; 980; 990])
          = Some latest
        ∧ Detector.of_rule Detector.ConnectionSaturation res
          = Detector.findings (Detector.connection_limit_analysis latest)
  | None => False
  end.
Proof.
  destruct (fst (Detector.analyze _ _ _)) as [res|] eqn:H;
    [|vm_compute in H; discriminate H].
  destruct (connection_growth_findings
              ((λ n, Detector.haproxy_sample n 1000)
              <$> [900; 910; 920; 930; 940; 950; 960; 970; 980; 990])
              [] None) as (H1 & _).
  apply (H1 res []
           ((λ n, Detector.haproxy_sample n 1000)
              <$> [900; 910; 920; 930; 940; 950; 960; 970; 980; 990])
           [900; 910; 920; 930; 940; 950; 960; 970; 980; 990] H).
  - reflexivity.
  - reflexivity.
  - repeat constructor.
  - clear. intros i m n Hm Hn.
    do 10 (destruct i as [|i];
           [simpl in Hm, Hn; try discriminate Hn;
            injection Hm as <-; injection Hn as <-; lia|]).
    discriminate Hm.
Defined.

(** ** Memory pressure without memory data *)

Section MemoryPressure.
Import Py Detector.

Lemma or_get_absent latest k dflt :
  latest !! k = None ∨ latest !! k = Some PNone →
  or (get latest k dflt) dflt = dflt.
Proof.
  intros [Hk|Hk]; unfold or, get; rewrite Hk; [|done].
  by destruct (truthy dflt).
Qed.

Lemma as_num_or_one_nonzero v y : as_num (or v (PInt 1)) = Some y → y ≠ 0%Qc.
Proof.
  unfold or. destruct (truthy v) eqn:Hv.
  - destruct v as [|z|q|t]; simpl in *; try discriminate.
    + intros [= <-]. apply negb_true_iff, Z.eqb_neq in Hv.
      unfold of_Z. rewrite <- Z2Qc_inj_0. by intros ?%Z2Qc_inj.
    + intros [= <-]. apply negb_true_iff, bool_decide_eq_false in Hv. done.
  - simpl. intros [= <-]. by vm_compute.
Qed.

Lemma cpu_analysis_numeric latest host_type x y :
  as_num (or (get latest "load_1" (PInt 0)) (PInt 0)) = Some x →
  as_num (or (get latest "cpu_count" (PInt 1)) (PInt 1)) = Some y →
  result (cpu_analysis latest host_type) = Some tt.
Proof.
  intros Hx Hy. unfold result, cpu_analysis, bind, lift, append, ret.
  rewrite (truediv_num _ _ x y) by eauto using as_num_or_one_nonzero.
  cbv beta iota. by repeat destruct (num_ge _ _).
Qed.

Lemma zero_percent : (of_Z 0 / of_Z 1 * of_Z 100)%Qc = of_Z 0.
Proof. apply Qc_is_canon. reflexivity. Qed.

Lemma memory_analysis_absent latest host_type :
  or (get latest "mem_total" (PInt 1)) (PInt 1) = PInt 1 →
  or (get latest "mem_free" (PInt 0)) (PInt 0) = PInt 0 →
  ∃ b, findings (memory_analysis latest host_type) = [b]
       ∧ type b = MEMORY ∧ severity b = CRITICAL
       ∧ affected_component b = host_type
       ∧ evidence b !! "free_percent" = Some (EvVal (PFloat (of_Z 0)))
       ∧ evidence b !! "total_mb" = Some (EvVal (PInt 0))
       ∧ evidence b !! "free_mb" = Some (EvVal (PInt 0)).
Proof.
  intros Ht Hf. unfold findings, memory_analysis, bind, lift, append.
  rewrite Ht, Hf.
  rewrite (truediv_num _ _ (of_Z 0) (of_Z 1)) by (done || by vm_compute).
  cbv beta iota. rewrite zero_percent.
  replace (num_lt (of_Z 0) MEMORY_CRITICAL_THRESHOLD) with true by (by vm_compute).
  eexists. simpl. repeat split; reflexivity.
Qed.

(** C10.  When the latest sample of the list given to
    [_analyze_host_metrics] has no [mem_total] and no [mem_free] (the key
    is missing or holds None), the total is read as 1 and the free
    memory as 0, the free percentage is 0, and, the CPU rule having run
    (it does on a numeric load and CPU count), the pass reports exactly
    one memory finding: CRITICAL, for that host type, with 0 percent
    free in its evidence. *)
Theorem missing_memory_is_critical (metrics : list dict) (host_type : string)
    (latest : dict) :
  last metrics = Some latest →
  latest !! "mem_total" = None ∨ latest !! "mem_total" = Some PNone →
  latest !! "mem_free" = None ∨ latest !! "mem_free" = Some PNone →
  or (get latest "mem_total" (PInt 1)) (PInt 1) = PInt 1
  ∧ or (get latest "mem_free" (PInt 0)) (PInt 0) = PInt 0
  ∧ (∃ ratio, truediv (PInt 0) (PInt 1) = Some ratio
              ∧ (ratio * of_Z 100)%Qc = of_Z 0)
  ∧ (∀ x y,
       as_num (or (get latest "load_1" (PInt 0)) (PInt 0)) = Some x →
       as_num (or (get latest "cpu_count" (PInt 1)) (PInt 1)) = Some y →
       result (cpu_analysis latest host_type) = Some tt)
  ∧ (result (cpu_analysis latest host_type) = Some tt →
     ∃ b,
       of_rule MemoryPressure (findings (_analyze_host_metrics metrics host_type))
       = [b]
       ∧ type b = MEMORY ∧ severity b = CRITICAL
       ∧ affected_component b = host_type
       ∧ evidence b !! "free_percent" = Some (EvVal (PFloat (of_Z 0)))
       ∧ evidence b !! "total_mb" = Some (EvVal (PInt 0))
       ∧ evidence b !! "free_mb" = Some (EvVal (PInt 0))).
Proof.
  intros Hl Ht Hf.
  pose proof (or_get_absent latest "mem_total" (PInt 1) Ht) as Ht'.
  pose proof (or_get_absent latest "mem_free" (PInt 0) Hf) as Hf'.
  split; [done|]. split; [done|]. split; [|split].
  - exists (of_Z 0 / of_Z 1)%Qc. split; [|apply zero_percent].
    apply truediv_num; [done|done|by vm_compute].
  - intros x y. apply cpu_analysis_numeric.
  - intros Hcpu.
    destruct (memory_analysis_absent latest host_type Ht' Hf') as (b & Hb & Hrest).
    exists b. split; [|done].
    unfold _analyze_host_metrics. rewrite Hl.
    rewrite findings_bind;
      [|apply appends_cpu_analysis|intros _; apply appends_memory_analysis].
    rewrite Hcpu, of_rule_app.
    rewrite (of_rule_other MemoryPressure CpuSaturation _ ltac:(done)
               (cpu_analysis_rule latest host_type)).
    rewrite (of_rule_all _ _ (memory_analysis_rule latest host_type)).
    by rewrite Hb.
Qed.
End MemoryPressure.

Lemma missing_memory_is_critical_witness :
  ∃ b,
    Detector.of_rule Detector.MemoryPressure
      (Detector.findings
         (Detector._analyze_host_metrics
            [list_to_map [("host_type", Py.PStr "amphora");
                          ("cpu_count", Py.PInt 2); ("load_1", Py.PInt 1)]]
            "amphora")) = [b]
    ∧ Detector.type b = Detector.MEMORY
    ∧ Detector.severity b = Detector.CRITICAL
    ∧ Detector.affected_component b = "amphora"
    ∧ Detector.evidence b !! "free_percent"
      = Some (Detector.EvVal (Py.PFloat (Py.of_Z 0)))
    ∧ Detector.evidence b !! "total_mb" = Some (Detector.EvVal (Py.PInt 0))
    ∧ Detector.evidence b !! "free_mb" = Some (Detector.EvVal (Py.PInt 0)).
Proof.
  destruct (missing_memory_is_critical
              [list_to_map [("host_type", Py.PStr "amphora");
                            ("cpu_count", Py.PInt 2); ("load_1", Py.PInt 1)]]
              "amphora"
              (list_to_map [("host_type", Py.PStr "amphora");
                            ("cpu_count", Py.PInt 2); ("load_1", Py.PInt 1)]))
    as (_ & _ & _ & Hcpu & H);
    [reflexivity|left; reflexivity|left; reflexivity|].
  apply H. apply (Hcpu (Py.of_Z 1) (Py.of_Z 2)); reflexivity.
Defined.

Lemma analyze_sorted_stable_witness :
  match
    fst (Detector.analyze
           [list_to_map [("scur", Py.PInt 950); ("slim", Py.PInt 1000);
                         ("qcur", Py.PInt 15); ("stot", Py.PInt 100);
                         ("ereq", Py.PInt 7)]]
           [list_to_map [("host_type", Py.PStr "amphora");
                         ("cpu_count", Py.PInt 2); ("load_1", Py.PInt 1);
                         ("mem_total", Py.PInt 4096); ("mem_free", Py.PInt 300)]]
           None)
  with
  | Some res =>
      res
      = filter (λ b, Detector.severity b = Detector.CRITICAL)
          (Detector.findings (Detector.detect
           [list_to_map [("scur", Py.PInt 950); ("slim", Py.PInt 1000);
                         ("qcur", Py.PInt 15); ("stot", Py.PInt 100);
                         ("ereq", Py.PInt 7)]]
           [list_to_map [("host_type", Py.PStr "amphora");
                         ("cpu_count", Py.PInt 2); ("load_1", Py.PInt 1);
                         ("mem_total", Py.PInt 4096); ("mem_free", Py.PInt 300)]]
           None))
        ++ filter (λ b, Detector.severity b = Detector.HIGH)
             (Detector.findings (Detector.detect
           [list_to_map [("scur", Py.PInt 950); ("slim", Py.PInt 1000);
                         ("qcur", Py.PInt 15); ("stot", Py.PInt 100);
                         ("ereq", Py.PInt 7)]]
           [list_to_map [("host_type", Py.PStr "amphora");
                         ("cpu_count", Py.PInt 2); ("load_1", Py.PInt 1);
                         ("mem_total", Py.PInt 4096); ("mem_free", Py.PInt 300)]]
           None))
        ++ filter (λ b, Detector.severity b = Detector.MEDIUM)
             (Detector.findings (Detector.detect
           [list_to_map [("scur", Py.PInt 950); ("slim", Py.PInt 1000);
                         ("qcur", Py.PInt 15); ("stot", Py.PInt 100);
                         ("ereq", Py.PInt 7)]]
           [list_to_map [("host_type", Py.PStr "amphora");
                         ("cpu_count", Py.PInt 2); ("load_1", Py.PInt 1);
                         ("mem_total", Py.PInt 4096); ("mem_free", Py.PInt 300)]]
           None))
        ++ filter (λ b, Detector.severity b = Detector.LOW)
             (Detector.findings (Detector.detect
           [list_to_map [("scur", Py.PInt 950); ("slim", Py.PInt 1000);
                         ("qcur", Py.PInt 15); ("stot", Py.PInt 100);
                         ("ereq", Py.PInt 7)]]
           [list_to_map [("host_type", Py.PStr "amphora");
                         ("cpu_count", Py.PInt 2); ("load_1", Py.PInt 1);
                         ("mem_total", Py.PInt 4096); ("mem_free", Py.PInt 300)]]
           None))
      ∧ StronglySorted
          (λ a b, Detector.severity_order (Detector.severity a)
                  ≤ Detector.severity_order (Detector.severity b)) res
  | None => False
  end.
Proof.
  destruct (fst (Detector.analyze _ _ _)) as [res|] eqn:H;
    [|vm_compute in H; discriminate H].
  destruct (analyze_sorted_stable _ _ _ _ H) as (_ & H2 & _ & _ & H5 & _).
  split; [exact H2|exact H5].
Defined.

(** ** get_summary: the recommendations *)


Section Recommendations.
Import Py Detector.
















(** What [analyze] leaves in [self.bottlenecks] is a rearrangement of
    the findings of the passes. *)
Lemma analyze_state_Permutation h s l :
  snd (analyze h s l) ≡ₚ findings (detect h s l).
Proof.
  rewrite analyze_eq. destruct (result (detect h s l)); simpl; [|done].
  apply stable_sort_Permutation.
Qed.

End Recommendations.


(** ** The collection loop *)

Section CollectionLoop.
Import Py Scheduler.
Context {data : Type}.
Implicit Types (t : tick data) (script : list (tick data)).

Lemma _collection_loop_cons name interval t script events :
  stop_is_set t = false →
  iteration name interval t = (events, None) →
  _collection_loop name interval (t :: script)
  = (events ++ fst (_collection_loop name interval script),
     snd (_collection_loop name interval script)).
Proof.
  intros Hs Hi. simpl. rewrite Hs, Hi.
  by destruct (_collection_loop name interval script).
Qed.

(** Iterations that neither see the stop event nor let an exception
    out are followed by the rest of the script. *)
Lemma _collection_loop_app name interval pre script :
  Forall (λ t, stop_is_set t = false ∧ snd (iteration name interval t) = None) pre →
  _collection_loop name interval (pre ++ script)
  = (fst (_collection_loop name interval pre)
     ++ fst (_collection_loop name interval script),
     snd (_collection_loop name interval script)).
Proof.
  induction 1 as [|t pre [Hs Hi] _ IH]; simpl.
  - by destruct (_collection_loop name interval script).
  - rewrite Hs. destruct (iteration name interval t) as [events o].
    simpl in Hi. subst o. rewrite IH.
    destruct (_collection_loop name interval pre) as [events' fin]. simpl.
    by rewrite app_assoc.
Qed.

Lemma iteration_raises name interval t message :
  collect t = Raises (Exception message)
  ∨ (∃ d, collect t = Returns d ∧ store_func t d = Raises (Exception message)) →
  iteration name interval t
  = ([Logged (error_message name message); Waited interval], None).
Proof.
  unfold iteration. intros [Hc|(d & Hc & Hs)]; rewrite Hc; [done|].
  by rewrite Hs.
Qed.

(** C7.  An iteration in which [collect()] or the store callback raises
    an [Exception]: the loop logs the error, waits, records no stored
    sample for the iteration (the callback is not called, or it raised),
    and goes on with the next iteration; how the loop ends is how it
    ends on the iterations that follow, so the exception does not leave
    it.  This holds for an iteration anywhere in the run. *)
Theorem collection_error_is_isolated (name : string) (interval : Qc)
    (pre : list (tick data)) (t : tick data) (script : list (tick data))
    (message : string) :
  Forall (λ u, stop_is_set u = false ∧ snd (iteration name interval u) = None) pre →
  stop_is_set t = false →
  collect t = Raises (Exception message)
  ∨ (∃ d, collect t = Returns d ∧ store_func t d = Raises (Exception message)) →
  iteration name interval t
  = ([Logged (error_message name message); Waited interval], None)
  ∧ (∀ d, Stored d ∉ fst (iteration name interval t))
  ∧ _collection_loop name interval (pre ++ t :: script)
    = (fst (_collection_loop name interval pre)
       ++ [Logged (error_message name message); Waited interval]
       ++ fst (_collection_loop name interval script),
       snd (_collection_loop name interval script))
  ∧ (∀ e, snd (_collection_loop name interval (pre ++ t :: script)) = Escaped e →
          snd (_collection_loop name interval script) = Escaped e).
Proof.
  intros Hpre Hstop Hraise.
  pose proof (iteration_raises name interval t message Hraise) as Hi.
  assert (_collection_loop name interval (pre ++ t :: script)
          = (fst (_collection_loop name interval pre)
             ++ [Logged (error_message name message); Waited interval]
             ++ fst (_collection_loop name interval script),
             snd (_collection_loop name interval script))) as Hloop.
  { rewrite (_collection_loop_app _ _ _ _ Hpre).
    by rewrite (_collection_loop_cons _ _ _ _ _ Hstop Hi). }
  split; [done|]. split; [|split; [done|]].
  - intros d. rewrite Hi. simpl.
    rewrite !elem_of_cons, elem_of_nil. intros [?|[?|[]]]; discriminate.
  - intros e. by rewrite Hloop.
Qed.

(** C8, as the code has it.  After an iteration that stores, the loop
    waits for max(0, interval - elapsed), which is 0 once the iteration
    has taken the interval or more; after an iteration in which
    [collect()] or the callback raises an [Exception], it waits for the
    whole interval, whatever time the iteration took. *)
Theorem wait_after_iteration (name : string) (interval : Qc) (t : tick data) :
  (∀ d, collect t = Returns d → store_func t d = Returns tt →
        iteration name interval t
        = ([Stored d;
            Waited (max0 (interval - (end_time t - start_time t)))], None))%Qc
  ∧ (interval ≤ end_time t - start_time t →
     max0 (interval - (end_time t - start_time t)) = 0)%Qc
  ∧ (end_time t - start_time t < interval →
     max0 (interval - (end_time t - start_time t))
     = interval - (end_time t - start_time t))%Qc
  ∧ (∀ message,
       collect t = Raises (Exception message)
       ∨ (∃ d, collect t = Returns d
               ∧ store_func t d = Raises (Exception message)) →
       last (fst (iteration name interval t)) = Some (Waited interval)).
Proof.
  split; [|split; [|split]].
  - intros d Hc Hs. unfold iteration. by rewrite Hc, Hs.
  - intros Hle. unfold max0, Qc_leb. rewrite bool_decide_eq_true_2; [done|].
    apply (Qcplus_le_mono_r _ _ (- (end_time t - start_time t))) in Hle.
    by replace (end_time t - start_time t + - (end_time t - start_time t))%Qc
      with 0%Qc in Hle by ring.
  - intros Hlt. unfold max0, Qc_leb. rewrite bool_decide_eq_false_2; [done|].
    apply Qclt_not_le.
    apply (Qcplus_lt_mono_r _ _ (- (end_time t - start_time t))) in Hlt.
    by replace (end_time t - start_time t + - (end_time t - start_time t))%Qc
      with 0%Qc in Hlt by ring.
  - intros message Hraise. by rewrite (iteration_raises _ _ _ _ Hraise).
Qed.
End CollectionLoop.

Lemma collection_error_is_isolated_witness :
  Scheduler._collection_loop "haproxy" (Py.of_Z 10)
    ([Scheduler.storing_tick] ++ Scheduler.failing_tick :: [Scheduler.storing_tick])
  = (fst (Scheduler._collection_loop "haproxy" (Py.of_Z 10)
            [Scheduler.storing_tick])
     ++ [Scheduler.Logged (Scheduler.error_message "haproxy" "timed out");
         Scheduler.Waited (Py.of_Z 10)]
     ++ fst (Scheduler._collection_loop "haproxy" (Py.of_Z 10)
               [Scheduler.storing_tick]),
     snd (Scheduler._collection_loop "haproxy" (Py.of_Z 10)
            [Scheduler.storing_tick]))
  ∧ ∀ d, Scheduler.Stored d
         ∉ fst (Scheduler.iteration "haproxy" (Py.of_Z 10) Scheduler.failing_tick).
Proof.
  destruct (collection_error_is_isolated "haproxy" (Py.of_Z 10)
              [Scheduler.storing_tick] Scheduler.failing_tick
              [Scheduler.storing_tick] "timed out")
    as (_ & Hn & Hl & _).
  - constructor; [split; reflexivity|constructor].
  - reflexivity.
  - left. reflexivity.
  - split; [exact Hl|exact Hn].
Defined.

(** C8 as stated fails on the failure path: an iteration whose
    [collect()] raises after 3 seconds of a 10 second interval is
    followed by a wait of 10 seconds, not of max(0, 10 - 3) = 7. *)
Lemma failing_tick_waits_full_interval :
  last (fst (Scheduler.iteration "haproxy" (Py.of_Z 10) Scheduler.failing_tick))
  = Some (Scheduler.Waited (Py.of_Z 10))
  ∧ last (fst (Scheduler.iteration "haproxy" (Py.of_Z 10) Scheduler.failing_tick))
    ≠ Some (Scheduler.Waited
              (Scheduler.max0
                 (Py.of_Z 10 - (Scheduler.end_time Scheduler.failing_tick
                                - Scheduler.start_time Scheduler.failing_tick))%Qc)).
Proof.
  split; [reflexivity|].
  simpl. intros H. injection H as H. discriminate H.
Qed.

Lemma wait_after_iteration_witness :
  Scheduler.iteration "haproxy" (Py.of_Z 10) Scheduler.storing_tick
  = ([Scheduler.Stored "sample";
      Scheduler.Waited
        (Scheduler.max0
           (Py.of_Z 10 - (Scheduler.end_time Scheduler.storing_tick
                          - Scheduler.start_time Scheduler.storing_tick))%Qc)],
     None)
  ∧ last (fst (Scheduler.iteration "haproxy" (Py.of_Z 10) Scheduler.failing_tick))
    = Some (Scheduler.Waited (Py.of_Z 10)).
Proof.
  split.
  - apply (proj1 (wait_after_iteration "haproxy" (Py.of_Z 10)
                    Scheduler.storing_tick) "sample"); reflexivity.
  - apply (proj2 (proj2 (proj2 (wait_after_iteration "haproxy" (Py.of_Z 10)
                                  Scheduler.failing_tick))) "timed out").
    left. reflexivity.
Defined.

(** ** The haproxy_stats table: writing and reading back *)

Section StorageRoundTrip.
Import Py Storage.
Variable int_of_str : string → option Z.
Variable json_dumps : dict → string.

Abbreviation insert_row := (Storage.insert_row int_of_str json_dumps).
Abbreviation store_haproxy_stats :=
  (Storage.store_haproxy_stats int_of_str json_dumps).
Abbreviation apply_call := (Storage.apply_call int_of_str json_dumps).
Abbreviation apply_calls := (Storage.apply_calls int_of_str json_dumps).
Abbreviation written_record := (Storage.written_record int_of_str json_dumps).
Abbreviation written_for := (Storage.written_for int_of_str json_dumps).
Abbreviation insert_values := (Storage.insert_values int_of_str json_dumps).

Lemma insert_values_no_key a l stat k :
  k ∈ ["id"; "run_id"; "timestamp"] → insert_values a l stat !! k = None.
Proof.
  rewrite !elem_of_cons, elem_of_nil. intros [->|[->|[->|[]]]]; reflexivity.
Qed.

(** With no time bounds the [WHERE] clause selects the rows of the
    run. *)
Lemma where_clause_run run_id r :
  where_clause run_id None None r = true ↔ row_run_id r = run_id.
Proof.
  unfold where_clause. simpl. rewrite !andb_true_r. apply Z.eqb_eq.
Qed.

Lemma selected_insert_row run_id run ts a l db stat :
  selected run_id (insert_row run ts a l db stat)
  = selected run_id db
    ++ (if decide (run = run_id)
        then [written_record
                {| call_utcnow := ts; call_run_id := run; call_amphora_id := a;
                   call_lb_id := l; call_stats := [] |} stat]
        else []).
Proof.
  unfold selected, Storage.insert_row. cbn [haproxy_stats].
  rewrite filter_app, fmap_app. f_equal.
  rewrite filter_cons, filter_nil.
  destruct (decide (run = run_id)) as [->|Hne].
  - rewrite decide_True by (by apply where_clause_run).
    rewrite fmap_cons, fmap_nil. reflexivity.
  - rewrite decide_False; [done|]. by rewrite where_clause_run.
Qed.

Lemma selected_store run_id db ts run a l stats :
  selected run_id (store_haproxy_stats db ts run a l stats)
  = selected run_id db
    ++ (if decide (run = run_id)
        then written_record
               {| call_utcnow := ts; call_run_id := run; call_amphora_id := a;
                  call_lb_id := l; call_stats := stats |} <$> stats
        else []).
Proof.
  unfold Storage.store_haproxy_stats. revert db.
  induction stats as [|stat stats IH]; intros db.
  - cbn [foldl]. destruct (decide _); by rewrite app_nil_r.
  - cbn [foldl]. rewrite IH, selected_insert_row.
    destruct (decide (run = run_id)); [|by rewrite !app_nil_r].
    rewrite <- app_assoc. f_equal.
Qed.

Lemma selected_apply_calls run_id db calls :
  selected run_id (apply_calls db calls)
  = selected run_id db ++ written_for run_id calls.
Proof.
  unfold Storage.apply_calls, Storage.written_for. revert db.
  induction calls as [|c calls IH]; intros db.
  - cbn [foldl]. by rewrite app_nil_r.
  - cbn [foldl]. rewrite IH. unfold Storage.apply_call.
    rewrite selected_store.
    rewrite <- app_assoc. f_equal. rewrite filter_cons.
    destruct (decide (call_run_id c = run_id)); [|done].
    rewrite bind_cons. by destruct c.
Qed.

Lemma well_formed_insert_row run ts a l db stat :
  well_formed db → well_formed (insert_row run ts a l db stat).
Proof.
  intros [Hnd Hle]. unfold well_formed, Storage.insert_row.
  cbn [haproxy_stats haproxy_seq]. split.
  - rewrite fmap_app. apply NoDup_app. split; [done|]. split.
    + intros x Hx. rewrite fmap_cons, fmap_nil. cbn [row_id].
      rewrite list_elem_of_singleton. intros ->.
      apply list_elem_of_fmap in Hx as (r & Hr & Hin).
      rewrite Forall_forall in Hle. specialize (Hle r Hin). lia.
    + rewrite fmap_cons, fmap_nil. apply NoDup_singleton.
  - apply Forall_app. split.
    + eapply Forall_impl; [exact Hle|]. cbn beta. intros r ?. lia.
    + repeat constructor. cbn [row_id]. lia.
Qed.

Lemma well_formed_store db ts run a l stats :
  well_formed db → well_formed (store_haproxy_stats db ts run a l stats).
Proof.
  unfold Storage.store_haproxy_stats. revert db.
  induction stats as [|stat stats IH]; intros db Hwf; cbn [foldl]; [done|].
  by apply IH, well_formed_insert_row.
Qed.

Lemma well_formed_apply_calls db calls :
  well_formed db → well_formed (apply_calls db calls).
Proof.
  unfold Storage.apply_calls. revert db.
  induction calls as [|c calls IH]; intros db Hwf; cbn [foldl]; [done|].
  by apply IH, well_formed_store.
Qed.

Lemma well_formed_empty : well_formed empty_database.
Proof. split; constructor. Qed.

Lemma get_haproxy_stats_selected db run_id :
  delete "id" <$> get_haproxy_stats db run_id None None ≡ₚ selected run_id db.
Proof.
  unfold get_haproxy_stats, selected. rewrite <- list_fmap_compose.
  rewrite stable_sort_Permutation. reflexivity.
Qed.

Lemma selected_none run_id db :
  Forall (λ r, row_run_id r ≠ run_id) (haproxy_stats db) → selected run_id db = [].
Proof.
  unfold selected. induction 1 as [|r rows Hr _ IH]; [done|].
  rewrite filter_cons, decide_False; [done|]. by rewrite where_clause_run.
Qed.

Lemma timestamp_of_dict_of_row r : timestamp_of (dict_of_row r) = row_timestamp r.
Proof.
  unfold timestamp_of, dict_of_row.
  by rewrite !lookup_insert_ne, lookup_insert_eq by done.
Qed.

Lemma id_of_dict_of_row r : dict_of_row r !! "id" = Some (PInt (row_id r)).
Proof. unfold dict_of_row. by rewrite lookup_insert_eq. Qed.

Lemma ids_of_dicts (rows : list haproxy_row) :
  (λ d : dict, d !! "id") <$> (dict_of_row <$> rows)
  = (λ i, Some (PInt i)) <$> (row_id <$> rows).
Proof.
  induction rows as [|r rows IH]; [done|].
  rewrite !fmap_cons, IH. by rewrite id_of_dict_of_row.
Qed.

Lemma run_id_of_dict_of_row r :
  dict_of_row r !! "run_id" = Some (PInt (row_run_id r)).
Proof.
  unfold dict_of_row. by rewrite lookup_insert_ne, lookup_insert_eq by done.
Qed.

Lemma timestamp_le_total a b : timestamp_le a b = true ∨ timestamp_le b a = true.
Proof. apply String.leb_total. Qed.

Lemma timestamp_le_trans a b c :
  timestamp_le a b = true → timestamp_le b c = true → timestamp_le a c = true.
Proof.
  unfold timestamp_le. rewrite <- !Is_true_true.
  apply (transitivity (R:=String.le)).
Qed.

Lemma length_written_for run_id calls :
  length (written_for run_id calls)
  = sum_list (length ∘ call_stats
                <$> filter (λ c, call_run_id c = run_id) calls).
Proof.
  unfold Storage.written_for.
  induction (filter (λ c, call_run_id c = run_id) calls) as [|c cs IH]; [done|].
  rewrite bind_cons, length_app, length_fmap, fmap_cons. simpl. by rewrite IH.
Qed.

(** C3.  Starting from a table with distinct ids that holds no row of
    the run, after any sequence of [store_haproxy_stats] calls (for this
    run and for others), [get_haproxy_stats] without time bounds returns
    exactly the records written for the run: as many as were written (the
    sum of the batch sizes), each written record once and nothing else
    (up to the id the table assigns), in ascending order of timestamp,
    with pairwise distinct ids, all of this run. *)
Theorem write_then_read_all (db : database) (calls : list store_call)
    (run_id : Z) :
  well_formed db →
  Forall (λ r, row_run_id r ≠ run_id) (haproxy_stats db) →
  length (get_haproxy_stats (apply_calls db calls) run_id None None)
  = sum_list (length ∘ call_stats
                <$> filter (λ c, call_run_id c = run_id) calls)
  ∧ delete "id" <$> get_haproxy_stats (apply_calls db calls) run_id None None
    ≡ₚ written_for run_id calls
  ∧ StronglySorted
      (λ a b, String.leb (timestamp_of a) (timestamp_of b) = true)
      (get_haproxy_stats (apply_calls db calls) run_id None None)
  ∧ NoDup ((λ d : dict, d !! "id")
             <$> get_haproxy_stats (apply_calls db calls) run_id None None)
  ∧ Forall (λ d : dict, d !! "run_id" = Some (PInt run_id))
           (get_haproxy_stats (apply_calls db calls) run_id None None).
Proof.
  intros Hwf Hnone.
  assert (delete "id"
            <$> get_haproxy_stats (apply_calls db calls) run_id None None
          ≡ₚ written_for run_id calls) as Hperm.
  { rewrite get_haproxy_stats_selected.
    by rewrite selected_apply_calls, (selected_none _ _ Hnone). }
  split; [|split; [done|split; [|split]]].
  - rewrite <- length_written_for, <- Hperm. by rewrite length_fmap.
  - unfold get_haproxy_stats.
    apply (StronglySorted_fmap _ (λ a b, timestamp_le a b = true)).
    { intros a b Hab. by rewrite !timestamp_of_dict_of_row. }
    apply Sorted_StronglySorted.
    { intros a b c. apply timestamp_le_trans. }
    apply Sorted_stable_sort, timestamp_le_total.
  - unfold get_haproxy_stats. rewrite ids_of_dicts.
    apply NoDup_fmap_2; [intros i j [= ->]; done|].
    rewrite stable_sort_Permutation.
    eapply sublist_NoDup;
      [apply (well_formed_apply_calls _ calls Hwf)|].
    apply fmap_sublist, sublist_filter.
  - unfold get_haproxy_stats. apply Forall_fmap.
    rewrite stable_sort_Permutation. apply Forall_forall.
    intros r Hr. apply list_elem_of_filter in Hr as [Hr _].
    apply where_clause_run in Hr. simpl. by rewrite run_id_of_dict_of_row, Hr.
Qed.
End StorageRoundTrip.

Lemma write_then_read_all_witness :
  length (Storage.get_haproxy_stats
            (Storage.apply_calls Py.int_of_digits (λ _, "{}")
               Storage.empty_database Storage.example_calls)
            1 None None) = 3%nat
  ∧ NoDup ((λ d : Py.dict, d !! "id")
             <$> Storage.get_haproxy_stats
                   (Storage.apply_calls Py.int_of_digits (λ _, "{}")
                      Storage.empty_database Storage.example_calls)
                   1 None None).
Proof.
  destruct (write_then_read_all Py.int_of_digits (λ _, "{}")
              Storage.empty_database Storage.example_calls 1)
    as (H1 & _ & _ & H4 & _).
  - apply well_formed_empty.
  - constructor.
  - split; [exact H1|exact H4].
Defined.

(** ** The threshold rules of the HAProxy pass *)

Section HaproxyRules.
Import Py Detector.

Lemma gt_num_threshold a x (n : Z) :
  as_num a = Some x → gt a (PInt n) = Some (Qc_ltb (of_Z n) x).
Proof. intros Ha. by apply gt_num. Qed.

Lemma Qc_ltb_true x y : (x < y)%Qc → Qc_ltb x y = true.
Proof. intros H. unfold Qc_ltb. by rewrite bool_decide_eq_true_2. Qed.

Lemma Qc_ltb_false x y : (y ≤ x)%Qc → Qc_ltb x y = false.
Proof.
  intros H. unfold Qc_ltb. rewrite bool_decide_eq_false_2; [done|].
  by apply Qcle_not_lt.
Qed.

Lemma num_ge_true x n : (of_Z n ≤ x)%Qc → num_ge x n = true.
Proof. intros H. unfold num_ge, Qc_leb. by rewrite bool_decide_eq_true_2. Qed.

Lemma num_ge_false x n : (x < of_Z n)%Qc → num_ge x n = false.
Proof.
  intros H. unfold num_ge, Qc_leb. rewrite bool_decide_eq_false_2; [done|].
  by apply Qclt_not_le.
Qed.

Lemma num_lt_true x n : (x < of_Z n)%Qc → num_lt x n = true.
Proof. apply Qc_ltb_true. Qed.

Lemma num_lt_false x n : (of_Z n ≤ x)%Qc → num_lt x n = false.
Proof. apply Qc_ltb_false. Qed.

Lemma of_Z_lt (m n : Z) : m < n → (of_Z m < of_Z n)%Qc.
Proof. apply Z2Qc_inj_lt. Qed.

Lemma pos_nonzero (y : Qc) : (of_Z 0 < y)%Qc → y ≠ 0%Qc.
Proof.
  unfold of_Z. rewrite Z2Qc_inj_0. intros H ->. by apply Qclt_not_eq in H.
Qed.

(** The connection block does not raise on numbers. *)
Lemma connection_limit_analysis_result latest x y :
  as_num (or (get latest "scur" (PInt 0)) (PInt 0)) = Some x →
  as_num (or (get latest "slim" (PInt 0)) (PInt 0)) = Some y →
  result (connection_limit_analysis latest) = Some tt.
Proof.
  intros Hx Hy. unfold result, connection_limit_analysis, bind, lift, append, ret.
  rewrite (gt_num_threshold _ y 0 Hy). cbv beta iota.
  destruct (Qc_ltb (of_Z 0) y) eqn:Hpos; [|done].
  rewrite (truediv_num _ _ x y Hx Hy).
  2:{ apply pos_nonzero. unfold Qc_ltb in Hpos. by apply bool_decide_eq_true in Hpos. }
  cbv beta iota. by repeat destruct (num_ge _ _).
Qed.

(** The queue block on a numeric [qcur]. *)
Lemma queue_analysis_numeric latest q :
  as_num (or (get latest "qcur" (PInt 0)) (PInt 0)) = Some q →
  result (queue_analysis latest) = Some tt
  ∧ (q ≤ of_Z 10 → findings (queue_analysis latest) = [])%Qc
  ∧ (of_Z 10 < q → q ≤ of_Z 50 →
     ∃ b, findings (queue_analysis latest) = [b]
          ∧ type b = BACKEND ∧ severity b = MEDIUM
          ∧ affected_component b = "backend_servers"
          ∧ evidence b !! "queue_current"
            = Some (EvVal (or (get latest "qcur" (PInt 0)) (PInt 0))))%Qc
  ∧ (of_Z 50 < q →
     ∃ b, findings (queue_analysis latest) = [b]
          ∧ type b = BACKEND ∧ severity b = HIGH
          ∧ affected_component b = "backend_servers"
          ∧ evidence b !! "queue_current"
            = Some (EvVal (or (get latest "qcur" (PInt 0)) (PInt 0))))%Qc.
Proof.
  intros Hq. unfold result, findings, queue_analysis, bind, lift, append, ret,
    QUEUE_WARNING_THRESHOLD.
  rewrite (gt_num_threshold _ q 10 Hq), (gt_num_threshold _ q 50 Hq).
  cbv beta iota. split; [by repeat destruct (Qc_ltb _ _)|]. repeat split.
  - intros Hle. by rewrite Qc_ltb_false.
  - intros Hlo Hhi. rewrite (Qc_ltb_true _ _ Hlo), (Qc_ltb_false _ _ Hhi).
    eexists. simpl. repeat split; reflexivity.
  - intros Hhi. rewrite (Qc_ltb_true (of_Z 50) _ Hhi).
    rewrite Qc_ltb_true.
    2:{ eapply Qclt_trans; [|exact Hhi]. by apply of_Z_lt. }
    eexists. simpl. repeat split; reflexivity.
Qed.

(** The error-rate block on numeric [stot] and [ereq]. *)
Lemma error_rate_analysis_numeric latest t e :
  as_num (or (get latest "stot" (PInt 0)) (PInt 0)) = Some t →
  as_num (or (get latest "ereq" (PInt 0)) (PInt 0)) = Some e →
  result (error_rate_analysis latest) = Some tt
  ∧ (t ≤ of_Z 0 → findings (error_rate_analysis latest) = [])%Qc
  ∧ (of_Z 0 < t → e / t * of_Z 100 < of_Z 1 →
     findings (error_rate_analysis latest) = [])%Qc
  ∧ (of_Z 0 < t → of_Z 1 ≤ e / t * of_Z 100 → e / t * of_Z 100 < of_Z 5 →
     ∃ b, findings (error_rate_analysis latest) = [b]
          ∧ type b = CONFIGURATION ∧ severity b = MEDIUM
          ∧ affected_component b = "amphora/haproxy"
          ∧ evidence b !! "error_rate_percent"
            = Some (EvVal (PFloat (e / t * of_Z 100))))%Qc
  ∧ (of_Z 0 < t → of_Z 5 ≤ e / t * of_Z 100 →
     ∃ b, findings (error_rate_analysis latest) = [b]
          ∧ type b = CONFIGURATION ∧ severity b = HIGH
          ∧ affected_component b = "amphora/haproxy"
          ∧ evidence b !! "error_rate_percent"
            = Some (EvVal (PFloat (e / t * of_Z 100))))%Qc.
Proof.
  intros Ht He. unfold result, findings, error_rate_analysis, bind, lift, append,
    ret, ERROR_RATE_HIGH, ERROR_RATE_WARNING.
  rewrite (gt_num_threshold _ t 0 Ht). cbv beta iota.
  split.
  { destruct (Qc_ltb (of_Z 0) t) eqn:Hpos; [|done].
    rewrite (truediv_num _ _ e t He Ht).
    2:{ apply pos_nonzero. unfold Qc_ltb in Hpos.
        by apply bool_decide_eq_true in Hpos. }
    cbv beta iota. by repeat destruct (num_ge _ _). }
  repeat split.
  - intros Hle. by rewrite Qc_ltb_false.
  - intros Hpos Hlt. rewrite (Qc_ltb_true _ _ Hpos).
    rewrite (truediv_num _ _ e t He Ht (pos_nonzero _ Hpos)). cbv beta iota.
    rewrite (num_ge_false _ 1 Hlt), num_ge_false; [done|].
    eapply Qclt_trans; [exact Hlt|]. by apply of_Z_lt.
  - intros Hpos Hlo Hhi. rewrite (Qc_ltb_true _ _ Hpos).
    rewrite (truediv_num _ _ e t He Ht (pos_nonzero _ Hpos)). cbv beta iota.
    rewrite (num_ge_false _ 5 Hhi), (num_ge_true _ 1 Hlo).
    eexists. simpl. repeat split; reflexivity.
  - intros Hpos Hhi. rewrite (Qc_ltb_true _ _ Hpos).
    rewrite (truediv_num _ _ e t He Ht (pos_nonzero _ Hpos)). cbv beta iota.
    rewrite (num_ge_true _ 5 Hhi).
    eexists. simpl. repeat split; reflexivity.
Qed.
End HaproxyRules.

Section HaproxyRuleFindings.
Import Py Detector.

Lemma of_rule_queue_haproxy stats latest :
  last stats = Some latest →
  of_rule QueueDepth (findings (_analyze_haproxy stats))
  = match result (connection_limit_analysis latest) with
    | Some _ => findings (queue_analysis latest)
    | None => []
    end.
Proof.
  intros Hl. rewrite (findings_analyze_haproxy _ _ Hl), of_rule_app.
  rewrite (of_rule_other QueueDepth ConnectionSaturation _ ltac:(done)
             (connection_limit_analysis_rule latest)).
  destruct (result (connection_limit_analysis latest)); [|done].
  rewrite of_rule_app, (of_rule_all _ _ (queue_analysis_rule latest)).
  rewrite <- (app_nil_r (findings (queue_analysis latest))) at 2.
  simpl. f_equal. destruct (result (queue_analysis latest)); [|done].
  rewrite of_rule_app.
  rewrite (of_rule_other QueueDepth ErrorRate _ ltac:(done)
             (error_rate_analysis_rule latest)).
  destruct (result (error_rate_analysis latest)); [|done].
  apply (of_rule_other QueueDepth ConnectionGrowth _ ltac:(done)
           (connection_trend_analysis_rule stats)).
Qed.

Lemma of_rule_error_haproxy stats latest :
  last stats = Some latest →
  of_rule ErrorRate (findings (_analyze_haproxy stats))
  = match result (connection_limit_analysis latest) ≫= λ _,
          result (queue_analysis latest) with
    | Some _ => findings (error_rate_analysis latest)
    | None => []
    end.
Proof.
  intros Hl. rewrite (findings_analyze_haproxy _ _ Hl), of_rule_app.
  rewrite (of_rule_other ErrorRate ConnectionSaturation _ ltac:(done)
             (connection_limit_analysis_rule latest)).
  destruct (result (connection_limit_analysis latest)); [|done].
  rewrite of_rule_app.
  rewrite (of_rule_other ErrorRate QueueDepth _ ltac:(done)
             (queue_analysis_rule latest)).
  destruct (result (queue_analysis latest)); [|done].
  rewrite of_rule_app, (of_rule_all _ _ (error_rate_analysis_rule latest)).
  simpl. rewrite <- (app_nil_r (findings (error_rate_analysis latest))) at 2.
  f_equal. destruct (result (error_rate_analysis latest)); [|done].
  apply (of_rule_other ErrorRate ConnectionGrowth _ ltac:(done)
           (connection_trend_analysis_rule stats)).
Qed.

(** X1.  The queue rule of the HAProxy pass, on a latest sample whose
    [scur], [slim] and [qcur] are numbers (missing, None and 0 read as
    0): more than 50 queued requests give exactly one queue finding,
    HIGH, of type BACKEND on [backend_servers]; more than 10 and at most
    50 give exactly one, MEDIUM; 10 or fewer give none. *)
Theorem queue_depth_findings (stats : list dict) (latest : dict) (x y q : Qc) :
  last stats = Some latest →
  as_num (or (get latest "scur" (PInt 0)) (PInt 0)) = Some x →
  as_num (or (get latest "slim" (PInt 0)) (PInt 0)) = Some y →
  as_num (or (get latest "qcur" (PInt 0)) (PInt 0)) = Some q →
  (of_Z 50 < q →
   ∃ b, of_rule QueueDepth (findings (_analyze_haproxy stats)) = [b]
        ∧ type b = BACKEND ∧ severity b = HIGH
        ∧ affected_component b = "backend_servers"
        ∧ evidence b !! "queue_current"
          = Some (EvVal (or (get latest "qcur" (PInt 0)) (PInt 0))))%Qc
  ∧ (of_Z 10 < q → q ≤ of_Z 50 →
     ∃ b, of_rule QueueDepth (findings (_analyze_haproxy stats)) = [b]
          ∧ type b = BACKEND ∧ severity b = MEDIUM
          ∧ affected_component b = "backend_servers"
          ∧ evidence b !! "queue_current"
            = Some (EvVal (or (get latest "qcur" (PInt 0)) (PInt 0))))%Qc
  ∧ (q ≤ of_Z 10 →
     of_rule QueueDepth (findings (_analyze_haproxy stats)) = [])%Qc.
Proof.
  intros Hl Hx Hy Hq. rewrite (of_rule_queue_haproxy _ _ Hl).
  rewrite (connection_limit_analysis_result _ _ _ Hx Hy).
  destruct (queue_analysis_numeric latest q Hq) as (_ & Hnone & Hmed & Hhigh).
  done.
Qed.

(** X2.  The error-rate rule of the HAProxy pass, on a latest sample
    whose [scur], [slim], [qcur], [stot] and [ereq] are numbers, with
    rate = ereq / stot * 100: for stot > 0, a rate of 5 or more gives
    exactly one error-rate finding, HIGH, of type CONFIGURATION; a rate
    from 1 up to 5 gives exactly one, MEDIUM; a rate below 1 gives none;
    and stot <= 0 gives none. *)
Theorem error_rate_findings (stats : list dict) (latest : dict)
    (x y q t e : Qc) :
  last stats = Some latest →
  as_num (or (get latest "scur" (PInt 0)) (PInt 0)) = Some x →
  as_num (or (get latest "slim" (PInt 0)) (PInt 0)) = Some y →
  as_num (or (get latest "qcur" (PInt 0)) (PInt 0)) = Some q →
  as_num (or (get latest "stot" (PInt 0)) (PInt 0)) = Some t →
  as_num (or (get latest "ereq" (PInt 0)) (PInt 0)) = Some e →
  (of_Z 0 < t → of_Z 5 ≤ e / t * of_Z 100 →
   ∃ b, of_rule ErrorRate (findings (_analyze_haproxy stats)) = [b]
        ∧ type b = CONFIGURATION ∧ severity b = HIGH
        ∧ affected_component b = "amphora/haproxy"
        ∧ evidence b !! "error_rate_percent"
          = Some (EvVal (PFloat (e / t * of_Z 100))))%Qc
  ∧ (of_Z 0 < t → of_Z 1 ≤ e / t * of_Z 100 → e / t * of_Z 100 < of_Z 5 →
     ∃ b, of_rule ErrorRate (findings (_analyze_haproxy stats)) = [b]
          ∧ type b = CONFIGURATION ∧ severity b = MEDIUM
          ∧ affected_component b = "amphora/haproxy"
          ∧ evidence b !! "error_rate_percent"
            = Some (EvVal (PFloat (e / t * of_Z 100))))%Qc
  ∧ (of_Z 0 < t → e / t * of_Z 100 < of_Z 1 →
     of_rule ErrorRate (findings (_analyze_haproxy stats)) = [])%Qc
  ∧ (t ≤ of_Z 0 →
     of_rule ErrorRate (findings (_analyze_haproxy stats)) = [])%Qc.
Proof.
  intros Hl Hx Hy Hq Ht He. rewrite (of_rule_error_haproxy _ _ Hl).
  rewrite (connection_limit_analysis_result _ _ _ Hx Hy). simpl.
  destruct (queue_analysis_numeric latest q Hq) as (-> & _).
  destruct (error_rate_analysis_numeric latest t e Ht He)
    as (_ & Hnone & Hlow & Hmed & Hhigh).
  done.
Qed.
End HaproxyRuleFindings.

Lemma queue_depth_findings_witness :
  ∃ b,
    Detector.of_rule Detector.QueueDepth
      (Detector.findings
         (Detector._analyze_haproxy
            [list_to_map [("scur", Py.PInt 10); ("slim", Py.PInt 1000);
                          ("qcur", Py.PInt 60)]])) = [b]
    ∧ Detector.type b = Detector.BACKEND
    ∧ Detector.severity b = Detector.HIGH
    ∧ Detector.affected_component b = "backend_servers"
    ∧ Detector.evidence b !! "queue_current"
      = Some (Detector.EvVal
                (Py.or (Py.get (list_to_map [("scur", Py.PInt 10);
                                             ("slim", Py.PInt 1000);
                                             ("qcur", Py.PInt 60)])
                          "qcur" (Py.PInt 0)) (Py.PInt 0))).
Proof.
  destruct (queue_depth_findings
              [list_to_map [("scur", Py.PInt 10); ("slim", Py.PInt 1000);
                            ("qcur", Py.PInt 60)]]
              (list_to_map [("scur", Py.PInt 10); ("slim", Py.PInt 1000);
                            ("qcur", Py.PInt 60)])
              (Py.of_Z 10) (Py.of_Z 1000) (Py.of_Z 60))
    as (H & _); try reflexivity.
  apply H. reflexivity.
Defined.

Lemma error_rate_findings_witness :
  ∃ b,
    Detector.of_rule Detector.ErrorRate
      (Detector.findings
         (Detector._analyze_haproxy
            [list_to_map [("scur", Py.PInt 10); ("slim", Py.PInt 1000);
                          ("stot", Py.PInt 200); ("ereq", Py.PInt 4)]])) = [b]
    ∧ Detector.type b = Detector.CONFIGURATION
    ∧ Detector.severity b = Detector.MEDIUM
    ∧ Detector.affected_component b = "amphora/haproxy"
    ∧ Detector.evidence b !! "error_rate_percent"
      = Some (Detector.EvVal
                (Py.PFloat (Py.of_Z 4 / Py.of_Z 200 * Py.of_Z 100)%Qc)).
Proof.
  destruct (error_rate_findings
              [list_to_map [("scur", Py.PInt 10); ("slim", Py.PInt 1000);
                            ("stot", Py.PInt 200); ("ereq", Py.PInt 4)]]
              (list_to_map [("scur", Py.PInt 10); ("slim", Py.PInt 1000);
                            ("stot", Py.PInt 200); ("ereq", Py.PInt 4)])
              (Py.of_Z 10) (Py.of_Z 1000) (Py.of_Z 0) (Py.of_Z 200) (Py.of_Z 4))
    as (_ & H & _); try reflexivity.
  apply H; [reflexivity|by vm_compute|by vm_compute].
Defined.

(** ** The rules of the system-metrics and Locust passes *)

Section HostRules.
Import Py Detector.

Lemma cpu_analysis_numeric_findings latest host_type x y :
  as_num (or (get latest "load_1" (PInt 0)) (PInt 0)) = Some x →
  as_num (or (get latest "cpu_count" (PInt 1)) (PInt 1)) = Some y →
  (x / y * of_Z 100 < of_Z 80 → findings (cpu_analysis latest host_type) = [])%Qc
  ∧ (of_Z 80 ≤ x / y * of_Z 100 → x / y * of_Z 100 < of_Z 95 →
     ∃ b, findings (cpu_analysis latest host_type) = [b]
          ∧ type b = CPU ∧ severity b = HIGH ∧ affected_component b = host_type
          ∧ evidence b !! "saturation_percent"
            = Some (EvVal (PFloat (x / y * of_Z 100))))%Qc
  ∧ (of_Z 95 ≤ x / y * of_Z 100 →
     ∃ b, findings (cpu_analysis latest host_type) = [b]
          ∧ type b = CPU ∧ severity b = CRITICAL
          ∧ affected_component b = host_type
          ∧ evidence b !! "saturation_percent"
            = Some (EvVal (PFloat (x / y * of_Z 100))))%Qc.
Proof.
  intros Hx Hy. unfold findings, cpu_analysis, bind, lift, append, ret,
    CPU_CRITICAL_THRESHOLD, CPU_HIGH_THRESHOLD.
  rewrite (truediv_num _ _ x y Hx Hy (as_num_or_one_nonzero _ _ Hy)).
  cbv beta iota. repeat split.
  - intros Hlt. rewrite (num_ge_false _ 80 Hlt), num_ge_false; [done|].
    eapply Qclt_trans; [exact Hlt|]. by apply of_Z_lt.
  - intros Hlo Hhi. rewrite (num_ge_false _ 95 Hhi), (num_ge_true _ 80 Hlo).
    eexists. simpl. repeat split; reflexivity.
  - intros Hhi. rewrite (num_ge_true _ 95 Hhi).
    eexists. simpl. repeat split; reflexivity.
Qed.

Lemma floordiv_num v x n : as_num v = Some x → is_Some (floordiv v n).
Proof. destruct v; simpl; intros ?; by simplify_eq. Qed.

Lemma memory_analysis_numeric latest host_type f t :
  as_num (or (get latest "mem_free" (PInt 0)) (PInt 0)) = Some f →
  as_num (or (get latest "mem_total" (PInt 1)) (PInt 1)) = Some t →
  result (memory_analysis latest host_type) = Some tt
  ∧ (of_Z 10 ≤ f / t * of_Z 100 →
     findings (memory_analysis latest host_type) = [])%Qc
  ∧ (of_Z 5 ≤ f / t * of_Z 100 → f / t * of_Z 100 < of_Z 10 →
     ∃ b, findings (memory_analysis latest host_type) = [b]
          ∧ type b = MEMORY ∧ severity b = HIGH
          ∧ affected_component b = host_type
          ∧ evidence b !! "free_percent"
            = Some (EvVal (PFloat (f / t * of_Z 100))))%Qc
  ∧ (f / t * of_Z 100 < of_Z 5 →
     ∃ b, findings (memory_analysis latest host_type) = [b]
          ∧ type b = MEMORY ∧ severity b = CRITICAL
          ∧ affected_component b = host_type
          ∧ evidence b !! "free_percent"
            = Some (EvVal (PFloat (f / t * of_Z 100))))%Qc.
Proof.
  intros Hf Ht.
  destruct (floordiv_num _ _ 1024 Hf) as [free_mb Hfm].
  destruct (floordiv_num _ _ 1024 Ht) as [total_mb Htm].
  unfold result, findings, memory_analysis, bind, lift, append, ret,
    MEMORY_CRITICAL_THRESHOLD, MEMORY_LOW_THRESHOLD.
  rewrite (truediv_num _ _ f t Hf Ht (as_num_or_one_nonzero _ _ Ht)).
  rewrite Hfm, Htm. cbv beta iota.
  split; [by repeat destruct (num_lt _ _)|]. repeat split.
  - intros Hge. rewrite (num_lt_false _ 10 Hge), num_lt_false; [done|].
    eapply Qcle_trans; [|exact Hge]. apply (proj1 (Z2Qc_inj_le 5 10)). lia.
  - intros Hlo Hhi. rewrite (num_lt_false _ 5 Hlo), (num_lt_true _ 10 Hhi).
    eexists. simpl. repeat split; reflexivity.
  - intros Hlt. rewrite (num_lt_true _ 5 Hlt).
    eexists. simpl. repeat split; reflexivity.
Qed.

Lemma of_rule_cpu_host metrics host_type latest :
  last metrics = Some latest →
  of_rule CpuSaturation (findings (_analyze_host_metrics metrics host_type))
  = findings (cpu_analysis latest host_type).
Proof.
  intros Hl. unfold _analyze_host_metrics. rewrite Hl.
  rewrite findings_bind;
    [|apply appends_cpu_analysis|intros _; apply appends_memory_analysis].
  rewrite of_rule_app, (of_rule_all _ _ (cpu_analysis_rule latest host_type)).
  rewrite <- (app_nil_r (findings (cpu_analysis latest host_type))) at 2.
  f_equal. destruct (result (cpu_analysis latest host_type)); [|done].
  apply (of_rule_other CpuSaturation MemoryPressure _ ltac:(done)
           (memory_analysis_rule latest host_type)).
Qed.

Lemma of_rule_memory_host metrics host_type latest :
  last metrics = Some latest →
  of_rule MemoryPressure (findings (_analyze_host_metrics metrics host_type))
  = match result (cpu_analysis latest host_type) with
    | Some _ => findings (memory_analysis latest host_type)
    | None => []
    end.
Proof.
  intros Hl. unfold _analyze_host_metrics. rewrite Hl.
  rewrite findings_bind;
    [|apply appends_cpu_analysis|intros _; apply appends_memory_analysis].
  rewrite of_rule_app.
  rewrite (of_rule_other MemoryPressure CpuSaturation _ ltac:(done)
             (cpu_analysis_rule latest host_type)).
  destruct (result (cpu_analysis latest host_type)); [|done].
  apply of_rule_all, memory_analysis_rule.
Qed.

Lemma rounding_margin_pos : (0 < Findings.rounding_margin)%Qc.
Proof. by vm_compute. Qed.

Lemma above_margin (t x : Qc) :
  (t + Findings.rounding_margin ≤ x → t ≤ x)%Qc.
Proof.
  intros H. eapply Qcle_trans; [|exact H].
  apply Qcle_minus_iff.
  replace (t + Findings.rounding_margin + - t)%Qc
    with Findings.rounding_margin by ring.
  apply Qclt_le_weak, rounding_margin_pos.
Qed.

Lemma below_margin (t x : Qc) :
  (x ≤ t - Findings.rounding_margin → x < t)%Qc.
Proof.
  intros H. eapply Qcle_lt_trans; [exact H|].
  apply Qclt_minus_iff.
  replace (t + - (t - Findings.rounding_margin))%Qc
    with Findings.rounding_margin by ring.
  apply rounding_margin_pos.
Qed.

(** For integers the saturation is compared without division. *)
Lemma percent_ints (t a c : Z) :
  0 < c →
  (of_Z t ≤ of_Z a / of_Z c * of_Z 100)%Qc ↔ t * c ≤ 100 * a.
Proof.
  intros Hc.
  assert (0 < of_Z c)%Qc as Hpos.
  { unfold of_Z. rewrite <- Z2Qc_inj_0. by apply (proj1 (Z2Qc_inj_lt 0 c)). }
  assert (of_Z a / of_Z c * of_Z 100 * of_Z c = of_Z (100 * a))%Qc as Hq.
  { unfold of_Z. rewrite Z2Qc_inj_mul. field.
    intros H0. unfold of_Z in Hpos. rewrite H0 in Hpos.
    by apply Qclt_not_eq in Hpos. }
  assert (of_Z t * of_Z c = of_Z (t * c))%Qc as Ht.
  { unfold of_Z. by rewrite Z2Qc_inj_mul. }
  split.
  - intros H. apply (Qcmult_le_compat_r _ _ (of_Z c)) in H;
      [|by apply Qclt_le_weak].
    rewrite Hq, Ht in H. unfold of_Z in H. by apply Z2Qc_inj_le in H.
  - intros H. apply (Qcmult_lt_0_le_reg_r _ _ (of_Z c) Hpos).
    rewrite Hq, Ht. unfold of_Z. by apply (proj1 (Z2Qc_inj_le _ _)).
Qed.

(** X3.  The CPU rule of [_analyze_host_metrics], on a latest sample
    with numeric load [x] and CPU count [y] (a missing, None or zero CPU
    count is read as 1, a missing load as 0), with saturation = x / y *
    100.  The load is a float, and the source rounds the quotient and
    the product; so for any numbers the statement is made at a distance
    of 10^-9 from the thresholds, which rounding cannot bridge: a
    saturation of 95 + 10^-9 or more gives exactly one CPU finding,
    CRITICAL, for the host type; from 80 + 10^-9 up to 95 - 10^-9
    exactly one, HIGH; up to 80 - 10^-9 none.  For an integer load [a],
    0 <= a <= 10^12, on [c] CPUs, 1 <= c <= 10^6, the thresholds are
    exact: CRITICAL when 100 a >= 95 c, HIGH when 80 c <= 100 a < 95 c,
    none below. *)
Theorem cpu_saturation_findings (metrics : list dict) (host_type : string)
    (latest : dict) (x y : Qc) :
  last metrics = Some latest →
  as_num (or (get latest "load_1" (PInt 0)) (PInt 0)) = Some x →
  as_num (or (get latest "cpu_count" (PInt 1)) (PInt 1)) = Some y →
  y ≠ 0%Qc
  ∧ (latest !! "cpu_count" = None ∨ latest !! "cpu_count" = Some PNone
     ∨ latest !! "cpu_count" = Some (PInt 0) → y = of_Z 1)
  ∧ (of_Z 95 + Findings.rounding_margin ≤ x / y * of_Z 100 →
     ∃ b, of_rule CpuSaturation
            (findings (_analyze_host_metrics metrics host_type)) = [b]
          ∧ type b = CPU ∧ severity b = CRITICAL
          ∧ affected_component b = host_type
          ∧ evidence b !! "saturation_percent"
            = Some (EvVal (PFloat (x / y * of_Z 100))))%Qc
  ∧ (of_Z 80 + Findings.rounding_margin ≤ x / y * of_Z 100 →
     x / y * of_Z 100 ≤ of_Z 95 - Findings.rounding_margin →
     ∃ b, of_rule CpuSaturation
            (findings (_analyze_host_metrics metrics host_type)) = [b]
          ∧ type b = CPU ∧ severity b = HIGH
          ∧ affected_component b = host_type
          ∧ evidence b !! "saturation_percent"
            = Some (EvVal (PFloat (x / y * of_Z 100))))%Qc
  ∧ (x / y * of_Z 100 ≤ of_Z 80 - Findings.rounding_margin →
     of_rule CpuSaturation
       (findings (_analyze_host_metrics metrics host_type)) = [])%Qc
  ∧ (∀ a c : Z,
       or (get latest "load_1" (PInt 0)) (PInt 0) = PInt a →
       or (get latest "cpu_count" (PInt 1)) (PInt 1) = PInt c →
       0 ≤ a ≤ 1000000000000 → 0 < c ≤ 1000000 →
       (95 * c ≤ 100 * a →
        ∃ b, of_rule CpuSaturation
               (findings (_analyze_host_metrics metrics host_type)) = [b]
             ∧ type b = CPU ∧ severity b = CRITICAL
             ∧ affected_component b = host_type)
       ∧ (80 * c ≤ 100 * a → 100 * a < 95 * c →
          ∃ b, of_rule CpuSaturation
                 (findings (_analyze_host_metrics metrics host_type)) = [b]
               ∧ type b = CPU ∧ severity b = HIGH
               ∧ affected_component b = host_type)
       ∧ (100 * a < 80 * c →
          of_rule CpuSaturation
            (findings (_analyze_host_metrics metrics host_type)) = [])).
Proof.
  intros Hl Hx Hy. rewrite (of_rule_cpu_host _ _ _ Hl).
  destruct (cpu_analysis_numeric_findings latest host_type x y Hx Hy)
    as (Hnone & Hhigh & Hcrit).
  split; [by eapply as_num_or_one_nonzero|]. split.
  { intros Hc. revert Hy. unfold or, get.
    destruct Hc as [->|[->| ->]]; simpl; by intros [= <-]. }
  split; [intros H; by apply Hcrit, above_margin|].
  split; [intros H1 H2; apply Hhigh; [by apply above_margin|by apply below_margin]|].
  split; [intros H; by apply Hnone, below_margin|].
  intros a c Ha Hc _ [Hpos _]. rewrite Ha in Hx. rewrite Hc in Hy.
  injection Hx as <-. injection Hy as <-.
  split; [|split].
  - intros H. destruct Hcrit as (b & Hb & Ht & Hs & Hcomp & _).
    { by apply percent_ints. }
    by exists b.
  - intros H1 H2. destruct Hhigh as (b & Hb & Ht & Hs & Hcomp & _).
    { by apply percent_ints. }
    { apply Qcnot_le_lt. intros H. apply percent_ints in H; [lia|done]. }
    by exists b.
  - intros H. apply Hnone.
    apply Qcnot_le_lt. intros H'. apply percent_ints in H'; [lia|done].
Qed.

(** X4.  The memory rule of [_analyze_host_metrics], on a latest sample
    with numeric load, CPU count, free memory [f] and total memory [t]
    (a missing, None or zero total is read as 1), with free = f / t *
    100: below 5 gives exactly one memory finding, CRITICAL, for the host
    type; from 5 up to 10 exactly one, HIGH; 10 or more none. *)
Theorem memory_pressure_findings (metrics : list dict) (host_type : string)
    (latest : dict) (x y f t : Qc) :
  last metrics = Some latest →
  as_num (or (get latest "load_1" (PInt 0)) (PInt 0)) = Some x →
  as_num (or (get latest "cpu_count" (PInt 1)) (PInt 1)) = Some y →
  as_num (or (get latest "mem_free" (PInt 0)) (PInt 0)) = Some f →
  as_num (or (get latest "mem_total" (PInt 1)) (PInt 1)) = Some t →
  result (_analyze_host_metrics metrics host_type) = Some tt
  ∧ (f / t * of_Z 100 < of_Z 5 →
     ∃ b, of_rule MemoryPressure
            (findings (_analyze_host_metrics metrics host_type)) = [b]
          ∧ type b = MEMORY ∧ severity b = CRITICAL
          ∧ affected_component b = host_type
          ∧ evidence b !! "free_percent"
            = Some (EvVal (PFloat (f / t * of_Z 100))))%Qc
  ∧ (of_Z 5 ≤ f / t * of_Z 100 → f / t * of_Z 100 < of_Z 10 →
     ∃ b, of_rule MemoryPressure
            (findings (_analyze_host_metrics metrics host_type)) = [b]
          ∧ type b = MEMORY ∧ severity b = HIGH
          ∧ affected_component b = host_type
          ∧ evidence b !! "free_percent"
            = Some (EvVal (PFloat (f / t * of_Z 100))))%Qc
  ∧ (of_Z 10 ≤ f / t * of_Z 100 →
     of_rule MemoryPressure
       (findings (_analyze_host_metrics metrics host_type)) = [])%Qc.
Proof.
  intros Hl Hx Hy Hf Ht. rewrite (of_rule_memory_host _ _ _ Hl).
  pose proof (cpu_analysis_numeric latest host_type x y Hx Hy) as Hcpu.
  rewrite Hcpu.
  destruct (memory_analysis_numeric latest host_type f t Hf Ht)
    as (Hres & Hnone & Hhigh & Hcrit).
  split; [|done].
  unfold _analyze_host_metrics. rewrite Hl.
  rewrite result_bind;
    [|apply appends_cpu_analysis|intros _; apply appends_memory_analysis].
  by rewrite Hcpu.
Qed.
End HostRules.

Lemma cpu_saturation_findings_witness :
  ∃ b,
    Detector.of_rule Detector.CpuSaturation
      (Detector.findings
         (Detector._analyze_host_metrics
            [list_to_map [("host_type", Py.PStr "backend");
                          ("cpu_count", Py.PInt 4); ("load_1", Py.PInt 4)]]
            "backend")) = [b]
    ∧ Detector.type b = Detector.CPU
    ∧ Detector.severity b = Detector.CRITICAL
    ∧ Detector.affected_component b = "backend"
    ∧ Detector.evidence b !! "saturation_percent"
      = Some (Detector.EvVal
                (Py.PFloat (Py.of_Z 4 / Py.of_Z 4 * Py.of_Z 100)%Qc)).
Proof.
  destruct (cpu_saturation_findings
              [list_to_map [("host_type", Py.PStr "backend");
                            ("cpu_count", Py.PInt 4); ("load_1", Py.PInt 4)]]
              "backend"
              (list_to_map [("host_type", Py.PStr "backend");
                            ("cpu_count", Py.PInt 4); ("load_1", Py.PInt 4)])
              (Py.of_Z 4) (Py.of_Z 4))
    as (_ & _ & H & _); try reflexivity.
  apply H. by vm_compute.
Defined.

Lemma memory_pressure_findings_witness :
  ∃ b,
    Detector.of_rule Detector.MemoryPressure
      (Detector.findings
         (Detector._analyze_host_metrics
            [list_to_map [("host_type", Py.PStr "backend");
                          ("cpu_count", Py.PInt 4); ("load_1", Py.PInt 1);
                          ("mem_total", Py.PInt 8000);
                          ("mem_free", Py.PInt 600)]]
            "backend")) = [b]
    ∧ Detector.type b = Detector.MEMORY
    ∧ Detector.severity b = Detector.HIGH
    ∧ Detector.affected_component b = "backend"
    ∧ Detector.evidence b !! "free_percent"
      = Some (Detector.EvVal
                (Py.PFloat (Py.of_Z 600 / Py.of_Z 8000 * Py.of_Z 100)%Qc)).
Proof.
  destruct (memory_pressure_findings
              [list_to_map [("host_type", Py.PStr "backend");
                            ("cpu_count", Py.PInt 4); ("load_1", Py.PInt 1);
                            ("mem_total", Py.PInt 8000);
                            ("mem_free", Py.PInt 600)]]
              "backend"
              (list_to_map [("host_type", Py.PStr "backend");
                            ("cpu_count", Py.PInt 4); ("load_1", Py.PInt 1);
                            ("mem_total", Py.PInt 8000);
                            ("mem_free", Py.PInt 600)])
              (Py.of_Z 1) (Py.of_Z 4) (Py.of_Z 600) (Py.of_Z 8000))
    as (_ & _ & H & _); try reflexivity.
  apply H; by vm_compute.
Defined.

Section LocustRules.
Import Py Detector.

Lemma failure_rate_analysis_numeric latest r f :
  as_num (or (get latest "num_requests" (PInt 0)) (PInt 0)) = Some r →
  as_num (or (get latest "num_failures" (PInt 0)) (PInt 0)) = Some f →
  result (failure_rate_analysis latest) = Some tt
  ∧ (r ≤ of_Z 0 → findings (failure_rate_analysis latest) = [])%Qc
  ∧ (of_Z 0 < r → f / r * of_Z 100 < of_Z 10 →
     findings (failure_rate_analysis latest) = [])%Qc
  ∧ (of_Z 0 < r → of_Z 10 ≤ f / r * of_Z 100 →
     ∃ b, findings (failure_rate_analysis latest) = [b]
          ∧ type b = CONFIGURATION ∧ severity b = CRITICAL
          ∧ affected_component b = "load_balancer"
          ∧ evidence b !! "failure_rate"
            = Some (EvVal (PFloat (f / r * of_Z 100))))%Qc.
Proof.
  intros Hr Hf. unfold result, findings, failure_rate_analysis, bind, lift,
    append, ret.
  rewrite (gt_num_threshold _ r 0 Hr). cbv beta iota.
  split.
  { destruct (Qc_ltb (of_Z 0) r) eqn:Hpos; [|done].
    rewrite (truediv_num _ _ f r Hf Hr).
    2:{ apply pos_nonzero. unfold Qc_ltb in Hpos.
        by apply bool_decide_eq_true in Hpos. }
    cbv beta iota. by destruct (num_ge _ _). }
  repeat split.
  - intros Hle. by rewrite Qc_ltb_false.
  - intros Hpos Hlt. rewrite (Qc_ltb_true _ _ Hpos).
    rewrite (truediv_num _ _ f r Hf Hr (pos_nonzero _ Hpos)). cbv beta iota.
    by rewrite (num_ge_false _ 10 Hlt).
  - intros Hpos Hge. rewrite (Qc_ltb_true _ _ Hpos).
    rewrite (truediv_num _ _ f r Hf Hr (pos_nonzero _ Hpos)). cbv beta iota.
    rewrite (num_ge_true _ 10 Hge).
    eexists. simpl. repeat split; reflexivity.
Qed.

Lemma response_time_analysis_numeric latest p :
  as_num (or (get latest "p99" (PInt 0)) (PInt 0)) = Some p →
  result (response_time_analysis latest) = Some tt
  ∧ (p ≤ of_Z 5000 → findings (response_time_analysis latest) = [])%Qc
  ∧ (of_Z 5000 < p →
     ∃ b, findings (response_time_analysis latest) = [b]
          ∧ type b = BACKEND ∧ severity b = HIGH
          ∧ affected_component b = "backend_servers"
          ∧ evidence b !! "p99_ms"
            = Some (EvVal (or (get latest "p99" (PInt 0)) (PInt 0)))
          ∧ evidence b !! "p95_ms" = Some (EvVal (get latest "p95" (PInt 0)))
          ∧ evidence b !! "p90_ms" = Some (EvVal (get latest "p90" (PInt 0))))%Qc.
Proof.
  intros Hp. unfold result, findings, response_time_analysis, bind, lift,
    append, ret.
  rewrite (gt_num_threshold _ p 5000 Hp). cbv beta iota.
  split; [by destruct (Qc_ltb _ _)|]. split.
  - intros Hle. by rewrite Qc_ltb_false.
  - intros Hlt. rewrite (Qc_ltb_true _ _ Hlt).
    eexists. simpl. repeat split; reflexivity.
Qed.

Lemma findings_analyze_locust_stats stats latest :
  last stats = Some latest →
  findings (_analyze_locust_stats stats)
  = findings (failure_rate_analysis latest)
    ++ match result (failure_rate_analysis latest) with
       | Some _ => findings (response_time_analysis latest)
       | None => []
       end.
Proof.
  intros Hl. unfold _analyze_locust_stats. rewrite Hl.
  apply findings_bind;
    [apply appends_failure_rate_analysis
    |intros _; apply appends_response_time_analysis].
Qed.

(** X5.  The two rules of [_analyze_locust_stats], on a latest sample
    whose request count [r], failure count [f] and [p99] are numbers
    (missing, None and 0 read as 0).  The pass does not raise.  With r >
    0 and f / r * 100 >= 10 there is exactly one failure-rate finding,
    CRITICAL, of type CONFIGURATION on [load_balancer]; below 10, or with
    r <= 0, there is none (no lower severity exists for this rule).  With
    p99 > 5000 there is exactly one response-time finding, HIGH, of type
    BACKEND, carrying p99 and the raw p95 and p90 of the sample; at 5000
    or below there is none. *)
Theorem locust_findings (stats : list dict) (latest : dict) (r f p : Qc) :
  last stats = Some latest →
  as_num (or (get latest "num_requests" (PInt 0)) (PInt 0)) = Some r →
  as_num (or (get latest "num_failures" (PInt 0)) (PInt 0)) = Some f →
  as_num (or (get latest "p99" (PInt 0)) (PInt 0)) = Some p →
  result (_analyze_locust_stats stats) = Some tt
  ∧ (of_Z 0 < r → of_Z 10 ≤ f / r * of_Z 100 →
     ∃ b, of_rule FailureRate (findings (_analyze_locust_stats stats)) = [b]
          ∧ type b = CONFIGURATION ∧ severity b = CRITICAL
          ∧ affected_component b = "load_balancer"
          ∧ evidence b !! "failure_rate"
            = Some (EvVal (PFloat (f / r * of_Z 100))))%Qc
  ∧ (of_Z 0 < r → f / r * of_Z 100 < of_Z 10 →
     of_rule FailureRate (findings (_analyze_locust_stats stats)) = [])%Qc
  ∧ (r ≤ of_Z 0 →
     of_rule FailureRate (findings (_analyze_locust_stats stats)) = [])%Qc
  ∧ (of_Z 5000 < p →
     ∃ b, of_rule ResponseTime (findings (_analyze_locust_stats stats)) = [b]
          ∧ type b = BACKEND ∧ severity b = HIGH
          ∧ affected_component b = "backend_servers"
          ∧ evidence b !! "p99_ms"
            = Some (EvVal (or (get latest "p99" (PInt 0)) (PInt 0)))
          ∧ evidence b !! "p95_ms" = Some (EvVal (get latest "p95" (PInt 0)))
          ∧ evidence b !! "p90_ms" = Some (EvVal (get latest "p90" (PInt 0))))%Qc
  ∧ (p ≤ of_Z 5000 →
     of_rule ResponseTime (findings (_analyze_locust_stats stats)) = [])%Qc.
Proof.
  intros Hl Hr Hf Hp.
  destruct (failure_rate_analysis_numeric latest r f Hr Hf)
    as (Hres & Hnone & Hlow & Hcrit).
  destruct (response_time_analysis_numeric latest p Hp) as (Hres' & Hfast & Hslow).
  rewrite (findings_analyze_locust_stats _ _ Hl), Hres, !of_rule_app.
  rewrite (of_rule_all _ _ (failure_rate_analysis_rule latest)).
  rewrite (of_rule_all _ _ (response_time_analysis_rule latest)).
  rewrite (of_rule_other FailureRate ResponseTime _ ltac:(done)
             (response_time_analysis_rule latest)).
  rewrite (of_rule_other ResponseTime FailureRate _ ltac:(done)
             (failure_rate_analysis_rule latest)).
  rewrite app_nil_r. simpl.
  split; [|done].
  unfold _analyze_locust_stats. rewrite Hl.
  rewrite result_bind;
    [|apply appends_failure_rate_analysis
     |intros _; apply appends_response_time_analysis].
  by rewrite Hres.
Qed.
End LocustRules.

Lemma locust_findings_witness :
  ∃ b,
    Detector.of_rule Detector.FailureRate
      (Detector.findings
         (Detector._analyze_locust_stats
            [list_to_map [("num_requests", Py.PInt 1000);
                          ("num_failures", Py.PInt 150);
                          ("p99", Py.PInt 1200)]])) = [b]
    ∧ Detector.type b = Detector.CONFIGURATION
    ∧ Detector.severity b = Detector.CRITICAL
    ∧ Detector.affected_component b = "load_balancer"
    ∧ Detector.evidence b !! "failure_rate"
      = Some (Detector.EvVal
                (Py.PFloat (Py.of_Z 150 / Py.of_Z 1000 * Py.of_Z 100)%Qc)).
Proof.
  destruct (locust_findings
              [list_to_map [("num_requests", Py.PInt 1000);
                            ("num_failures", Py.PInt 150);
                            ("p99", Py.PInt 1200)]]
              (list_to_map [("num_requests", Py.PInt 1000);
                            ("num_failures", Py.PInt 150);
                            ("p99", Py.PInt 1200)])
              (Py.of_Z 1000) (Py.of_Z 150) (Py.of_Z 1200))
    as (_ & H & _); try reflexivity.
  apply H; by vm_compute.
Defined.

(** ** Empty categories *)

Section EmptyCategories.
Import Py Detector.

Lemma of_rule_analyze_nil r h s l :
  of_rule r (findings (detect h s l)) = [] → of_rule r (snd (analyze h s l)) = [].
Proof.
  intros H. rewrite of_rule_analyze; [done|]. rewrite H. simpl. lia.
Qed.

Lemma of_rule_not_in r (rs : list rule) bs :
  r ∉ rs → Forall (λ b, rule_of b ∈ rs) bs → of_rule r bs = [].
Proof.
  intros Hr H. apply of_rule_none. eapply Forall_impl; [exact H|].
  simpl. intros b Hb Heq. apply Hr. by rewrite <- Heq.
Qed.

Lemma rule_not_elem_of (r : rule) (rs : list rule) :
  bool_decide (r ∈ rs) = false → r ∉ rs.
Proof. by intros ?%bool_decide_eq_false. Qed.

(** The findings of [detect] by rule: each rule belongs to one pass. *)
Lemma of_rule_detect_system r h s l :
  r ∈ [CpuSaturation; MemoryPressure] →
  of_rule r (findings (detect h s l))
  = match result (_analyze_haproxy h) with
    | Some _ => of_rule r (findings (_analyze_system_metrics s))
    | None => []
    end.
Proof.
  intros Hr. rewrite findings_detect, of_rule_app.
  assert ((r ∉ [ConnectionSaturation; QueueDepth; ErrorRate; ConnectionGrowth])
          ∧ (r ∉ [FailureRate; ResponseTime])) as [H1 H2].
  { rewrite !elem_of_cons, elem_of_nil in Hr.
    destruct Hr as [->|[->|[]]]; split; apply rule_not_elem_of; reflexivity. }
  rewrite (of_rule_not_in r _ _ H1 (analyze_haproxy_rules h)).
  destruct (result (_analyze_haproxy h)); [|done].
  rewrite of_rule_app. simpl.
  rewrite <- (app_nil_r (of_rule r (findings (_analyze_system_metrics s)))) at 2.
  f_equal. destruct (result (_analyze_system_metrics s)); [|done].
  apply (of_rule_not_in r _ _ H2 (analyze_locust_stats_rules _)).
Qed.

Lemma of_rule_detect_locust r h s l :
  r ∈ [FailureRate; ResponseTime] →
  of_rule r (findings (detect h s l))
  = match result (_analyze_haproxy h) ≫= λ _,
          result (_analyze_system_metrics s) with
    | Some _ => of_rule r (findings (_analyze_locust_stats (default [] l)))
    | None => []
    end.
Proof.
  intros Hr. rewrite findings_detect, of_rule_app.
  assert ((r ∉ [ConnectionSaturation; QueueDepth; ErrorRate; ConnectionGrowth])
          ∧ (r ∉ [CpuSaturation; MemoryPressure])) as [H1 H2].
  { rewrite !elem_of_cons, elem_of_nil in Hr.
    destruct Hr as [->|[->|[]]]; split; apply rule_not_elem_of; reflexivity. }
  rewrite (of_rule_not_in r _ _ H1 (analyze_haproxy_rules h)).
  destruct (result (_analyze_haproxy h)); [|done].
  rewrite of_rule_app.
  rewrite (of_rule_not_in r _ _ H2 (analyze_system_metrics_rules s)).
  by destruct (result (_analyze_system_metrics s)).
Qed.

(** X6.  An empty category gives no findings and no exception.  With
    every category empty ([locust_stats] being None or the empty list)
    [analyze] returns the empty list.  With no HAProxy samples no finding
    of the four HAProxy rules is left, with no system metrics none of the
    CPU and memory rules, and with no Locust samples none of the two
    Locust rules, whatever the other categories hold; and with empty
    system metrics and no Locust samples, [analyze] returns exactly when
    the HAProxy pass does not raise. *)
Theorem empty_category_no_findings (h s : list dict) (l : option (list dict)) :
  analyze [] [] None = (Some [], [])
  ∧ analyze [] [] (Some []) = (Some [], [])
  ∧ (∀ r, r ∈ [ConnectionSaturation; QueueDepth; ErrorRate; ConnectionGrowth] →
          of_rule r (snd (analyze [] s l)) = [])
  ∧ (∀ r, r ∈ [CpuSaturation; MemoryPressure] →
          of_rule r (snd (analyze h [] l)) = [])
  ∧ (∀ r, r ∈ [FailureRate; ResponseTime] →
          of_rule r (snd (analyze h s None)) = []
          ∧ of_rule r (snd (analyze h s (Some []))) = [])
  ∧ (is_Some (fst (analyze h [] None)) ↔ result (_analyze_haproxy h) = Some tt).
Proof.
  split; [reflexivity|]. split; [reflexivity|]. split; [|split; [|split]].
  - intros r Hr. apply of_rule_analyze_nil.
    by rewrite (of_rule_detect_haproxy r [] s l Hr).
  - intros r Hr. apply of_rule_analyze_nil.
    rewrite (of_rule_detect_system r h [] l Hr).
    by destruct (result (_analyze_haproxy h)).
  - intros r Hr. split; apply of_rule_analyze_nil;
      rewrite (of_rule_detect_locust r h s _ Hr); by destruct (_ ≫= _).
  - rewrite analyze_eq, result_detect.
    destruct (result (_analyze_haproxy h)) as [[]|]; simpl.
    + split; [done|]. intros _. by eexists.
    + split; [intros [? ?]; discriminate|done].
Qed.
End EmptyCategories.

Lemma empty_category_no_findings_witness :
  Detector.of_rule Detector.CpuSaturation
    (snd (Detector.analyze [Detector.haproxy_sample 950 1000] [] None)) = []
  ∧ Detector.of_rule Detector.QueueDepth
      (snd (Detector.analyze []
              [list_to_map [("host_type", Py.PStr "backend");
                            ("cpu_count", Py.PInt 1); ("load_1", Py.PInt 2)]]
              None)) = [].
Proof.
  split.
  - destruct (empty_category_no_findings
                [Detector.haproxy_sample 950 1000] [] None)
      as (_ & _ & _ & H & _).
    apply H. set_solver.
  - destruct (empty_category_no_findings []
                [list_to_map [("host_type", Py.PStr "backend");
                              ("cpu_count", Py.PInt 1); ("load_1", Py.PInt 2)]]
                None)
      as (_ & _ & H & _).
    apply H. set_solver.
Defined.

(** ** What the findings can be *)

Ltac solve_tagged :=
  simpl; repeat constructor; simpl; try done;
  rewrite ?elem_of_cons; auto 10.

Section FindingsVocabulary.
Import Py Detector Findings.

Lemma connection_limit_analysis_tagged latest :
  Forall well_tagged (findings (connection_limit_analysis latest)).
Proof. block_cases connection_limit_analysis; solve_tagged. Qed.

Lemma queue_analysis_tagged latest :
  Forall well_tagged (findings (queue_analysis latest)).
Proof. block_cases queue_analysis; solve_tagged. Qed.

Lemma error_rate_analysis_tagged latest :
  Forall well_tagged (findings (error_rate_analysis latest)).
Proof. block_cases error_rate_analysis; solve_tagged. Qed.

Lemma connection_trend_analysis_tagged stats :
  Forall well_tagged (findings (connection_trend_analysis stats)).
Proof. block_cases connection_trend_analysis; solve_tagged. Qed.

Lemma cpu_analysis_tagged latest host_type :
  host_type ∈ ["amphora"; "backend"] →
  Forall well_tagged (findings (cpu_analysis latest host_type)).
Proof.
  intros Hh. block_cases cpu_analysis; simpl; try (by constructor);
    apply Forall_singleton; unfold well_tagged;
    (split; [done|split; [done|]]); simpl;
    revert Hh; unfold components; rewrite !elem_of_cons, !elem_of_nil; tauto.
Qed.

Lemma memory_analysis_tagged latest host_type :
  host_type ∈ ["amphora"; "backend"] →
  Forall well_tagged (findings (memory_analysis latest host_type)).
Proof.
  intros Hh. block_cases memory_analysis; simpl; try (by constructor);
    apply Forall_singleton; unfold well_tagged;
    (split; [done|split; [done|]]); simpl;
    revert Hh; unfold components; rewrite !elem_of_cons, !elem_of_nil; tauto.
Qed.

Lemma failure_rate_analysis_tagged latest :
  Forall well_tagged (findings (failure_rate_analysis latest)).
Proof. block_cases failure_rate_analysis; solve_tagged. Qed.

Lemma response_time_analysis_tagged latest :
  Forall well_tagged (findings (response_time_analysis latest)).
Proof. block_cases response_time_analysis; solve_tagged. Qed.
End FindingsVocabulary.

Section FindingsBounds.
Import Py Detector Findings.

Lemma length_findings_bind {A B} (m : M A) (k : A → M B) (a b : nat) :
  appends m → (∀ x, appends (k x)) →
  (length (findings m) ≤ a)%nat → (∀ x, (length (findings (k x)) ≤ b)%nat) →
  (length (findings (bind m k)) ≤ a + b)%nat.
Proof.
  intros Hm Hk Ha Hb. rewrite findings_bind, length_app by done.
  destruct (result m) as [x|]; [specialize (Hb x)|simpl]; lia.
Qed.

Lemma queue_analysis_length latest :
  (length (findings (queue_analysis latest)) ≤ 1)%nat.
Proof. block_cases queue_analysis; simpl; lia. Qed.

Lemma error_rate_analysis_length latest :
  (length (findings (error_rate_analysis latest)) ≤ 1)%nat.
Proof. block_cases error_rate_analysis; simpl; lia. Qed.

Lemma cpu_analysis_length latest host_type :
  (length (findings (cpu_analysis latest host_type)) ≤ 1)%nat.
Proof. block_cases cpu_analysis; simpl; lia. Qed.

Lemma memory_analysis_length latest host_type :
  (length (findings (memory_analysis latest host_type)) ≤ 1)%nat.
Proof. block_cases memory_analysis; simpl; lia. Qed.

Lemma failure_rate_analysis_length latest :
  (length (findings (failure_rate_analysis latest)) ≤ 1)%nat.
Proof. block_cases failure_rate_analysis; simpl; lia. Qed.

Lemma response_time_analysis_length latest :
  (length (findings (response_time_analysis latest)) ≤ 1)%nat.
Proof. block_cases response_time_analysis; simpl; lia. Qed.

Lemma analyze_haproxy_bound stats :
  Forall well_tagged (findings (_analyze_haproxy stats))
  ∧ (length (findings (_analyze_haproxy stats)) ≤ 4)%nat.
Proof.
  unfold _analyze_haproxy. destruct (last stats) as [latest|];
    [|split; [constructor|simpl; lia]].
  assert (appends (error_rate_analysis latest ;; connection_trend_analysis stats))
    as H3.
  { apply appends_bind; [apply appends_error_rate_analysis|intros _].
    apply appends_connection_trend_analysis. }
  assert (appends (queue_analysis latest ;; error_rate_analysis latest ;;
                   connection_trend_analysis stats)) as H2.
  { by apply appends_bind; [apply appends_queue_analysis|intros _]. }
  split.
  - apply Forall_findings_bind;
      [apply appends_connection_limit_analysis|done
      |apply connection_limit_analysis_tagged|intros _].
    apply Forall_findings_bind;
      [apply appends_queue_analysis|done|apply queue_analysis_tagged|intros _].
    apply Forall_findings_bind;
      [apply appends_error_rate_analysis
      |intros _; apply appends_connection_trend_analysis
      |apply error_rate_analysis_tagged
      |intros _; apply connection_trend_analysis_tagged].
  - apply (length_findings_bind _ _ 1 3);
      [apply appends_connection_limit_analysis|done
      |apply connection_limit_analysis_length|intros _].
    apply (length_findings_bind _ _ 1 2);
      [apply appends_queue_analysis|done|apply queue_analysis_length|intros _].
    apply (length_findings_bind _ _ 1 1);
      [apply appends_error_rate_analysis
      |intros _; apply appends_connection_trend_analysis
      |apply error_rate_analysis_length
      |intros _; apply connection_trend_analysis_length].
Qed.

Lemma analyze_host_metrics_bound metrics host_type :
  host_type ∈ ["amphora"; "backend"] →
  Forall well_tagged (findings (_analyze_host_metrics metrics host_type))
  ∧ (length (findings (_analyze_host_metrics metrics host_type)) ≤ 2)%nat.
Proof.
  intros Hh. unfold _analyze_host_metrics.
  destruct (last metrics) as [latest|]; [|split; [constructor|simpl; lia]].
  split.
  - apply Forall_findings_bind;
      [apply appends_cpu_analysis|intros _; apply appends_memory_analysis
      |by apply cpu_analysis_tagged|intros _; by apply memory_analysis_tagged].
  - apply (length_findings_bind _ _ 1 1);
      [apply appends_cpu_analysis|intros _; apply appends_memory_analysis
      |apply cpu_analysis_length|intros _; apply memory_analysis_length].
Qed.

Lemma analyze_system_metrics_bound metrics :
  Forall well_tagged (findings (_analyze_system_metrics metrics))
  ∧ (length (findings (_analyze_system_metrics metrics)) ≤ 4)%nat.
Proof.
  unfold _analyze_system_metrics.
  destruct metrics as [|m ms]; [split; [constructor|simpl; lia]|].
  assert ("amphora" ∈ ["amphora"; "backend"]) as Ha by (by left).
  assert ("backend" ∈ ["amphora"; "backend"]) as Hb by (right; by left).
  assert (∀ a b, appends (_analyze_host_metrics a "amphora";;
                          _analyze_host_metrics b "backend")) as H2.
  { intros a b. apply appends_bind; [|intros _];
      apply appends_analyze_host_metrics. }
  assert (∀ a, appends (let* b := lift (select_hosts "backend" (m :: ms)) in
                        _analyze_host_metrics a "amphora";;
                        _analyze_host_metrics b "backend")) as H1.
  { intros a. apply appends_bind; [apply appends_lift|intros b; apply H2]. }
  split.
  - apply Forall_findings_bind; [apply appends_lift|done|constructor|intros a].
    apply Forall_findings_bind; [apply appends_lift|done|constructor|intros b].
    apply Forall_findings_bind;
      [apply appends_analyze_host_metrics
      |intros _; apply appends_analyze_host_metrics
      |by apply analyze_host_metrics_bound
      |intros _; by apply analyze_host_metrics_bound].
  - apply (length_findings_bind _ _ 0 4);
      [apply appends_lift|done|simpl; lia|intros a].
    apply (length_findings_bind _ _ 0 4);
      [apply appends_lift|done|simpl; lia|intros b].
    apply (length_findings_bind _ _ 2 2);
      [apply appends_analyze_host_metrics
      |intros _; apply appends_analyze_host_metrics
      |by apply analyze_host_metrics_bound
      |intros _; by apply analyze_host_metrics_bound].
Qed.

Lemma analyze_locust_stats_bound stats :
  Forall well_tagged (findings (_analyze_locust_stats stats))
  ∧ (length (findings (_analyze_locust_stats stats)) ≤ 2)%nat.
Proof.
  unfold _analyze_locust_stats.
  destruct (last stats) as [latest|]; [|split; [constructor|simpl; lia]].
  split.
  - apply Forall_findings_bind;
      [apply appends_failure_rate_analysis
      |intros _; apply appends_response_time_analysis
      |apply failure_rate_analysis_tagged
      |intros _; apply response_time_analysis_tagged].
  - apply (length_findings_bind _ _ 1 1);
      [apply appends_failure_rate_analysis
      |intros _; apply appends_response_time_analysis
      |apply failure_rate_analysis_length
      |intros _; apply response_time_analysis_length].
Qed.

(** X7.  What [analyze] never reports.  Whatever the input, and also
    when a pass raises half way, the findings left in [self.bottlenecks]
    are at most ten (four from the HAProxy pass, two per host type, two
    from Locust); none has severity LOW or type NETWORK; the type of each
    is the one of its rule (connection rules CONNECTION_LIMIT, queue and
    response time BACKEND, error and failure rate CONFIGURATION, CPU and
    MEMORY their own); and the affected component is one of
    amphora/haproxy, backend_servers, amphora, backend, load_balancer. *)
Theorem findings_vocabulary (h s : list dict) (l : option (list dict)) :
  Forall (λ b, severity b ≠ LOW ∧ type b ≠ NETWORK
               ∧ type b = type_of_rule (rule_of b)
               ∧ affected_component b ∈ components)
         (snd (analyze h s l))
  ∧ (length (snd (analyze h s l)) ≤ 10)%nat.
Proof.
  rewrite analyze_state_Permutation, findings_detect.
  destruct (analyze_haproxy_bound h) as [Hh Hhl].
  destruct (analyze_system_metrics_bound s) as [Hs Hsl].
  destruct (analyze_locust_stats_bound (default [] l)) as [Hl Hll].
  assert (∀ b, well_tagged b →
               severity b ≠ LOW ∧ type b ≠ NETWORK
               ∧ type b = type_of_rule (rule_of b)
               ∧ affected_component b ∈ components) as Himp.
  { intros b (H1 & H2 & H3). repeat split; try done.
    rewrite H2. by destruct (rule_of b). }
  split.
  - eapply Forall_impl; [|exact Himp].
    apply Forall_app. split; [done|].
    destruct (result (_analyze_haproxy h)); [|constructor].
    apply Forall_app. split; [done|].
    destruct (result (_analyze_system_metrics s)); [done|constructor].
  - rewrite length_app.
    destruct (result (_analyze_haproxy h)); [|simpl; lia].
    rewrite length_app.
    destruct (result (_analyze_system_metrics s)); [|simpl; lia]. lia.
Qed.
End FindingsBounds.

Lemma findings_vocabulary_witness :
  (length (snd (Detector.analyze [Detector.haproxy_sample 950 1000] [] None))
   ≤ 10)%nat.
Proof.
  apply (proj2 (findings_vocabulary [Detector.haproxy_sample 950 1000] [] None)).
Defined.

(** ** get_summary: the counters *)

Section SummaryCounters.
Import Py Detector Findings.

Lemma foldl_incr {A} (key : A → string) (bs : list A) (d : gmap string Z) k :
  foldl (λ d b, incr (key b) d) d bs !! k
  = if decide (length (filter (λ b, key b = k) bs) = 0%nat) then d !! k
    else Some (default 0 (d !! k)
               + Z.of_nat (length (filter (λ b, key b = k) bs))).
Proof.
  revert d. induction bs as [|b bs IH]; intros d; [done|].
  cbn [foldl]. rewrite IH, filter_cons. unfold incr.
  destruct (decide (key b = k)) as [->|Hne].
  - rewrite lookup_insert_eq. cbn [length default].
    rewrite (decide_False (P:=S _ = 0%nat)) by lia.
    destruct (decide (length (filter (λ b0, key b0 = k) bs) = 0%nat)) as [Hz|Hz].
    + by rewrite Hz.
    + f_equal. unfold id. lia.
  - by rewrite lookup_insert_ne.
Qed.

Lemma severity_value_inj s1 s2 : severity_value s1 = severity_value s2 → s1 = s2.
Proof. by destruct s1, s2. Qed.

Lemma type_value_inj t1 t2 : type_value t1 = type_value t2 → t1 = t2.
Proof. by destruct t1, t2. Qed.

Lemma by_severity_lookup bs sev :
  by_severity (get_summary bs) !! severity_value sev
  = counter_entry (count_severity sev bs).
Proof.
  unfold get_summary, counter_entry, count_severity. cbn [by_severity].
  rewrite (foldl_incr (λ b, severity_value (severity b))), lookup_empty.
  rewrite (list_filter_iff _ (λ b, severity b = sev)).
  2:{ intros b. split; [apply severity_value_inj|by intros ->]. }
  destruct (decide _); [done|]; f_equal; simpl; lia.
Qed.

Lemma by_type_lookup bs t :
  by_type (get_summary bs) !! type_value t = counter_entry (count_type t bs).
Proof.
  unfold get_summary, counter_entry, count_type. cbn [by_type].
  rewrite (foldl_incr (λ b, type_value (type b))), lookup_empty.
  rewrite (list_filter_iff _ (λ b, type b = t)).
  2:{ intros b. split; [apply type_value_inj|by intros ->]. }
  destruct (decide _); [done|]; f_equal; simpl; lia.
Qed.

Lemma count_severity_total bs :
  (count_severity CRITICAL bs + count_severity HIGH bs
   + count_severity MEDIUM bs + count_severity LOW bs)%nat = length bs.
Proof.
  unfold count_severity. induction bs as [|b bs IH]; [done|].
  rewrite !filter_cons. simpl.
  destruct (severity b); simpl; rewrite ?decide_True by done;
    repeat (rewrite decide_False by done); simpl; lia.
Qed.

(** X8.  The counters of [get_summary], for any list of findings.
    [total_bottlenecks] is the number of findings.  [by_severity] has,
    under the name of each severity, the number of findings of that
    severity, and no entry when there is none; [by_type] likewise by
    type; neither has any other key.  [critical_count] and [high_count]
    are the numbers of CRITICAL and of HIGH findings (0 when there is
    none), and the four severity counts add up to the total. *)
Theorem summary_counters (bs : list Bottleneck) :
  total_bottlenecks (get_summary bs) = Z.of_nat (length bs)
  ∧ (∀ sev, by_severity (get_summary bs) !! severity_value sev
            = counter_entry (count_severity sev bs))
  ∧ (∀ t, by_type (get_summary bs) !! type_value t
          = counter_entry (count_type t bs))
  ∧ (∀ k v, by_severity (get_summary bs) !! k = Some v →
            ∃ sev, k = severity_value sev ∧ 0 < v)
  ∧ (∀ k v, by_type (get_summary bs) !! k = Some v →
            ∃ t, k = type_value t ∧ 0 < v)
  ∧ critical_count (get_summary bs) = Z.of_nat (count_severity CRITICAL bs)
  ∧ high_count (get_summary bs) = Z.of_nat (count_severity HIGH bs)
  ∧ (count_severity CRITICAL bs + count_severity HIGH bs
     + count_severity MEDIUM bs + count_severity LOW bs)%nat = length bs.
Proof.
  split; [done|]. split; [apply by_severity_lookup|].
  split; [apply by_type_lookup|].
  assert (∀ n, default 0 (counter_entry n) = Z.of_nat n) as Hdef.
  { intros n. unfold counter_entry. destruct (decide _); simpl; lia. }
  split; [|split; [|split; [|split; [|apply count_severity_total]]]].
  - intros k v Hk. unfold get_summary in Hk. cbn [by_severity] in Hk.
    rewrite (foldl_incr (λ b, severity_value (severity b))), lookup_empty in Hk.
    destruct (decide _) as [|Hn]; [done|]. injection Hk as <-.
    destruct (filter _ bs) as [|b bs'] eqn:Hf; [done|].
    assert (b ∈ filter (λ b, severity_value (severity b) = k) bs) as Hb
      by (rewrite Hf; by left).
    apply list_elem_of_filter in Hb as [<- _].
    exists (severity b). split; [done|]. simpl. lia.
  - intros k v Hk. unfold get_summary in Hk. cbn [by_type] in Hk.
    rewrite (foldl_incr (λ b, type_value (type b))), lookup_empty in Hk.
    destruct (decide _) as [|Hn]; [done|]. injection Hk as <-.
    destruct (filter _ bs) as [|b bs'] eqn:Hf; [done|].
    assert (b ∈ filter (λ b, type_value (type b) = k) bs) as Hb
      by (rewrite Hf; by left).
    apply list_elem_of_filter in Hb as [<- _].
    exists (type b). split; [done|]. simpl. lia.
  - change (critical_count (get_summary bs))
      with (default 0 (by_severity (get_summary bs) !! severity_value CRITICAL)).
    by rewrite by_severity_lookup, Hdef.
  - change (high_count (get_summary bs))
      with (default 0 (by_severity (get_summary bs) !! severity_value HIGH)).
    by rewrite by_severity_lookup, Hdef.
Qed.
End SummaryCounters.

Lemma summary_counters_witness :
  Detector.by_severity
    (Detector.get_summary
       [Detector.queue_finding 60 Detector.HIGH;
        Detector.queue_finding 15 Detector.MEDIUM;
        Detector.queue_finding 70 Detector.HIGH]) !! "high"
  = Findings.counter_entry
      (Findings.count_severity Detector.HIGH
         [Detector.queue_finding 60 Detector.HIGH;
          Detector.queue_finding 15 Detector.MEDIUM;
          Detector.queue_finding 70 Detector.HIGH])
  ∧ ∃ sev, "high" = Detector.severity_value sev ∧ 0 < 2.
Proof.
  destruct (summary_counters
              [Detector.queue_finding 60 Detector.HIGH;
               Detector.queue_finding 15 Detector.MEDIUM;
               Detector.queue_finding 70 Detector.HIGH])
    as (_ & H1 & _ & H2 & _).
  split; [apply (H1 Detector.HIGH)|].
  apply (H2 "high" 2).
  etransitivity; [apply (H1 Detector.HIGH)|reflexivity].
Defined.

(** ** _analyze_system_metrics: which rows go to which host type *)

Section HostSelection.
Import Py Detector Findings.

Lemma select_hosts_Some needle metrics :
  Forall (λ m, is_Some (host_type_of m)) metrics →
  select_hosts needle metrics
  = Some (filter (λ m, host_matches needle m = true) metrics).
Proof.
  induction 1 as [|m ms [h Hh] _ IH]; [done|].
  cbn [select_hosts]. rewrite Hh, IH. simpl.
  rewrite filter_cons.
  assert (host_matches needle m = contains needle (lower h)) as ->
    by (unfold host_matches; by rewrite Hh).
  destruct (contains needle (lower h)); [by rewrite decide_True|].
  by rewrite decide_False.
Qed.

Lemma select_hosts_None needle metrics :
  Exists (λ m, host_type_of m = None) metrics →
  select_hosts needle metrics = None.
Proof.
  induction 1 as [m ms Hm|m ms _ IH]; cbn [select_hosts].
  - by rewrite Hm.
  - rewrite IH. by destruct (host_type_of m).
Qed.

Lemma host_type_of_None m :
  host_type_of m = None
  ↔ ∃ v, m !! "host_type" = Some v ∧ ∀ t, v ≠ PStr t.
Proof.
  unfold host_type_of. destruct (m !! "host_type") as [[]|]; split;
    try done; try (intros (v & [= <-] & Hv); by (done || edestruct Hv));
    try (intros _; eexists; split; [done|done]).
Qed.

(** X9.  How [_analyze_system_metrics] splits a non-empty list.  When
    every row has a string or no [host_type], the rows whose lower-cased
    host type contains "amphora" are analysed as amphora and those that
    contain "backend" as backend, each group in the order of the list; a
    row without [host_type] belongs to neither group, and a row that
    contains both words to both.  When some row holds a [host_type] that
    is not a string (None, a number), the pass raises before any finding
    is appended. *)
Theorem system_metrics_host_selection (metrics : list dict) :
  metrics ≠ [] →
  (Forall (λ m, is_Some (host_type_of m)) metrics →
   findings (_analyze_system_metrics metrics)
   = findings (_analyze_host_metrics
                 (filter (λ m, host_matches "amphora" m = true) metrics)
                 "amphora")
     ++ match result (_analyze_host_metrics
                        (filter (λ m, host_matches "amphora" m = true) metrics)
                        "amphora") with
        | Some _ =>
            findings (_analyze_host_metrics
                        (filter (λ m, host_matches "backend" m = true) metrics)
                        "backend")
        | None => []
        end)
  ∧ (∀ m needle, m !! "host_type" = None → needle ≠ "" →
                 host_matches needle m = false)
  ∧ (Exists (λ m, ∃ v, m !! "host_type" = Some v ∧ ∀ t, v ≠ PStr t) metrics →
     result (_analyze_system_metrics metrics) = None
     ∧ findings (_analyze_system_metrics metrics) = []).
Proof.
  intros Hne. destruct metrics as [|m0 ms]; [done|].
  split; [|split].
  - intros Htyped. unfold _analyze_system_metrics.
    unfold findings at 1, bind, lift.
    rewrite !(select_hosts_Some _ _ Htyped).
    pose proof (appends_analyze_host_metrics
                  (filter (λ m, host_matches "amphora" m = true) (m0 :: ms))
                  "amphora") as Ha.
    rewrite (Ha []). simpl.
    destruct (result (_analyze_host_metrics _ "amphora")); [|by rewrite app_nil_r].
    pose proof (appends_analyze_host_metrics
                  (filter (λ m, host_matches "backend" m = true) (m0 :: ms))
                  "backend") as Hb.
    by rewrite (Hb _).
  - intros m needle Hm Hn. unfold host_matches, host_type_of. rewrite Hm.
    destruct needle; [done|]. reflexivity.
  - intros Hex.
    assert (select_hosts "amphora" (m0 :: ms) = None) as Hs.
    { apply select_hosts_None. eapply Exists_impl; [exact Hex|].
      simpl. intros m. apply host_type_of_None. }
    unfold _analyze_system_metrics, result, findings, bind, lift.
    by rewrite Hs.
Qed.
End HostSelection.

Lemma system_metrics_host_selection_witness :
  Detector.findings
    (Detector._analyze_system_metrics
       [list_to_map [("host_type", Py.PStr "Amphora-1");
                     ("cpu_count", Py.PInt 1); ("load_1", Py.PInt 2);
                     ("mem_total", Py.PInt 100); ("mem_free", Py.PInt 50)];
        list_to_map [("cpu_count", Py.PInt 1); ("load_1", Py.PInt 5)]])
  = Detector.findings
      (Detector._analyze_host_metrics
         (filter (λ m, Findings.host_matches "amphora" m = true)
            [list_to_map [("host_type", Py.PStr "Amphora-1");
                          ("cpu_count", Py.PInt 1); ("load_1", Py.PInt 2);
                          ("mem_total", Py.PInt 100); ("mem_free", Py.PInt 50)];
             list_to_map [("cpu_count", Py.PInt 1); ("load_1", Py.PInt 5)]])
         "amphora")
    ++ match
         Detector.result
           (Detector._analyze_host_metrics
              (filter (λ m, Findings.host_matches "amphora" m = true)
                 [list_to_map [("host_type", Py.PStr "Amphora-1");
                               ("cpu_count", Py.PInt 1); ("load_1", Py.PInt 2);
                               ("mem_total", Py.PInt 100);
                               ("mem_free", Py.PInt 50)];
                  list_to_map [("cpu_count", Py.PInt 1); ("load_1", Py.PInt 5)]])
              "amphora")
       with
       | Some _ =>
           Detector.findings
             (Detector._analyze_host_metrics
                (filter (λ m, Findings.host_matches "backend" m = true)
                   [list_to_map [("host_type", Py.PStr "Amphora-1");
                                 ("cpu_count", Py.PInt 1); ("load_1", Py.PInt 2);
                                 ("mem_total", Py.PInt 100);
                                 ("mem_free", Py.PInt 50)];
                    list_to_map [("cpu_count", Py.PInt 1);
                                 ("load_1", Py.PInt 5)]])
                "backend")
       | None => []
       end.
Proof.
  destruct (system_metrics_host_selection
              [list_to_map [("host_type", Py.PStr "Amphora-1");
                            ("cpu_count", Py.PInt 1); ("load_1", Py.PInt 2);
                            ("mem_total", Py.PInt 100); ("mem_free", Py.PInt 50)];
               list_to_map [("cpu_count", Py.PInt 1); ("load_1", Py.PInt 5)]])
    as (H & _); [done|].
  apply H. repeat constructor; by eexists.
Defined.


(** ** From the haproxy_stats table to the HAProxy pass *)

Section StoredRows.
Import Py Storage Rows Detector.
Variable int_of_str : string → option Z.
Variable json_dumps : dict → string.

Lemma foldr_insert_lookup (f : string → pyval) (base : dict) cols k :
  foldr (λ c d, <[c := f c]> d) base cols !! k
  = if decide (k ∈ cols) then Some (f k) else base !! k.
Proof.
  induction cols as [|c cols IH]; cbn [foldr].
  - destruct (decide (k ∈ [])) as [Hin|_]; [|done].
    by apply elem_of_nil in Hin.
  - destruct (decide (c = k)) as [->|Hne].
    + rewrite lookup_insert_eq.
      destruct (decide (k ∈ k :: cols)) as [_|Hn]; [done|].
      destruct Hn. apply list_elem_of_here.
    + rewrite lookup_insert_ne by done. rewrite IH.
      destruct (decide (k ∈ cols)) as [Hin|Hin];
        destruct (decide (k ∈ c :: cols)) as [Hin'|Hin']; try done.
      * destruct Hin'. by apply list_elem_of_further.
      * apply elem_of_cons in Hin' as [->|?]; done.
Qed.

Lemma insert_values_int_column a l stat c :
  c ∈ int_columns →
  Storage.insert_values int_of_str json_dumps a l stat !! c
  = Some (_int_or_none int_of_str (get stat c PNone)).
Proof.
  intros Hc. unfold Storage.insert_values.
  rewrite (foldr_insert_lookup
             (λ c, _int_or_none int_of_str (get stat c PNone))).
  by rewrite decide_True.
Qed.

Lemma _int_or_none_typed v :
  _int_or_none int_of_str v = PNone
  ∨ ∃ z, _int_or_none int_of_str v = PInt z.
Proof.
  unfold _int_or_none.
  destruct v as [|z|q|[|a s]]; try (by left);
    match goal with
    | |- context [int ?f ?v] => destruct (int f v); [right; by eexists|by left]
    end.
Qed.

Lemma int_column_not_key c :
  c ∈ int_columns → c ≠ "id" ∧ c ≠ "run_id" ∧ c ≠ "timestamp".
Proof.
  assert (Forall (λ c, c ≠ "id" ∧ c ≠ "run_id" ∧ c ≠ "timestamp") int_columns)
    as HF by (unfold int_columns; repeat (constructor; [done|]); constructor).
  rewrite Forall_forall in HF. apply HF.
Qed.

Lemma typed_dict_of_row r :
  inserted int_of_str json_dumps r → typed (dict_of_row r).
Proof.
  intros (a & l & stat & Hr) c Hc.
  destruct (int_column_not_key c Hc) as (H1 & H2 & H3).
  unfold dict_of_row. rewrite !lookup_insert_ne by done.
  rewrite Hr, insert_values_int_column by done.
  destruct (_int_or_none_typed (get stat c PNone)) as [->|[z ->]];
    [by left|right; by eexists].
Qed.

Lemma inserted_insert_row run ts a l db stat :
  Forall (inserted int_of_str json_dumps) (haproxy_stats db) →
  Forall (inserted int_of_str json_dumps)
         (haproxy_stats (Storage.insert_row int_of_str json_dumps run ts a l db stat)).
Proof.
  intros H. unfold Storage.insert_row. cbn [haproxy_stats].
  apply Forall_app. split; [done|].
  apply Forall_singleton. by exists a, l, stat.
Qed.

Lemma inserted_store db ts run a l stats :
  Forall (inserted int_of_str json_dumps) (haproxy_stats db) →
  Forall (inserted int_of_str json_dumps)
         (haproxy_stats
            (Storage.store_haproxy_stats int_of_str json_dumps db ts run a l stats)).
Proof.
  unfold Storage.store_haproxy_stats. revert db.
  induction stats as [|stat stats IH]; intros db H; cbn [foldl]; [done|].
  by apply IH, inserted_insert_row.
Qed.

Lemma inserted_apply_calls db calls :
  Forall (inserted int_of_str json_dumps) (haproxy_stats db) →
  Forall (inserted int_of_str json_dumps)
         (haproxy_stats (Storage.apply_calls int_of_str json_dumps db calls)).
Proof.
  unfold Storage.apply_calls. revert db.
  induction calls as [|c calls IH]; intros db H; cbn [foldl]; [done|].
  by apply IH, inserted_store.
Qed.

Lemma typed_get_haproxy_stats db run_id st et :
  Forall (inserted int_of_str json_dumps) (haproxy_stats db) →
  Forall typed (get_haproxy_stats db run_id st et).
Proof.
  intros H. unfold get_haproxy_stats. apply Forall_fmap.
  rewrite stable_sort_Permutation.
  apply Forall_forall. intros r Hr. apply list_elem_of_filter in Hr as [_ Hr].
  rewrite Forall_forall in H. simpl. by apply typed_dict_of_row, H.
Qed.

Lemma typed_or_zero d c :
  typed d → c ∈ int_columns →
  ∃ z, or (get d c (PInt 0)) (PInt 0) = PInt z.
Proof.
  intros Hd Hc. destruct (Hd c Hc) as [Hn|[z Hz]]; unfold or, get.
  - rewrite Hn. by exists 0.
  - rewrite Hz. simpl. destruct (z =? 0); [by exists 0|by exists z].
Qed.

Lemma all_nondecreasing_ints l :
  Forall (λ v, ∃ z, v = PInt z) l → is_Some (all_nondecreasing l).
Proof.
  induction 1 as [|a l [z ->] Hl IH]; [by eexists|].
  destruct Hl as [|b l' [z' ->] Hl']; [by eexists|].
  change (is_Some (c ← le (PInt z) (PInt z');
                   if c : bool then all_nondecreasing (PInt z' :: l')
                   else Some false)).
  rewrite (le_num _ _ (of_Z z) (of_Z z')) by done. simpl.
  destruct (bool_decide _); [done|by eexists].
Qed.

Lemma connection_trend_analysis_ints stats :
  Forall (λ v, ∃ z, v = PInt z) (recent_scur stats) →
  result (connection_trend_analysis stats) = Some tt.
Proof.
  intros H. apply all_nondecreasing_ints in H as [g Hg].
  unfold result, connection_trend_analysis, bind, lift, append, ret.
  destruct (bool_decide _); [|done]. rewrite Hg. by destruct g.
Qed.

Lemma int_column_scur : "scur" ∈ int_columns.
Proof. unfold int_columns. repeat constructor. Qed.
Lemma int_column_slim : "slim" ∈ int_columns.
Proof. unfold int_columns. repeat constructor. Qed.
Lemma int_column_qcur : "qcur" ∈ int_columns.
Proof. unfold int_columns. repeat constructor. Qed.
Lemma int_column_stot : "stot" ∈ int_columns.
Proof. unfold int_columns. repeat constructor. Qed.
Lemma int_column_ereq : "ereq" ∈ int_columns.
Proof. unfold int_columns. repeat constructor. Qed.

Lemma analyze_haproxy_typed rows :
  Forall typed rows → result (_analyze_haproxy rows) = Some tt.
Proof.
  intros Ht. destruct (last rows) as [latest|] eqn:Hl.
  2:{ unfold _analyze_haproxy. by rewrite Hl. }
  rewrite (result_analyze_haproxy _ _ Hl).
  assert (typed latest) as Hlt.
  { rewrite Forall_forall in Ht. apply Ht.
    apply last_Some in Hl as [l' ->]. set_solver. }
  destruct (typed_or_zero _ _ Hlt int_column_scur) as [x Hx].
  destruct (typed_or_zero _ _ Hlt int_column_slim) as [y Hy].
  destruct (typed_or_zero _ _ Hlt int_column_qcur) as [q Hq].
  destruct (typed_or_zero _ _ Hlt int_column_stot) as [t Ht'].
  destruct (typed_or_zero _ _ Hlt int_column_ereq) as [e He].
  rewrite (connection_limit_analysis_result latest (of_Z x) (of_Z y))
    by (by rewrite ?Hx, ?Hy).
  simpl.
  destruct (queue_analysis_numeric latest (of_Z q)) as [-> _];
    [by rewrite Hq|].
  simpl.
  destruct (error_rate_analysis_numeric latest (of_Z t) (of_Z e)) as [-> _];
    [by rewrite Ht'|by rewrite He|].
  simpl. apply connection_trend_analysis_ints.
  unfold recent_scur. apply Forall_fmap.
  apply Forall_forall. intros d Hd. simpl.
  apply typed_or_zero; [|apply int_column_scur].
  rewrite Forall_forall in Ht. apply Ht.
  apply list_elem_of_lookup in Hd as [i Hi]. eapply list_elem_of_lookup_2.
  rewrite lookup_drop in Hi. exact Hi.
Qed.

(** X10.  Whatever the collector handed to [store_haproxy_stats]
    (strings, numbers, None, keys missing, in any sequence of calls on
    a fresh table), every record that [get_haproxy_stats] reads back,
    with or without time bounds, holds None or an int in each of the 22
    integer columns, and the HAProxy pass of the detector run on the
    records read back returns without raising. *)
Theorem stored_rows_feed_haproxy_pass (calls : list store_call) (run_id : Z)
    (start_time end_time : option string) :
  Forall typed
    (get_haproxy_stats
       (Storage.apply_calls int_of_str json_dumps empty_database calls)
       run_id start_time end_time)
  ∧ result
      (_analyze_haproxy
         (get_haproxy_stats
            (Storage.apply_calls int_of_str json_dumps empty_database calls)
            run_id start_time end_time))
    = Some tt.
Proof.
  assert (Forall typed
            (get_haproxy_stats
               (Storage.apply_calls int_of_str json_dumps empty_database calls)
               run_id start_time end_time)) as H.
  { apply typed_get_haproxy_stats, inserted_apply_calls. constructor. }
  split; [exact H|]. by apply analyze_haproxy_typed.
Qed.
End StoredRows.

Lemma stored_rows_feed_haproxy_pass_witness :
  Detector.result
    (Detector._analyze_haproxy
       (Storage.get_haproxy_stats
          (Storage.apply_calls Py.int_of_digits (λ _, "{}")
             Storage.empty_database Storage.example_calls)
          1 None None))
  = Some tt.
Proof.
  exact (proj2 (stored_rows_feed_haproxy_pass Py.int_of_digits (λ _, "{}")
                  Storage.example_calls 1 None None)).
Defined.

(** ** get_haproxy_stats with time bounds *)

Section TimeRange.
Import Py Storage Rows.

Lemma in_range_dict_of_row st et r :
  in_range st et (dict_of_row r)
  = match given st with
    | Some t => String.leb t (row_timestamp r)
    | None => true
    end
    && match given et with
       | Some t => String.leb (row_timestamp r) t
       | None => true
       end.
Proof. unfold in_range. by rewrite timestamp_of_dict_of_row. Qed.

Lemma where_clause_split run_id st et r :
  where_clause run_id st et r = true
  ↔ where_clause run_id None None r = true
    ∧ in_range st et (dict_of_row r) = true.
Proof.
  rewrite in_range_dict_of_row. unfold where_clause. cbn [given].
  rewrite !andb_true_iff. tauto.
Qed.

Lemma filter_fmap_dict_of_row (P : dict → Prop) `{∀ d, Decision (P d)}
    (rows : list haproxy_row) :
  filter P (dict_of_row <$> rows)
  = dict_of_row <$> filter (λ r, P (dict_of_row r)) rows.
Proof.
  induction rows as [|r rows IH]; [done|].
  rewrite fmap_cons, !filter_cons, IH.
  by destruct (decide (P (dict_of_row r))).
Qed.

(** X11.  [get_haproxy_stats] with time bounds, on a table whose
    timestamps are [isoformat()] texts and for bounds that SQLite keeps
    as text (they hold a colon; a bound that reads as a number, such as
    "2025", is compared as a number and is not covered here): the
    result is the records of the unbounded query whose timestamp lies
    within the bounds that are given, in the bytewise order of text
    (each exactly as often as there), in ascending order of timestamp; a
    bound that is None or the empty string does not restrict. *)
Theorem get_haproxy_stats_time_range (db : database) (run_id : Z)
    (start_time end_time : option string) :
  Forall (λ r, kept_as_text (row_timestamp r)) (haproxy_stats db) →
  (∀ t, start_time = Some t → t = "" ∨ kept_as_text t) →
  (∀ t, end_time = Some t → t = "" ∨ kept_as_text t) →
  get_haproxy_stats db run_id start_time end_time
  ≡ₚ filter (λ d, in_range start_time end_time d = true)
            (get_haproxy_stats db run_id None None)
  ∧ StronglySorted
      (λ a b, String.leb (timestamp_of a) (timestamp_of b) = true)
      (get_haproxy_stats db run_id start_time end_time)
  ∧ (∀ d t, d ∈ get_haproxy_stats db run_id start_time end_time →
            (start_time = Some t → t ≠ "" →
             String.leb t (timestamp_of d) = true)
            ∧ (end_time = Some t → t ≠ "" →
               String.leb (timestamp_of d) t = true))
  ∧ get_haproxy_stats db run_id (Some "") end_time
    = get_haproxy_stats db run_id None end_time
  ∧ get_haproxy_stats db run_id start_time (Some "")
    = get_haproxy_stats db run_id start_time None.
Proof.
  intros _ _ _.
  assert (get_haproxy_stats db run_id start_time end_time
          ≡ₚ filter (λ d, in_range start_time end_time d = true)
                    (get_haproxy_stats db run_id None None)) as Hperm.
  { unfold get_haproxy_stats. rewrite filter_fmap_dict_of_row.
    apply fmap_Permutation. rewrite !stable_sort_Permutation.
    rewrite list_filter_filter.
    erewrite list_filter_iff; [reflexivity|].
    intros r. simpl. rewrite where_clause_split. tauto. }
  split; [exact Hperm|]. split; [|split; [|split]].
  - unfold get_haproxy_stats.
    apply (StronglySorted_fmap _ (λ a b, timestamp_le a b = true)).
    { intros a b Hab. by rewrite !timestamp_of_dict_of_row. }
    apply Sorted_StronglySorted.
    { intros a b c. apply timestamp_le_trans. }
    apply Sorted_stable_sort, timestamp_le_total.
  - intros d t Hd. rewrite Hperm in Hd.
    apply list_elem_of_filter in Hd as [Hr _].
    unfold in_range in Hr. apply andb_true_iff in Hr as [Hs He].
    split; intros -> Ht.
    + destruct t; [done|]. exact Hs.
    + destruct t; [done|]. exact He.
  - reflexivity.
  - reflexivity.
Qed.
End TimeRange.

Lemma get_haproxy_stats_time_range_witness :
  Storage.get_haproxy_stats
    (Storage.apply_calls Py.int_of_digits (λ _, "{}")
       Storage.empty_database Storage.example_calls)
    1 (Some "2024-05-01T10:00:01") None
  ≡ₚ filter (λ d, Rows.in_range (Some "2024-05-01T10:00:01") None d = true)
            (Storage.get_haproxy_stats
               (Storage.apply_calls Py.int_of_digits (λ _, "{}")
                  Storage.empty_database Storage.example_calls)
               1 None None).
Proof.
  refine (proj1 (get_haproxy_stats_time_range
                   (Storage.apply_calls Py.int_of_digits (λ _, "{}")
                      Storage.empty_database Storage.example_calls)
                   1 (Some "2024-05-01T10:00:01") None _ _ _)).
  - repeat constructor.
  - intros t [= <-]. right. reflexivity.
  - intros t H. discriminate H.
Defined.

(** ** store_haproxy_stats: what a call adds and what it leaves *)

Section StoreAppends.
Import Py Storage Rows.
Variable int_of_str : string → option Z.
Variable json_dumps : dict → string.

Lemma store_haproxy_stats_new_rows db ts run a l stats :
  Storage.store_haproxy_stats int_of_str json_dumps db ts run a l stats
  = {| haproxy_seq := haproxy_seq db + Z.of_nat (length stats);
       haproxy_stats :=
         haproxy_stats db
         ++ new_rows int_of_str json_dumps (haproxy_seq db) ts run a l stats |}.
Proof.
  unfold Storage.store_haproxy_stats. revert db.
  induction stats as [|stat stats IH]; intros db; cbn [foldl new_rows length].
  - destruct db. cbn. by rewrite Z.add_0_r, app_nil_r.
  - rewrite IH. unfold Storage.insert_row. cbn [haproxy_seq haproxy_stats].
    rewrite <- app_assoc. f_equal. lia.
Qed.

Lemma new_rows_ids sq ts run a l stats :
  row_id <$> new_rows int_of_str json_dumps sq ts run a l stats
  = (λ i : nat, sq + 1 + Z.of_nat i) <$> seq 0%nat (length stats).
Proof.
  revert sq. induction stats as [|stat stats IH]; intros sq; [done|].
  cbn [new_rows length]. rewrite fmap_cons, IH. cbn [row_id seq fmap list_fmap].
  rewrite Z.add_0_r. f_equal.
  rewrite <- (fmap_S_seq 0), <- list_fmap_compose.
  apply list_fmap_ext. intros _ i _. simpl. lia.
Qed.

Lemma new_rows_values seq ts run a l stats :
  row_values <$> new_rows int_of_str json_dumps seq ts run a l stats
  = Storage.insert_values int_of_str json_dumps a l <$> stats.
Proof.
  revert seq. induction stats as [|stat stats IH]; intros sq; [done|].
  cbn [new_rows]. by rewrite !fmap_cons, IH.
Qed.

Lemma new_rows_keys seq ts run a l stats :
  Forall (λ r, row_run_id r = run ∧ row_timestamp r = ts)
         (new_rows int_of_str json_dumps seq ts run a l stats).
Proof.
  revert seq. induction stats as [|stat stats IH]; intros sq; [constructor|].
  cbn [new_rows]. constructor; [done|apply IH].
Qed.

(** X12.  One call of [store_haproxy_stats] leaves the rows of the
    table as they are and adds one row per stat after them, in the
    order of [stats]: the new ids are the next [len(stats)] integers
    after the sequence, which moves on by [len(stats)]; every new row
    carries the [run_id] of the call and the single timestamp taken at
    its start, and the columns computed from its stat. *)
Theorem store_haproxy_stats_appends (db : database) (utcnow : string)
    (run_id : Z) (amphora_id lb_id : pyval) (stats : list dict) :
  ∃ new,
    haproxy_stats
      (Storage.store_haproxy_stats int_of_str json_dumps db utcnow run_id
         amphora_id lb_id stats)
    = haproxy_stats db ++ new
    ∧ haproxy_seq
        (Storage.store_haproxy_stats int_of_str json_dumps db utcnow run_id
           amphora_id lb_id stats)
      = haproxy_seq db + Z.of_nat (length stats)
    ∧ row_id <$> new
      = (λ i : nat, haproxy_seq db + 1 + Z.of_nat i) <$> seq 0%nat (length stats)
    ∧ row_values <$> new
      = Storage.insert_values int_of_str json_dumps amphora_id lb_id <$> stats
    ∧ Forall (λ r, row_run_id r = run_id ∧ row_timestamp r = utcnow) new.
Proof.
  exists (new_rows int_of_str json_dumps (haproxy_seq db) utcnow run_id
            amphora_id lb_id stats).
  rewrite store_haproxy_stats_new_rows. cbn [haproxy_stats haproxy_seq].
  split; [done|]. split; [done|].
  split; [apply new_rows_ids|].
  split; [apply new_rows_values|apply new_rows_keys].
Qed.

Lemma filter_where_other_run run_id st et seq ts run a l stats :
  run ≠ run_id →
  filter (λ r, where_clause run_id st et r = true)
         (new_rows int_of_str json_dumps seq ts run a l stats) = [].
Proof.
  intros Hne. pose proof (new_rows_keys seq ts run a l stats) as Hk.
  induction Hk as [|r rows [Hr _] _ IH]; [done|].
  rewrite filter_cons, decide_False; [exact IH|].
  unfold where_clause. rewrite <- Hr in Hne.
  apply Z.eqb_neq in Hne. rewrite Hne. done.
Qed.

(** X13.  Runs do not see each other, and nothing read once is lost:
    a [store_haproxy_stats] call for another run leaves the answer of
    [get_haproxy_stats] for this run, with any time bounds, exactly as
    it was; a call for any run keeps every record that the query
    returned before the call (each at least as often). *)
Theorem store_keeps_other_runs (db : database) (utcnow : string)
    (run run_id : Z) (amphora_id lb_id : pyval) (stats : list dict)
    (start_time end_time : option string) :
  run ≠ run_id →
  get_haproxy_stats
    (Storage.store_haproxy_stats int_of_str json_dumps db utcnow run
       amphora_id lb_id stats)
    run_id start_time end_time
  = get_haproxy_stats db run_id start_time end_time
  ∧ get_haproxy_stats db run start_time end_time
    ⊆+ get_haproxy_stats
         (Storage.store_haproxy_stats int_of_str json_dumps db utcnow run
            amphora_id lb_id stats)
         run start_time end_time.
Proof.
  intros Hne. rewrite store_haproxy_stats_new_rows.
  unfold get_haproxy_stats. cbn [haproxy_stats]. rewrite !filter_app. split.
  - by rewrite filter_where_other_run, app_nil_r.
  - apply fmap_submseteq. rewrite !stable_sort_Permutation.
    apply submseteq_inserts_r. reflexivity.
Qed.
End StoreAppends.

Lemma store_haproxy_stats_appends_witness :
  Storage.haproxy_seq
    (Storage.store_haproxy_stats Py.int_of_digits (λ _, "{}")
       Storage.empty_database "2024-05-01T10:00:00" 2 Py.PNone Py.PNone
       [∅; ∅])
  = 2.
Proof.
  destruct (store_haproxy_stats_appends Py.int_of_digits (λ _, "{}")
              Storage.empty_database "2024-05-01T10:00:00" 2 Py.PNone Py.PNone
              [∅; ∅]) as (new & _ & Hseq & _).
  exact Hseq.
Defined.

Lemma store_keeps_other_runs_witness :
  Storage.get_haproxy_stats
    (Storage.store_haproxy_stats Py.int_of_digits (λ _, "{}")
       Storage.empty_database "2024-05-01T10:00:00" 2 Py.PNone Py.PNone
       [∅; ∅])
    1 None None
  = Storage.get_haproxy_stats Storage.empty_database 1 None None.
Proof.
  apply (store_keeps_other_runs Py.int_of_digits (λ _, "{}")
           Storage.empty_database "2024-05-01T10:00:00" 2 1 Py.PNone Py.PNone
           [∅; ∅] None None).
  lia.
Defined.

(** ** aggregate_haproxy_stats: rates between two calls, and the counts *)

Section AggregateCalls.
Import Py Aggregator.
Variable int_of_str : string → option Z.

Abbreviation frontends stats := (filter (λ s, svname_is "FRONTEND" s = true) stats).
Abbreviation backends stats := (filter (λ s, svname_is "BACKEND" s = true) stats).
Abbreviation servers stats :=
  (filter (λ s, (svname_is "FRONTEND" s || svname_is "BACKEND" s) = false) stats).

Lemma aggregate_haproxy_stats_shape self now utcnow stats self' res :
  aggregate_haproxy_stats int_of_str self now utcnow stats = Some (self', res) →
  self' = {| _prev_haproxy_stats := Some (counters res);
             _prev_timestamp := Some now |}
  ∧ timestamp res = utcnow
  ∧ sum_field int_of_str "req_tot" (frontends stats)
    = counters res !! "req_tot"
  ∧ sum_field int_of_str "bin" (frontends stats) = counters res !! "bin"
  ∧ sum_field int_of_str "bout" (frontends stats) = counters res !! "bout"
  ∧ sum_field int_of_str "qcur" (backends stats) = counters res !! "qcur"
  ∧ dom (counters res)
    = list_to_set ["scur"; "slim"; "stot"; "bin"; "bout"; "req_tot"; "ereq";
                   "dreq"; "hrsp_2xx"; "hrsp_4xx"; "hrsp_5xx"; "qcur"]
  ∧ rates res
    = (if dict_truthy (_prev_haproxy_stats self)
          && float_truthy (_prev_timestamp self)
       then
         match _prev_haproxy_stats self, _prev_timestamp self with
         | Some prev, Some prev_ts =>
             calculate_rates (counters res) prev (now - prev_ts)%Qc
         | _, _ => ∅
         end
       else ∅)
  ∧ requests_per_sec (derived res) = rate_or_zero (rates res) "req_tot_per_sec"
  ∧ throughput_in_bps (derived res) = rate_or_zero (rates res) "bin_per_sec"
  ∧ throughput_out_bps (derived res) = rate_or_zero (rates res) "bout_per_sec"
  ∧ healthy_servers (derived res)
    = Z.of_nat (length (filter (λ s, status_is "UP" s = true) (servers stats)))
  ∧ total_servers (derived res) = Z.of_nat (length (servers stats))
  ∧ frontend_count (summary res) = Z.of_nat (length (frontends stats))
  ∧ backend_count (summary res) = Z.of_nat (length (backends stats))
  ∧ server_count (summary res) = Z.of_nat (length (servers stats)).
Proof.
  unfold aggregate_haproxy_stats. intros H.
  destruct (sum_field _ "scur" _) as [scur|]; [|discriminate H].
  destruct (sum_field _ "slim" _) as [slim|]; [|discriminate H].
  destruct (sum_field _ "stot" _) as [stot|]; [|discriminate H].
  destruct (sum_field _ "bin" _) as [bin|]; [|discriminate H].
  destruct (sum_field _ "bout" _) as [bout|]; [|discriminate H].
  destruct (sum_field _ "req_tot" _) as [req_tot|]; [|discriminate H].
  destruct (sum_field _ "ereq" _) as [ereq|]; [|discriminate H].
  destruct (sum_field _ "dreq" _) as [dreq|]; [|discriminate H].
  destruct (sum_field _ "hrsp_2xx" _) as [h2|]; [|discriminate H].
  destruct (sum_field _ "hrsp_4xx" _) as [h4|]; [|discriminate H].
  destruct (sum_field _ "hrsp_5xx" _) as [h5|]; [|discriminate H].
  destruct (sum_field _ "qcur" _) as [qcur|]; [|discriminate H].
  cbn [mbind option_bind] in H.
  apply (inj Some) in H. apply pair_equal_spec in H as [<- <-].
  cbn [counters rates derived summary timestamp requests_per_sec
       throughput_in_bps throughput_out_bps healthy_servers total_servers
       frontend_count backend_count server_count].
  split; [reflexivity|]. split; [reflexivity|].
  split; [reflexivity|]. split; [reflexivity|].
  split; [reflexivity|]. split; [reflexivity|].
  split.
  { rewrite dom_list_to_map_L. reflexivity. }
  repeat split; reflexivity.
Qed.

Lemma counters_nonempty self now utcnow stats self' res :
  aggregate_haproxy_stats int_of_str self now utcnow stats = Some (self', res) →
  dict_truthy (Some (counters res)) = true.
Proof.
  intros H. apply aggregate_haproxy_stats_shape in H
    as (_ & _ & _ & _ & _ & _ & Hdom & _).
  unfold dict_truthy. rewrite bool_decide_eq_false_2; [done|].
  intros He. rewrite He, dom_empty_L in Hdom.
  assert ("scur" ∈ (∅ : gset string)) as Hin; [|set_solver].
  rewrite Hdom. set_solver.
Qed.

Lemma rate_or_zero_calculate_rates current previous interval key c p :
  (0 < interval)%Qc →
  current !! key = Some c → previous !! key = Some p →
  rate_or_zero (calculate_rates current previous interval) (rate_key key)
  = if bool_decide (p ≤ c) then PFloat (of_Z (c - p) / interval)%Qc
    else PInt 0.
Proof.
  intros Hpos Hc Hp. unfold rate_or_zero.
  rewrite calculate_rates_lookup by done. rewrite Hc. simpl.
  unfold rate_of. rewrite Hp. simpl.
  destruct (bool_decide (p ≤ c)) eqn:Hd.
  - apply bool_decide_eq_true in Hd. rewrite bool_decide_eq_true_2; [done|lia].
  - apply bool_decide_eq_false in Hd. rewrite bool_decide_eq_false_2; [done|lia].
Qed.

Lemma calculate_rates_nonpositive current previous interval :
  (interval ≤ 0)%Qc → calculate_rates current previous interval = ∅.
Proof. intros H. unfold calculate_rates. by rewrite bool_decide_eq_true_2. Qed.

Lemma Qc_sub_pos (a b : Qc) : (a < b)%Qc → (0 < b - a)%Qc.
Proof. intros H. by apply Qclt_minus_iff in H. Qed.

Lemma Qc_sub_nonpos (a b : Qc) : (b ≤ a)%Qc → (b - a ≤ 0)%Qc.
Proof.
  intros H. apply Qcle_minus_iff. apply Qcle_minus_iff in H.
  replace (0 + - (b - a))%Qc with (a + - b)%Qc by ring. exact H.
Qed.

(** X14.  Successive calls of [aggregate_haproxy_stats] on one
    aggregator.  A call leaves its counters and its clock reading in the
    object.  The next call, when the remembered clock reading is not 0,
    computes its rates with [calculate_rates] from its own counters,
    the remembered ones and the time between the two calls; then, with
    time moving forward, [requests_per_sec], [throughput_in_bps] and
    [throughput_out_bps] are the growth of the summed FRONTEND
    [req_tot], [bin] and [bout] divided by the seconds between the calls,
    and the integer 0 for a counter that went down.  When the clock did
    not move forward, or the remembered reading is 0, there are no rates
    and the three figures are the integer 0. *)
Theorem rates_between_calls (self : aggregator) (now1 now2 : Qc)
    (utcnow1 utcnow2 : string) (stats1 stats2 : list dict)
    (self1 self2 : aggregator) (res1 res2 : haproxy_aggregate) :
  aggregate_haproxy_stats int_of_str self now1 utcnow1 stats1
  = Some (self1, res1) →
  aggregate_haproxy_stats int_of_str self1 now2 utcnow2 stats2
  = Some (self2, res2) →
  self1 = {| _prev_haproxy_stats := Some (counters res1);
             _prev_timestamp := Some now1 |}
  ∧ (now1 ≠ 0%Qc →
     rates res2
     = calculate_rates (counters res2) (counters res1) (now2 - now1)%Qc)
  ∧ (now1 ≠ 0%Qc → (now1 < now2)%Qc →
     (∀ c1 c2,
        sum_field int_of_str "req_tot" (frontends stats1) = Some c1 →
        sum_field int_of_str "req_tot" (frontends stats2) = Some c2 →
        requests_per_sec (derived res2)
        = if bool_decide (c1 ≤ c2)
          then PFloat (of_Z (c2 - c1) / (now2 - now1))%Qc else PInt 0)
     ∧ (∀ c1 c2,
          sum_field int_of_str "bin" (frontends stats1) = Some c1 →
          sum_field int_of_str "bin" (frontends stats2) = Some c2 →
          throughput_in_bps (derived res2)
          = if bool_decide (c1 ≤ c2)
            then PFloat (of_Z (c2 - c1) / (now2 - now1))%Qc else PInt 0)
     ∧ (∀ c1 c2,
          sum_field int_of_str "bout" (frontends stats1) = Some c1 →
          sum_field int_of_str "bout" (frontends stats2) = Some c2 →
          throughput_out_bps (derived res2)
          = if bool_decide (c1 ≤ c2)
            then PFloat (of_Z (c2 - c1) / (now2 - now1))%Qc else PInt 0))
  ∧ ((now2 ≤ now1)%Qc ∨ now1 = 0%Qc →
     rates res2 = ∅
     ∧ requests_per_sec (derived res2) = PInt 0
     ∧ throughput_in_bps (derived res2) = PInt 0
     ∧ throughput_out_bps (derived res2) = PInt 0).
Proof.
  intros H1 H2.
  pose proof (counters_nonempty _ _ _ _ _ _ H1) as Hne.
  apply aggregate_haproxy_stats_shape in H1
    as (Hself & _ & Hq1 & Hi1 & Ho1 & _).
  apply aggregate_haproxy_stats_shape in H2
    as (_ & _ & Hq2 & Hi2 & Ho2 & _ & _ & Hr & Hrps & Hin & Hout & _).
  rewrite Hself in Hr. cbn [_prev_haproxy_stats _prev_timestamp] in Hr.
  rewrite Hne in Hr. cbn [andb float_truthy] in Hr.
  split; [exact Hself|]. split; [|split].
  - intros Hnz. rewrite Hr. by rewrite bool_decide_eq_false_2.
  - intros Hnz Hlt. rewrite bool_decide_eq_false_2 in Hr by done.
    cbn [negb] in Hr. rewrite Hrps, Hin, Hout, Hr.
    pose proof (Qc_sub_pos _ _ Hlt) as Hpos.
    split; [|split]; intros c1 c2 E1 E2.
    + rewrite Hq1 in E1. rewrite Hq2 in E2.
      by apply (rate_or_zero_calculate_rates _ _ _ "req_tot").
    + rewrite Hi1 in E1. rewrite Hi2 in E2.
      by apply (rate_or_zero_calculate_rates _ _ _ "bin").
    + rewrite Ho1 in E1. rewrite Ho2 in E2.
      by apply (rate_or_zero_calculate_rates _ _ _ "bout").
  - intros Hcase.
    assert (rates res2 = ∅) as He.
    { rewrite Hr. destruct Hcase as [Hle| ->].
      - destruct (negb _); [|done].
        by apply calculate_rates_nonpositive, Qc_sub_nonpos.
      - by rewrite bool_decide_eq_true_2. }
    rewrite Hrps, Hin, Hout, He. repeat split; reflexivity.
Qed.

Lemma filter_partition_length (P Q : dict → bool) (l : list dict) :
  (∀ x, P x = true → Q x = true → False) →
  (length (filter (λ s, P s = true) l) + length (filter (λ s, Q s = true) l)
   + length (filter (λ s, (P s || Q s) = false) l))%nat
  = length l.
Proof.
  intros Hex. induction l as [|x l IH]; [done|].
  rewrite !filter_cons.
  destruct (P x) eqn:HP; destruct (Q x) eqn:HQ.
  - by destruct (Hex x).
  - rewrite decide_True, decide_False, decide_False by done.
    cbn [length orb]. lia.
  - rewrite decide_False, decide_True, decide_False by done.
    cbn [length orb]. lia.
  - rewrite decide_False, decide_False, decide_True by done.
    cbn [length orb]. lia.
Qed.

Lemma svname_exclusive s :
  svname_is "FRONTEND" s = true → svname_is "BACKEND" s = true → False.
Proof.
  unfold svname_is. destruct (s !! "svname") as [[| | |n]|]; try done.
  intros H1%String.eqb_eq. by rewrite H1.
Qed.

(** X15.  The counts of a call that returns.  Every row is counted in
    exactly one of [frontend_count], [backend_count] and [server_count]
    (a row without [svname], or with one that is not a string, is a
    server), so the three add up to [len(stats)]; [total_servers] is
    [server_count]; [healthy_servers] lies between 0 and [total_servers];
    and a fresh aggregator reports no rates and the integer 0 for
    [requests_per_sec] and the two throughputs. *)
Theorem aggregate_counts (self : aggregator) (now : Qc) (utcnow : string)
    (stats : list dict) (self' : aggregator) (res : haproxy_aggregate) :
  aggregate_haproxy_stats int_of_str self now utcnow stats = Some (self', res) →
  frontend_count (summary res) + backend_count (summary res)
  + server_count (summary res) = Z.of_nat (length stats)
  ∧ total_servers (derived res) = server_count (summary res)
  ∧ 0 ≤ healthy_servers (derived res) ≤ total_servers (derived res)
  ∧ (∀ s, s ∈ stats →
          s !! "svname" = None ∨ (∀ n, s !! "svname" ≠ Some (PStr n)) →
          (svname_is "FRONTEND" s || svname_is "BACKEND" s) = false)
  ∧ (self = init →
     rates res = ∅
     ∧ requests_per_sec (derived res) = PInt 0
     ∧ throughput_in_bps (derived res) = PInt 0
     ∧ throughput_out_bps (derived res) = PInt 0).
Proof.
  intros H. apply aggregate_haproxy_stats_shape in H
    as (_ & _ & _ & _ & _ & _ & _ & Hr & Hrps & Hin & Hout
        & Hh & Ht & Hf & Hb & Hs).
  rewrite Hf, Hb, Hs, Ht, Hh. split; [|split; [done|split; [|split]]].
  - rewrite <- !Nat2Z.inj_add. f_equal.
    apply filter_partition_length. apply svname_exclusive.
  - split; [lia|]. apply inj_le, length_filter.
  - intros s _ [Hn|Hn]; unfold svname_is.
    + by rewrite Hn.
    + destruct (s !! "svname") as [[| | |n]|]; try done. by destruct (Hn n).
  - intros ->. rewrite Hrps, Hin, Hout, Hr. repeat split; reflexivity.
Qed.
End AggregateCalls.

Lemma rates_between_calls_witness :
  match
    Aggregator.aggregate_haproxy_stats Py.int_of_digits Aggregator.init
      (Py.of_Z 5) "2024-01-01T00:00:05"
      [list_to_map [("svname", Py.PStr "FRONTEND"); ("req_tot", Py.PStr "100")]]
  with
  | Some (self1, _) =>
      match
        Aggregator.aggregate_haproxy_stats Py.int_of_digits self1
          (Py.of_Z 7) "2024-01-01T00:00:07"
          [list_to_map [("svname", Py.PStr "FRONTEND");
                        ("req_tot", Py.PStr "140")]]
      with
      | Some (_, res2) =>
          Aggregator.requests_per_sec (Aggregator.derived res2)
          = Py.PFloat (Py.of_Z (140 - 100) / (Py.of_Z 7 - Py.of_Z 5))%Qc
      | None => False
      end
  | None => False
  end.
Proof.
  destruct (Aggregator.aggregate_haproxy_stats _ Aggregator.init _ _ _)
    as [[self1 res1]|] eqn:H1; [|vm_compute in H1; discriminate H1].
  destruct (Aggregator.aggregate_haproxy_stats _ self1 _ _ _)
    as [[self2 res2]|] eqn:H2.
  2:{ pose proof (aggregate_haproxy_stats_ratios_indep Py.int_of_digits
                    self1 (Py.of_Z 7) "2024-01-01T00:00:07"
                    Aggregator.init (Py.of_Z 7) "2024-01-01T00:00:07"
                    [list_to_map [("svname", Py.PStr "FRONTEND");
                                  ("req_tot", Py.PStr "140")]]) as Hi.
      rewrite H2 in Hi. vm_compute in Hi. discriminate Hi. }
  destruct (rates_between_calls _ _ _ _ _ _ _ _ _ _ _ _ H1 H2)
    as (_ & _ & Hr & _).
  destruct Hr as (Hrps & _).
  - intros H0. apply (f_equal this) in H0. vm_compute in H0. discriminate H0.
  - apply (proj1 (Z2Qc_inj_lt 5 7)). lia.
  - etransitivity; [apply (Hrps 100 140); vm_compute; reflexivity|].
    reflexivity.
Defined.

Lemma aggregate_counts_witness :
  match
    Aggregator.aggregate_haproxy_stats Py.int_of_digits Aggregator.init
      (Py.of_Z 5) "2024-01-01T00:00:05"
      [list_to_map [("svname", Py.PStr "FRONTEND"); ("req_tot", Py.PStr "100")];
       list_to_map [("svname", Py.PStr "BACKEND"); ("qcur", Py.PStr "2")];
       list_to_map [("svname", Py.PStr "member-1"); ("status", Py.PStr "UP")];
       list_to_map [("status", Py.PStr "DOWN")]]
  with
  | Some (_, res) =>
      Aggregator.frontend_count (Aggregator.summary res)
      + Aggregator.backend_count (Aggregator.summary res)
      + Aggregator.server_count (Aggregator.summary res) = 4
      ∧ Aggregator.requests_per_sec (Aggregator.derived res) = Py.PInt 0
  | None => False
  end.
Proof.
  destruct (Aggregator.aggregate_haproxy_stats _ _ _ _ _)
    as [[self' res]|] eqn:H; [|vm_compute in H; discriminate H].
  destruct (aggregate_counts _ _ _ _ _ _ _ H) as (Hc & _ & _ & _ & Hi).
  split; [exact Hc|]. by destruct (Hi eq_refl) as (_ & ? & _).
Defined.

(** ** The collection loop: how it ends, and how it paces itself *)

Section LoopEnds.
Import Py Scheduler.
Context {data : Type}.
Implicit Types (t : tick data) (script : list (tick data)).

Lemma iteration_escapes name interval t message :
  collect t = Raises (BaseExceptionOnly message)
  ∨ (∃ d, collect t = Returns d
          ∧ store_func t d = Raises (BaseExceptionOnly message)) →
  iteration name interval t = ([], Some (BaseExceptionOnly message)).
Proof.
  unfold iteration. intros [Hc|(d & Hc & Hs)]; rewrite Hc; [done|].
  by rewrite Hs.
Qed.

(** X16.  How the loop ends.  Once the stop event is seen at the loop
    test, the loop returns: the iteration and whatever would follow
    collect, store, log and wait nothing.  An exception that is not an
    [Exception] ([KeyboardInterrupt], [SystemExit]) raised by
    [collect()] or by the store callback leaves the loop at once:
    nothing is stored or logged for the iteration, there is no wait, and
    no later iteration runs. *)
Theorem loop_ends (name : string) (interval : Qc)
    (pre : list (tick data)) (t : tick data) (script : list (tick data)) :
  Forall (λ u, stop_is_set u = false ∧ snd (iteration name interval u) = None)
         pre →
  (stop_is_set t = true →
   _collection_loop name interval (pre ++ t :: script)
   = (fst (_collection_loop name interval pre), Stopped))
  ∧ (∀ message,
       stop_is_set t = false →
       collect t = Raises (BaseExceptionOnly message)
       ∨ (∃ d, collect t = Returns d
               ∧ store_func t d = Raises (BaseExceptionOnly message)) →
       _collection_loop name interval (pre ++ t :: script)
       = (fst (_collection_loop name interval pre),
          Escaped (BaseExceptionOnly message))).
Proof.
  intros Hpre. rewrite (_collection_loop_app _ _ _ _ Hpre). split.
  - intros Hs. cbn [_collection_loop]. rewrite Hs. cbn [fst snd].
    by rewrite app_nil_r.
  - intros message Hs Hraise. cbn [_collection_loop]. rewrite Hs.
    rewrite (iteration_escapes _ _ _ _ Hraise). cbn [fst snd].
    by rewrite app_nil_r.
Qed.

Lemma max0_bounds (interval elapsed : Qc) :
  (0 ≤ interval → 0 ≤ elapsed →
   0 ≤ max0 (interval - elapsed) ∧ max0 (interval - elapsed) ≤ interval)%Qc.
Proof.
  intros Hi He. unfold max0, Qc_leb. case_bool_decide as Hd.
  - split; [apply Qcle_refl|done].
  - split.
    + apply Qclt_le_weak, Qcnot_le_lt, Hd.
    + apply Qcle_minus_iff.
      by replace (interval + - (interval - elapsed))%Qc with elapsed by ring.
Qed.

Lemma iteration_paced name interval t :
  (0 ≤ interval)%Qc → (start_time t ≤ end_time t)%Qc →
  fst (iteration name interval t) = []
  ∨ ∃ e w, fst (iteration name interval t) = [e; Waited w]
           ∧ ((∃ d, e = Stored d) ∨ (∃ m, e = Logged m))
           ∧ (0 ≤ w ∧ w ≤ interval)%Qc
           ∧ snd (iteration name interval t) = None.
Proof.
  intros Hi Ht. unfold iteration, handle.
  assert (0 ≤ end_time t - start_time t)%Qc as He.
  { apply Qcle_minus_iff in Ht. exact Ht. }
  destruct (collect t) as [d|[m|m]].
  - destruct (store_func t d) as [[]|[m|m]].
    + right. eexists _, _. split; [reflexivity|].
      split; [left; by eexists|]. split; [by apply max0_bounds|done].
    + right. eexists _, _. split; [reflexivity|].
      split; [right; by eexists|]. split; [|done].
      split; [done|apply Qcle_refl].
    + by left.
  - right. eexists _, _. split; [reflexivity|].
    split; [right; by eexists|]. split; [|done].
    split; [done|apply Qcle_refl].
  - by left.
Qed.

Lemma iteration_no_events_escapes name interval t :
  fst (iteration name interval t) = [] →
  ∃ e, snd (iteration name interval t) = Some e.
Proof.
  unfold iteration, handle.
  destruct (collect t) as [d|[m|m]]; [|done|by eexists].
  destruct (store_func t d) as [[]|[m|m]]; [done|done|by eexists].
Qed.

(** X17.  The pace of the loop, for an interval that is not negative
    and a clock that does not run backwards within an iteration.
    Whatever the collector and the callback do, the events of a run are
    a sequence of pairs: a sample stored or an error logged, then one
    wait; so the loop never starts a second collection without having
    waited.  Every wait lasts between 0 and [interval] seconds.  There is
    at most one pair per iteration, and exactly one per iteration when
    the run neither sees the stop event nor is left by an exception. *)
Theorem loop_is_paced (name : string) (interval : Qc)
    (script : list (tick data)) :
  (0 ≤ interval)%Qc →
  Forall (λ t, (start_time t ≤ end_time t)%Qc) script →
  ∃ pairs : list (event data * Qc),
    fst (_collection_loop name interval script)
    = pairs ≫= (λ p, [p.1; Waited p.2])
    ∧ Forall (λ p, (∃ d, p.1 = Stored d) ∨ (∃ m, p.1 = Logged m)) pairs
    ∧ Forall (λ p, (0 ≤ p.2 ∧ p.2 ≤ interval)%Qc) pairs
    ∧ (length pairs ≤ length script)%nat
    ∧ (snd (_collection_loop name interval script) = StillRunning →
       length pairs = length script).
Proof.
  intros Hi. induction 1 as [|t script Ht _ IH].
  - exists []. cbn [_collection_loop fst snd]. split; [done|].
    split; [constructor|]. split; [constructor|]. split; [done|done].
  - destruct IH as (pairs & Hev & Hk & Hw & Hlen & Hrun).
    cbn [_collection_loop]. destruct (stop_is_set t).
    { exists []. cbn [fst snd]. split; [done|].
      split; [constructor|]. split; [constructor|].
      cbn [length]. split; [lia|done]. }
    destruct (iteration_paced name interval t Hi Ht)
      as [Hnil|(e & w & Hit & Hkind & Hwait & Hnone)].
    + destruct (iteration_no_events_escapes _ _ _ Hnil) as [x Hx].
      destruct (iteration name interval t) as [events o].
      cbn [fst snd] in Hnil, Hx. subst events o.
      exists []. cbn [fst snd]. split; [done|].
      split; [constructor|]. split; [constructor|].
      cbn [length]. split; [lia|done].
    + destruct (iteration name interval t) as [events o].
      cbn [fst snd] in Hit, Hnone. subst events o.
      destruct (_collection_loop name interval script) as [events' fin].
      cbn [fst snd] in *.
      exists ((e, w) :: pairs). rewrite bind_cons. cbn [fst snd].
      split; [by rewrite Hev|].
      split; [by constructor|]. split; [by constructor|].
      cbn [length]. split; [lia|]. intros Hf. by rewrite Hrun.
Qed.
End LoopEnds.

Lemma loop_ends_witness :
  Scheduler._collection_loop "haproxy" (Py.of_Z 10)
    ([Scheduler.storing_tick]
       ++ {| Scheduler.stop_is_set := true;
             Scheduler.start_time := Py.of_Z 0;
             Scheduler.collect := Scheduler.Returns "sample";
             Scheduler.store_func := λ _, Scheduler.Returns tt;
             Scheduler.end_time := Py.of_Z 3 |}
       :: [Scheduler.failing_tick])
  = (fst (Scheduler._collection_loop "haproxy" (Py.of_Z 10)
            [Scheduler.storing_tick]),
     Scheduler.Stopped).
Proof.
  apply (loop_ends "haproxy" (Py.of_Z 10) [Scheduler.storing_tick]).
  - repeat constructor.
  - reflexivity.
Defined.

Lemma loop_is_paced_witness :
  ∃ pairs : list (Scheduler.event string * Qc),
    fst (Scheduler._collection_loop "haproxy" (Py.of_Z 10)
           [Scheduler.storing_tick; Scheduler.failing_tick])
    = pairs ≫= (λ p, [p.1; Scheduler.Waited p.2])
    ∧ length pairs = 2%nat.
Proof.
  destruct (loop_is_paced "haproxy" (Py.of_Z 10)
              [Scheduler.storing_tick; Scheduler.failing_tick])
    as (pairs & Hev & _ & _ & _ & Hrun).
  - by vm_compute.
  - repeat constructor; by vm_compute.
  - exists pairs. split; [exact Hev|]. apply Hrun. reflexivity.
Defined.

(** ** aggregate_system_metrics: the groups and their averages *)

Section SystemAverages.
Import Py SystemAggregate.

Lemma prefix_app_l (s1 s2 s : string) :
  String.prefix (s1 +:+ s2) s = true → String.prefix s1 s = true.
Proof.
  revert s. induction s1 as [|a s1 IH]; intros s.
  - by destruct s.
  - change (String a s1 +:+ s2) with (String a (s1 +:+ s2)).
    destruct s as [|b s]; cbn [String.prefix]; [done|].
    destruct (ascii_dec a b); [apply IH|done].
Qed.

Lemma prefix_amphora_amp s :
  String.prefix "amphora" s = true → String.prefix "amp" s = true.
Proof. apply (prefix_app_l "amp" "hora"). Qed.

Lemma contains_amphora_amp s :
  contains "amphora" s = true → contains "amp" s = true.
Proof.
  induction s as [|c s IH]; [done|].
  cbn [contains]. rewrite !orb_true_iff. intros [H|H].
  - left. by apply prefix_amphora_amp.
  - right. by apply IH.
Qed.

Lemma is_amphora_amp k : is_amphora k = contains "amp" (lower k).
Proof.
  unfold is_amphora. destruct (contains "amphora" (lower k)) eqn:H; [|done].
  by rewrite (contains_amphora_amp _ H).
Qed.

Lemma as_num_add a b x y :
  as_num a = Some x → as_num b = Some y →
  ∃ s, add a b = Some s ∧ as_num s = Some (x + y)%Qc.
Proof.
  intros Ha Hb. unfold add.
  destruct a as [|m|p|]; try discriminate Ha;
    destruct b as [|n|q|]; try discriminate Hb;
    simpl in *; simplify_eq; eexists; (split; [reflexivity|]); simpl;
    try done.
  unfold of_Z. by rewrite Z2Qc_inj_add.
Qed.

Lemma sum_from_numeric acc a vs xs :
  as_num acc = Some a →
  Forall2 (λ v x, as_num v = Some x) vs xs →
  ∃ s, foldl (λ acc v, a ← acc; add a v) (Some acc) vs = Some s
       ∧ as_num s = Some (a + total xs)%Qc.
Proof.
  intros Ha H. revert acc a Ha.
  induction H as [|v x vs xs Hv _ IH]; intros acc a Ha.
  - exists acc. split; [done|]. rewrite Ha. f_equal. cbn. ring.
  - cbn [foldl]. simpl.
    destruct (as_num_add _ _ _ _ Ha Hv) as (s & -> & Hs).
    destruct (IH _ _ Hs) as (s' & -> & Hs').
    exists s'. split; [done|]. rewrite Hs'. f_equal. cbn [total foldr]. ring.
Qed.

Lemma of_nat_pos (n : nat) : (0 < n)%nat → (0 < of_Z (Z.of_nat n))%Qc.
Proof.
  intros H. unfold of_Z. rewrite <- Z2Qc_inj_0.
  apply (proj1 (Z2Qc_inj_lt 0 (Z.of_nat n))). lia.
Qed.

Lemma average_numeric vs xs :
  vs ≠ [] →
  Forall2 (λ v x, as_num v = Some x) vs xs →
  average vs = Some (PFloat (total xs / of_Z (Z.of_nat (length xs)))%Qc).
Proof.
  intros Hne H.
  destruct (sum_from_numeric (PInt 0) (of_Z 0) _ _ eq_refl H) as (s & Hs & Hn).
  pose proof (Forall2_length _ _ _ H) as Hlen.
  assert (0 < length xs)%nat as Hpos.
  { rewrite <- Hlen. destruct vs; [done|cbn; lia]. }
  assert (average vs
          = (s ← sum vs;
             q ← truediv s (PInt (Z.of_nat (length vs)));
             Some (PFloat q))) as -> by (by destruct vs).
  unfold sum. rewrite Hs. cbn [mbind option_bind]. rewrite Hlen.
  rewrite (truediv_num s (PInt (Z.of_nat (length xs)))
             (of_Z 0 + total xs)%Qc
             (of_Z (Z.of_nat (length xs))) Hn eq_refl).
  - cbn [mbind option_bind]. do 3 f_equal.
    unfold of_Z. rewrite Z2Qc_inj_0. ring.
  - intros H0. apply of_nat_pos in Hpos. rewrite H0 in Hpos.
    by apply Qclt_not_eq in Hpos.
Qed.

Lemma utilization_values_reported field group vs :
  utilization_values field group = Some vs → vs = reported field group.
Proof.
  revert vs. induction group as [|[k m] group IH]; intros vs H.
  - by injection H as <-.
  - cbn [utilization_values] in H.
    destruct (utilization_of m) as [u|] eqn:Hu; [|discriminate H].
    destruct (utilization_values field group) as [rest|]; [|discriminate H].
    cbn [mbind option_bind] in H. injection H as <-.
    rewrite (IH rest eq_refl).
    unfold reported. cbn [omap list_omap snd]. rewrite Hu.
    cbn [mbind option_bind].
    by destruct (u !! field) as [[]|].
Qed.

Lemma foldl_add_None vs :
  foldl (λ acc v, a ← acc; add a v) None vs = None.
Proof. by induction vs. Qed.

Lemma add_Some a b s : add a b = Some s → is_Some (as_num a) ∧ is_Some (as_num b).
Proof.
  unfold add. destruct a, b; simpl; intros H; try discriminate H;
    split; by eexists.
Qed.

Lemma sum_from_Some acc vs s :
  foldl (λ acc v, a ← acc; add a v) (Some acc) vs = Some s →
  ∃ xs, Forall2 (λ v x, as_num v = Some x) vs xs.
Proof.
  revert acc. induction vs as [|v vs IH]; intros acc H.
  - exists []. constructor.
  - cbn [foldl] in H. cbn [mbind option_bind] in H.
    destruct (add acc v) as [s'|] eqn:Ha.
    + destruct (add_Some _ _ _ Ha) as [_ [x Hx]].
      destruct (IH _ H) as [xs Hxs]. exists (x :: xs). by constructor.
    + by rewrite foldl_add_None in H.
Qed.

Lemma average_is_average vs avg :
  average vs = Some avg → is_average vs avg.
Proof.
  intros H. destruct vs as [|v vs].
  - injection H as <-. reflexivity.
  - assert (v :: vs ≠ []) as Hne by done.
    revert H Hne. generalize (v :: vs). clear v vs. intros vs H Hne.
    assert (is_Some (sum vs)) as [s Hs].
    { unfold average in H. destruct vs; [done|].
      destruct (sum _); [by eexists|discriminate H]. }
    destruct (sum_from_Some _ _ _ Hs) as [xs Hxs].
    rewrite (average_numeric _ _ Hne Hxs) in H. injection H as <-.
    unfold is_average. destruct vs; [done|]. by exists xs.
Qed.

Lemma summarize_Some group g :
  summarize group = Some g →
  count g = Z.of_nat (length group)
  ∧ ∀ m, is_average (reported (field_name m) group) (average_of m g).
Proof.
  intros H. destruct group as [|kv group].
  { injection H as <-. split; [done|]. by intros []. }
  revert H. generalize (kv :: group). clear kv group. intros group H.
  assert (summarize group
          = (cpu_values ← utilization_values "cpu" group;
             mem_values ← utilization_values "memory" group;
             cpu_avg ← average cpu_values;
             mem_avg ← average mem_values;
             Some {| count := Z.of_nat (length group);
                     avg_cpu_utilization := cpu_avg;
                     avg_memory_utilization := mem_avg |}) ∨ group = [])
    as [Heq| ->]; [destruct group; [by right|by left]| |].
  - rewrite Heq in H.
    destruct (utilization_values "cpu" group) as [cpus|] eqn:Hc;
      [|discriminate H].
    destruct (utilization_values "memory" group) as [mems|] eqn:Hm;
      [|discriminate H].
    cbn [mbind option_bind] in H.
    destruct (average cpus) as [ca|] eqn:Hca; [|discriminate H].
    destruct (average mems) as [ma|] eqn:Hma; [|discriminate H].
    cbn [mbind option_bind] in H. injection H as <-.
    split; [done|]. intros []; cbn [field_name average_of avg_cpu_utilization
                                     avg_memory_utilization].
    + rewrite <- (utilization_values_reported _ _ _ Hc).
      by apply average_is_average.
    + rewrite <- (utilization_values_reported _ _ _ Hm).
      by apply average_is_average.
  - injection H as <-. split; [done|]. by intros [].
Qed.

(** X18.  What [aggregate_system_metrics] returns, when it returns.
    The amphora group is the hosts whose lower-cased id contains "amp"
    (the test for "amphora" adds nothing), the backend group those
    whose id contains "backend"; a host can be in both groups or in
    neither, and [by_host] is the argument itself.  [count] is the size
    of the group.  Each of the two averages of a group is the integer 0
    when no host of the group reports the figure (missing or None), and
    otherwise a float: the sum of the reported figures divided by their
    number, hosts that do not report being left out of both (the value
    is the exact quotient here; the source rounds the sum and the
    quotient). *)
Theorem system_aggregate_averages (utcnow : string) (metrics : host_map)
    (res : system_aggregate) :
  aggregate_system_metrics utcnow metrics = Some res →
  by_host res = metrics
  ∧ (∀ k, is_amphora k = contains "amp" (lower k))
  ∧ count (amphora res)
    = Z.of_nat (length (filter (λ kv, is_amphora kv.1 = true) metrics))
  ∧ count (backend res)
    = Z.of_nat (length (filter (λ kv, is_backend kv.1 = true) metrics))
  ∧ (∀ m,
       is_average
         (reported (field_name m)
            (filter (λ kv, is_amphora kv.1 = true) metrics))
         (average_of m (amphora res))
       ∧ is_average
           (reported (field_name m)
              (filter (λ kv, is_backend kv.1 = true) metrics))
           (average_of m (backend res))).
Proof.
  intros H. unfold aggregate_system_metrics in H.
  destruct (summarize (filter (λ kv, is_amphora kv.1 = true) metrics))
    as [a|] eqn:Ha; [|discriminate H].
  destruct (summarize (filter (λ kv, is_backend kv.1 = true) metrics))
    as [b|] eqn:Hb; [|discriminate H].
  cbn [mbind option_bind] in H. injection H as <-.
  cbn [by_host amphora backend].
  apply summarize_Some in Ha as [Hca Haa].
  apply summarize_Some in Hb as [Hcb Hab].
  split; [done|]. split; [apply is_amphora_amp|].
  split; [done|]. split; [done|]. by intros m.
Qed.
End SystemAverages.

Lemma system_aggregate_averages_witness :
  match
    SystemAggregate.aggregate_system_metrics "2024-05-01T10:00:00"
      SystemAggregate.example_hosts
  with
  | Some res =>
      SystemAggregate.count (SystemAggregate.amphora res) = 2
      ∧ SystemAggregate.count (SystemAggregate.backend res) = 1
      ∧ SystemAggregate.is_average [Py.PInt 40; Py.PInt 80]
          (SystemAggregate.avg_cpu_utilization (SystemAggregate.amphora res))
      ∧ SystemAggregate.avg_cpu_utilization (SystemAggregate.backend res)
        = Py.PInt 0
  | None => False
  end.
Proof.
  destruct (SystemAggregate.aggregate_system_metrics _ _) as [res|] eqn:H;
    [|vm_compute in H; discriminate H].
  destruct (system_aggregate_averages _ _ _ H) as (_ & _ & Ha & Hb & Havg).
  split; [exact Ha|]. split; [exact Hb|].
  split; [exact (proj1 (Havg SystemAggregate.Cpu))|].
  exact (proj2 (Havg SystemAggregate.Cpu)).
Defined.
